(** * AI News Parser: a shallow embedding of the ingestion, admission and
    publishing pipeline (app/database.py, app/scraper.py, app/translator.py,
    app/telegram_bot.py, app/main.py) and the properties of its specification. *)

From Stdlib Require Import ZArith List String Ascii Bool DecimalString Lia.
From Stdlib Require Import Permutation Sorted.
Import ListNotations.
Local Open Scope string_scope.
Local Open Scope Z_scope.

(** ** Python helpers *)

(** [len(xs)] *)
Definition len {A : Type} (xs : list A) : Z := Z.of_nat (List.length xs).

(** Truthiness of a [str]: the empty string is falsy. *)
Definition truthy (s : string) : bool := negb (s =? "")%string.

(** [xs[:n]] for a non-negative literal [n]. *)
Definition slice_to {A : Type} (n : nat) (xs : list A) : list A := firstn n xs.

(** A [str] is held as its UTF-8 bytes; [len(s)] and [s[:n]] count
    characters, that is the bytes that are not continuation bytes. *)
Definition is_continuation (a : ascii) : bool :=
  (N.land (N_of_ascii a) 192 =? 128)%N.

Fixpoint str_len (s : string) : Z :=
  match s with
  | EmptyString => 0
  | String a rest => (if is_continuation a then 0 else 1) + str_len rest
  end.

Fixpoint str_slice_to (n : nat) (s : string) : string :=
  match s with
  | EmptyString => EmptyString
  | String a rest =>
      if is_continuation a then String a (str_slice_to n rest)
      else match n with
           | O => EmptyString
           | S n' => String a (str_slice_to n' rest)
           end
  end.

(** * app/database.py *)
Module Database.

(** One row of table [news]:
    [id INTEGER PRIMARY KEY AUTOINCREMENT, date TEXT, title TEXT UNIQUE,
     summary_ru TEXT, source_url TEXT, source_name TEXT,
     sent_to_telegram INTEGER DEFAULT 0]. *)
Record Row : Type := mkRow {
  id : Z;
  date : string;
  title : string;
  summary_ru : string;
  source_url : string;
  source_name : string;
  sent_to_telegram : Z
}.

(** The database file: the rows of [news] in rowid order, and the counter
    SQLite keeps in [sqlite_sequence] for the AUTOINCREMENT key (the largest
    rowid ever handed out; it survives [DELETE FROM news]). *)
Record Store : Type := mkStore {
  rows : list Row;
  seq : Z
}.

Definition empty : Store := mkStore [] 0.

Definition max_rowid (rs : list Row) : Z :=
  fold_right (fun r m => Z.max (id r) m) 0 rs.

(** [WHERE title = ?] (BINARY collation: exact match). *)
Definition has_title (t : string) (r : Row) : bool := (title r =? t)%string.

(** [WHERE sent_to_telegram = 0] and [WHERE sent_to_telegram = 1]. *)
Definition is_unsent (r : Row) : bool := sent_to_telegram r =? 0.
Definition is_sent (r : Row) : bool := sent_to_telegram r =? 1.

(** [add_news]: the INSERT raises [IntegrityError] when the UNIQUE
    constraint on [title] is violated, and the function then returns
    [False] with the table untouched; otherwise the row is appended with a
    fresh AUTOINCREMENT id, the date read from the clock ([now] stands for
    [datetime.now().isoformat()]) and the default [sent_to_telegram = 0]. *)
Definition add_news (now : string) (title summary_ru source_url source_name : string)
    (db : Store) : Store * bool :=
  if existsb (has_title title) (rows db) then (db, false)
  else
    let rowid := Z.max (seq db) (max_rowid (rows db)) + 1 in
    (mkStore (rows db ++ [mkRow rowid now title summary_ru source_url source_name 0])
             rowid,
     true).

(** [check_if_exists]: [SELECT 1 FROM news WHERE title = ?] returns a row. *)
Definition check_if_exists (title : string) (db : Store) : bool :=
  existsb (has_title title) (rows db).

(** [ORDER BY date DESC]: TEXT values compare bytewise.  The sort is written
    as a stable insertion sort; rows with equal dates keep rowid order. *)
Fixpoint insert_by_date_desc (r : Row) (rs : list Row) : list Row :=
  match rs with
  | [] => [r]
  | r' :: rs' =>
      if String.leb (date r') (date r) then r :: r' :: rs'
      else r' :: insert_by_date_desc r rs'
  end.

Definition order_by_date_desc (rs : list Row) : list Row :=
  fold_right insert_by_date_desc [] rs.

(** [get_all_news], [get_pending_news], [get_sent_news]. *)
Definition get_all_news (db : Store) : list Row :=
  order_by_date_desc (rows db).
Definition get_pending_news (db : Store) : list Row :=
  order_by_date_desc (filter is_unsent (rows db)).
Definition get_sent_news (db : Store) : list Row :=
  order_by_date_desc (filter is_sent (rows db)).

(** [get_unsent_news]:
    [SELECT * FROM news WHERE sent_to_telegram = 0 ORDER BY date DESC LIMIT 1],
    [None] when no row comes back. *)
Definition get_unsent_news (db : Store) : option Row :=
  hd_error (order_by_date_desc (filter is_unsent (rows db))).

(** [mark_as_sent]: [UPDATE news SET sent_to_telegram = 1 WHERE id = ?]. *)
Definition set_sent (r : Row) : Row :=
  mkRow (id r) (date r) (title r) (summary_ru r) (source_url r) (source_name r) 1.

Definition mark_as_sent (news_id : Z) (db : Store) : Store :=
  mkStore (map (fun r => if id r =? news_id then set_sent r else r) (rows db))
          (seq db).

(** [get_news_count], [get_pending_count], [get_sent_count]. *)
Definition get_news_count (db : Store) : Z := len (rows db).
Definition get_pending_count (db : Store) : Z := len (filter is_unsent (rows db)).
Definition get_sent_count (db : Store) : Z := len (filter is_sent (rows db)).

(** [clear_all_news]: counts, then [DELETE FROM news]. *)
Definition clear_all_news (db : Store) : Store * Z :=
  (mkStore [] (Z.max (seq db) (max_rowid (rows db))), len (rows db)).

(** A call on the repository, as another task or an earlier request may
    issue it. *)
Inductive Op : Type :=
| OpAdd (now title summary_ru source_url source_name : string)
| OpMarkSent (news_id : Z)
| OpClear.

Definition run_op (o : Op) (db : Store) : Store :=
  match o with
  | OpAdd now t s u n => fst (add_news now t s u n db)
  | OpMarkSent i => mark_as_sent i db
  | OpClear => fst (clear_all_news db)
  end.

Definition run_ops (os : list Op) (db : Store) : Store :=
  fold_left (fun d o => run_op o d) os db.

(** ** Notions used to state the properties of the repository *)

(** Every row of a list is dated no later than [x]. *)
Definition newest (x : Row) (rs : list Row) : Prop :=
  forall r, In r rs -> String.leb (date r) (date x) = true.

(** No two rows of the table share a title. *)
Definition unique_titles (d : Store) : Prop := NoDup (map title (rows d)).

(** A row with id [i] was handed out, and every row with that id is flagged
    as sent. *)
Definition sent_for_good (i : Z) (d : Store) : Prop :=
  i <= Z.max (seq d) (max_rowid (rows d)) /\
  forall r, In r (rows d) -> id r = i -> sent_to_telegram r = 1.

(** Every flag of the table is 0 or 1. *)
Definition flags_binary (d : Store) : Prop :=
  forall r, In r (rows d) -> sent_to_telegram r = 0 \/ sent_to_telegram r = 1.

(** No two rows share an id. *)
Definition unique_ids (d : Store) : Prop := NoDup (map id (rows d)).

(** [r] is dated no earlier than [r']. *)
Definition dated_after (r r' : Row) : Prop :=
  String.leb (date r') (date r) = true.

(** A row without its summary. *)
Definition forget_summary (r : Row) : Row :=
  mkRow (id r) (date r) (title r) EmptyString (source_url r) (source_name r)
        (sent_to_telegram r).

(** Two tables with the same rows up to the summaries. *)
Definition same_but_summaries (d d' : Store) : Prop :=
  map forget_summary (rows d) = map forget_summary (rows d') /\ seq d = seq d'.

End Database.

(** * Exceptions

    A call that may raise: it returns a value or raises an exception.  The
    handlers of this program catch [Exception] wholesale, so the exception
    carries no payload. *)
Inductive outcome (A : Type) : Type :=
| Returns (a : A)
| Raises.
Arguments Returns {A} a.
Arguments Raises {A}.

Definition bind {A B : Type} (c : outcome A) (k : A -> outcome B) : outcome B :=
  match c with
  | Returns a => k a
  | Raises => Raises
  end.

Declare Scope try_scope.
Delimit Scope try_scope with try.
Notation "x <- c ;; k" := (bind c (fun x => k))
  (at level 61, c at next level, right associativity) : try_scope.
Notation "c ;;; k" := (bind c (fun _ => k))
  (at level 61, right associativity) : try_scope.

(** * app/scraper.py *)
Module Scraper.

Record NewsItem : Type := mkNewsItem {
  title : string;
  summary : string;
  url : string;
  source : string
}.

(** ** The browser, as the adapters see it

    An element handle answers [inner_text()], [get_attribute(name)],
    [query_selector(sel)] and [query_selector_all(sel)]; each may raise. *)
#[local] Unset Elimination Schemes.
Inductive Element : Type := mkElement {
  inner_text : outcome string;
  get_attribute : string -> outcome (option string);
  query_selector : string -> outcome (option Element);
  query_selector_all : string -> outcome (list Element)
}.
#[local] Set Elimination Schemes.

(** What [page.goto(url)] loads: the document, and the answers to
    [wait_for_load_state] and [wait_for_selector(sel)] (a timeout raises). *)
Record Doc : Type := mkDoc {
  root : Element;
  wait_for_load_state : outcome unit;
  wait_for_selector : string -> outcome unit
}.

Record Page : Type := mkPage {
  goto : string -> outcome Doc
}.

Record Context : Type := mkContext {
  new_page : outcome Page;
  close : outcome unit
}.

(** [browser.new_context(...)] is called once by each adapter; the argument
    is the number of contexts opened before. *)
Record Browser : Type := mkBrowser {
  new_context : nat -> outcome Context;
  browser_close : outcome unit
}.

(** [async_playwright()] and [p.chromium.launch(...)]. *)
Record Playwright : Type := mkPlaywright {
  launch : outcome Browser
}.

(** Library functions the module calls: [str.strip], [urllib.parse.urljoin],
    [re.sub(r'\s+', ' ', _)] and [re.split(r'(?<=[.!?])\s+', _)]. *)
Class Library : Type := mkLibrary {
  strip : string -> string;
  urljoin : string -> string -> string;
  re_sub_spaces : string -> string;
  re_split_sentences : string -> list string
}.

Section WithLibrary.

Context {lib : Library}.

Definition make_absolute_url (url base_url : string) : string :=
  if negb (truthy url) then ""
  else if String.prefix "http" url then url
  else urljoin base_url url.

(** [len] of a [str] counts the characters of the text. *)
Definition extract_first_sentences (text : string) (count : nat) : string :=
  if negb (truthy text) then ""
  else
    let text := re_sub_spaces (strip text) in
    let sentences := re_split_sentences text in
    let result := String.concat " " (slice_to count sentences) in
    if 500 <? str_len result
    then str_slice_to 497 result ++ "..."
    else result.

(** The paragraphs loop of [get_article_content]; an [inner_text] that
    raises leaves through the enclosing [try]. *)
Fixpoint collect_texts (elements : list Element) : outcome (list string) :=
  match elements with
  | [] => Returns []
  | elem :: rest =>
      (text <- inner_text elem ;;
       texts <- collect_texts rest ;;
       Returns (if truthy text && (30 <? str_len text)
                then strip text :: texts else texts))%try
  end.

(** One turn of [for selector in selectors]: [Some s] is [return s],
    [None] falls through to the next selector (also after an exception). *)
Definition try_selector (doc : Doc) (selector : string) : option string :=
  match
    (elements <- query_selector_all (root doc) selector ;;
     match elements with
     | [] => Returns None
     | _ :: _ =>
         texts <- collect_texts (slice_to 5 elements) ;;
         match texts with
         | [] => Returns None
         | _ :: _ =>
             Returns (Some (extract_first_sentences (String.concat " " texts) 3))
         end
     end)%try
  with
  | Returns r => r
  | Raises => None
  end.

Fixpoint first_content (doc : Doc) (selectors : list string) : string :=
  match selectors with
  | [] => ""
  | selector :: rest =>
      match try_selector doc selector with
      | Some s => s
      | None => first_content doc rest
      end
  end.

(** [get_article_content]: every exception ends in [return ""]. *)
Definition get_article_content (page : Page) (url : string)
    (selectors : list string) : string :=
  match
    (doc <- goto page url ;;
     wait_for_load_state doc ;;;
     Returns (first_content doc selectors))%try
  with
  | Returns s => s
  | Raises => ""
  end.

(** The probing loop for the container selector: the first selector that
    [page.query_selector] finds wins; an exception moves on to the next. *)
Fixpoint pick_selector (doc : Doc) (candidates : list string)
    (default : string) : string :=
  match candidates with
  | [] => default
  | selector :: rest =>
      match query_selector (root doc) selector with
      | Returns (Some _) => selector
      | Returns None => pick_selector doc rest default
      | Raises => pick_selector doc rest default
      end
  end.

(** An entry of [article_data]. *)
Record ArticleData : Type := mkArticleData {
  data_title : string;
  data_url : string
}.

(** Truthiness of an optional [str] ([None] and [""] are falsy). *)
Definition truthy_opt (o : option string) : bool :=
  match o with
  | Some s => truthy s
  | None => false
  end.

Definition opt_str (o : option string) : string :=
  match o with
  | Some s => s
  | None => ""
  end.

(** The second loop of every adapter: visit each article and build the item. *)
Definition visit_articles (page : Page) (content_selectors : list string)
    (source_name : string) (article_data : list ArticleData) : list NewsItem :=
  map (fun data =>
         let summary := get_article_content page (data_url data) content_selectors in
         mkNewsItem (data_title data)
                    (if truthy summary then summary else data_title data)
                    (data_url data)
                    source_name)
      (slice_to 20 article_data).

(** The first loop of [scrape_techcrunch] and [scrape_venturebeat]; the body
    of the [try] gives [Some] entry, [None] on [continue] and on an
    exception. *)
Definition read_article (title_selector base_url : string) (article : Element)
    : option ArticleData :=
  match
    (title_elem <- query_selector article title_selector ;;
     match title_elem with
     | None => Returns None
     | Some title_elem =>
         title <- inner_text title_elem ;;
         url <- get_attribute title_elem "href" ;;
         Returns (if truthy title && truthy_opt url
                  then Some (mkArticleData (strip title)
                                           (make_absolute_url (opt_str url) base_url))
                  else None)
     end)%try
  with
  | Returns r => r
  | Raises => None
  end.

Fixpoint filter_map {A B : Type} (f : A -> option B) (xs : list A) : list B :=
  match xs with
  | [] => []
  | x :: rest =>
      match f x with
      | Some y => y :: filter_map f rest
      | None => filter_map f rest
      end
  end.

(** The first loop of [scrape_theverge]. *)
Definition read_article_theverge (article : Element) : option ArticleData :=
  match
    (found <- query_selector article "h2 a, a h2, h3 a" ;;
     title_elem <- match found with
                   | Some e => Returns (Some e)
                   | None => query_selector article "a[href*='/2']"
                   end ;;
     match title_elem with
     | None => Returns None
     | Some title_elem =>
         title <- inner_text title_elem ;;
         url <- get_attribute title_elem "href" ;;
         url <- (if truthy_opt url then Returns url
                 else
                   parent <- query_selector title_elem "xpath=ancestor::a" ;;
                   match parent with
                   | Some parent => get_attribute parent "href"
                   | None => Returns url
                   end) ;;
         let url := if truthy_opt url
                    then Some (make_absolute_url (opt_str url) "https://www.theverge.com")
                    else url in
         Returns (if truthy title && truthy_opt url
                     && (5 <? str_len title)
                  then Some (mkArticleData (strip title) (opt_str url))
                  else None)
     end)%try
  with
  | Returns r => r
  | Raises => None
  end.

(** ** The adapters

    Each adapter opens its context and page before the [try]; the body of the
    [try] is given first, then the adapter with its [except] and [finally]. *)

Definition techcrunch_body (page : Page) : outcome (list NewsItem) :=
  (doc <- goto page "https://techcrunch.com/category/artificial-intelligence/" ;;
   let article_selector :=
     pick_selector doc ["div.wp-block-post"; "div.loop-card__content"; "article"]
                   "article" in
   wait_for_selector doc article_selector ;;;
   articles <- query_selector_all (root doc) article_selector ;;
   let article_data :=
     filter_map (read_article
                   "h2.wp-block-post-title a, h2.loop-card__title a, h2 a, h3 a"
                   "https://techcrunch.com")
                (slice_to 20 articles) in
   Returns (visit_articles page
              ["article p"; ".article-content p"; ".post-content p"; ".entry-content p"]
              "TechCrunch" article_data))%try.

Definition theverge_body (page : Page) : outcome (list NewsItem) :=
  (doc <- goto page "https://www.theverge.com/ai-artificial-intelligence" ;;
   let article_selector :=
     pick_selector doc ["div.duet--content-cards--content-card";
                        "div[data-component='EntryBox'], article"]
                   "div[data-component='EntryBox'], article" in
   wait_for_selector doc article_selector ;;;
   articles <- query_selector_all (root doc) article_selector ;;
   let article_data := filter_map read_article_theverge (slice_to 20 articles) in
   Returns (visit_articles page
              ["article p"; ".duet--article--article-body-component p";
               ".c-entry-content p"]
              "The Verge" article_data))%try.

Definition venturebeat_body (page : Page) : outcome (list NewsItem) :=
  (doc <- goto page "https://venturebeat.com/category/ai/" ;;
   wait_for_selector doc "article" ;;;
   articles <- query_selector_all (root doc) "article" ;;
   let article_data :=
     filter_map (read_article "h2 a, .ArticleListing__title a"
                              "https://venturebeat.com")
                (slice_to 20 articles) in
   Returns (visit_articles page
              ["article p"; ".article-content p"; ".entry-content p"]
              "VentureBeat" article_data))%try.

(** [try: body / except Exception: return [], False / finally: await
    context.close()], followed by [return news_items, True]. *)
Definition guarded (context : Context) (body : outcome (list NewsItem))
    : outcome (list NewsItem * bool) :=
  match body with
  | Returns news_items => (close context ;;; Returns (news_items, true))%try
  | Raises => (close context ;;; Returns ([], false))%try
  end.

Definition adapter (body : Page -> outcome (list NewsItem))
    (browser : Browser) (opened : nat) : outcome (list NewsItem * bool) :=
  (context <- new_context browser opened ;;
   page <- new_page context ;;
   guarded context (body page))%try.

Definition scrape_techcrunch := adapter techcrunch_body.
Definition scrape_theverge := adapter theverge_body.
Definition scrape_venturebeat := adapter venturebeat_body.

(** ** [scrape_all_sources] *)

Inductive Status : Type := online | offline.

Record SourceStat : Type := mkSourceStat {
  count : Z;
  status : Status
}.

(** A [dict] with [str] keys, in insertion order. *)
Definition dict (V : Type) : Type := list (string * V).

Fixpoint dict_set {V : Type} (d : dict V) (k : string) (v : V) : dict V :=
  match d with
  | [] => [(k, v)]
  | (k', v') :: rest =>
      if (k' =? k)%string then (k, v) :: rest else (k', v') :: dict_set rest k v
  end.

Fixpoint dict_get {V : Type} (d : dict V) (k : string) : option V :=
  match d with
  | [] => None
  | (k', v') :: rest => if (k' =? k)%string then Some v' else dict_get rest k
  end.

Record ScrapeResult : Type := mkScrapeResult {
  items : list NewsItem;
  sources : dict SourceStat
}.

Definition stat_of (found : list NewsItem) (is_online : bool) : SourceStat :=
  mkSourceStat (len found) (if is_online then online else offline).

Definition scrape_all_sources (p : Playwright) : outcome ScrapeResult :=
  (let all_news : list NewsItem := [] in
   let source_stats : dict SourceStat := [] in
   browser <- launch p ;;
   tc <- scrape_techcrunch browser 0%nat ;;
   let source_stats := dict_set source_stats "TechCrunch" (stat_of (fst tc) (snd tc)) in
   let all_news := (all_news ++ fst tc)%list in
   tv <- scrape_theverge browser 1%nat ;;
   let source_stats := dict_set source_stats "The Verge" (stat_of (fst tv) (snd tv)) in
   let all_news := (all_news ++ fst tv)%list in
   vb <- scrape_venturebeat browser 2%nat ;;
   let source_stats := dict_set source_stats "VentureBeat" (stat_of (fst vb) (snd vb)) in
   let all_news := (all_news ++ fst vb)%list in
   browser_close browser ;;;
   Returns (mkScrapeResult all_news source_stats))%try.

End WithLibrary.

(** What an adapter contributes to the run, from the outcome of the body of
    its [try]: the items, and the entry of the per-source map. *)
Definition harvest (body : outcome (list NewsItem)) : list NewsItem :=
  match body with
  | Returns news_items => news_items
  | Raises => []
  end.

Definition report (body : outcome (list NewsItem)) : SourceStat :=
  match body with
  | Returns news_items => mkSourceStat (len news_items) online
  | Raises => mkSourceStat 0 offline
  end.

(** The calls an adapter makes outside its [try] fail for the context
    opened at rank [k]: [new_context] raises, or [new_page] does, or the
    [close] of the [finally] does. *)
Definition context_fails (browser : Browser) (k : nat) : Prop :=
  new_context browser k = Raises \/
  exists context,
    new_context browser k = Returns context /\
    (new_page context = Raises \/
     exists page, new_page context = Returns page /\ close context = Raises).

(** The summary of an item is its title, or a text of at most 500
    characters that is not empty. *)
Definition summary_ok (item : NewsItem) : Prop :=
  summary item = title item \/
  (truthy (summary item) = true /\ str_len (summary item) <= 500).

End Scraper.

(** * app/translator.py *)
Module Translator.

(** The reply of LibreTranslate to [POST /translate]: the status code and
    the [translatedText] field of the JSON body, when it has one. *)
Record Reply : Type := mkReply {
  status_code : Z;
  translatedText : option string
}.

(** [translate_to_russian]: the text itself when it is empty, when the
    status is not 200, on a timeout and on any other exception. *)
Definition translate_to_russian (post : string -> outcome Reply) (text : string)
    : string :=
  if negb (truthy text) then text
  else
    match post text with
    | Returns response =>
        if status_code response =? 200
        then match translatedText response with
             | Some translated => translated
             | None => text
             end
        else text
    | Raises => text
    end.

(** [check_libretranslate_status]: [GET /languages] answers 200. *)
Definition check_libretranslate_status (get : outcome Z) : bool :=
  match get with
  | Returns code => code =? 200
  | Raises => false
  end.

End Translator.

(** * app/telegram_bot.py *)
Module TelegramBot.

(** What [client.post(.../sendMessage)] does: it answers with a status code
    and a body whose JSON may carry a [description] (or is not JSON at all,
    and [response.json()] raises), it times out, or it raises otherwise. *)
Inductive Post : Type :=
| Answered (status_code : Z) (json : string + option string)
| TimedOut
| Failed (err : string).

(** The character [U+0022]. *)
Definition dquote : string := String (ascii_of_nat 34) EmptyString.

Definition render (title summary source_url source_name : string) : string :=
  "📰 <b>" ++ title ++ "</b>

" ++ summary ++ "

🔗 <a href=" ++ dquote ++ source_url ++ dquote ++ ">Источник: " ++ source_name
  ++ "</a>".

Definition send_news_to_telegram (post : string -> Post)
    (title summary source_url source_name : string) : bool * string :=
  let message := render title summary source_url source_name in
  match post message with
  | Answered status_code json =>
      if status_code =? 200 then (true, "Сообщение отправлено")
      else match json with
           | inr (Some description) => (false, "Ошибка: " ++ description)
           | inr None => (false, "Ошибка: Unknown error")
           | inl err => (false, "Ошибка: " ++ err)
           end
  | TimedOut => (false, "Таймаут при отправке")
  | Failed err => (false, "Ошибка: " ++ err)
  end.

End TelegramBot.

(** * app/main.py *)
Module Main.

(** An [asyncio.Task], named by its creation rank. *)
Definition Task : Type := nat.

(** [last_auto_parse_stats]; the initial value has no ["sources"] key. *)
Record ParseStats : Type := mkParseStats {
  found : Z;
  added : Z;
  duplicates : Z;
  sources : option (Scraper.dict Scraper.SourceStat)
}.

(** The awaited calls of the module, as they are logged. *)
Inductive Event : Type :=
| CheckLibreTranslate
| GetPendingCount
| GetNewsCount
| ScrapeAllSources
| CheckIfExists (title : string)
| Translate (text : string)
| AddNews (title : string)
| GetUnsentNews
| SendTelegram (title summary source_url source_name : string)
| MarkAsSent (news_id : Z)
| Sleep (seconds : Z)
| CreateTask (t : Task)
| CancelTask (t : Task).

(** The services outside the process, for the duration of one request or
    one scheduler iteration. *)
Record Services : Type := mkServices {
  libretranslate_languages : outcome Z;
  libretranslate_translate : string -> outcome Translator.Reply;
  playwright : Scraper.Playwright;
  telegram : string -> TelegramBot.Post;
  isoformat_now : nat -> string
}.

(** The process and its database: the module globals, the tasks of the
    event loop that were created and not cancelled, the clock, what the
    other tasks of the process do to the database at each suspension of the
    running one ([others]: one batch per [await], none when it is empty),
    and the log of the calls made. *)
Record World : Type := mkWorld {
  db : Database.Store;
  auto_send_task : option Task;
  auto_send_running : bool;
  last_auto_parse_stats : ParseStats;
  live_tasks : list Task;
  created_tasks : nat;
  clock : nat;
  others : list (list Database.Op);
  log : list Event
}.

Definition initial_stats : ParseStats := mkParseStats 0 0 0 None.

Definition boot (d : Database.Store) : World :=
  mkWorld d None false initial_stats [] 0 0 [] [].

Definition with_db (f : Database.Store -> Database.Store) (w : World) : World :=
  mkWorld (f (db w)) (auto_send_task w) (auto_send_running w)
          (last_auto_parse_stats w) (live_tasks w) (created_tasks w) (clock w)
          (others w) (log w).

(** ** Commands over the world *)

Definition M (A : Type) : Type := World -> A * World.

Definition ret {A : Type} (a : A) : M A := fun w => (a, w).

Definition mbind {A B : Type} (c : M A) (k : A -> M B) : M B :=
  fun w => let (a, w') := c w in k a w'.

Declare Scope cmd_scope.
Delimit Scope cmd_scope with cmd.
Notation "x <- c ;; k" := (mbind c (fun x => k))
  (at level 61, c at next level, right associativity) : cmd_scope.
Notation "c ;;; k" := (mbind c (fun _ => k))
  (at level 61, right associativity) : cmd_scope.

Definition emit (e : Event) : M unit :=
  fun w => (tt, mkWorld (db w) (auto_send_task w) (auto_send_running w)
                        (last_auto_parse_stats w) (live_tasks w) (created_tasks w)
                        (clock w) (others w) (log w ++ [e])).

(** An [await] hands control to the event loop: the other tasks run their
    next batch of repository calls before the awaited call takes place. *)
Definition suspend : M unit :=
  fun w =>
    match others w with
    | [] => (tt, w)
    | batch :: rest =>
        (tt, mkWorld (Database.run_ops batch (db w)) (auto_send_task w)
                     (auto_send_running w) (last_auto_parse_stats w) (live_tasks w)
                     (created_tasks w) (clock w) rest (log w))
    end.

Definition await {A : Type} (e : Event) (call : M A) : M A :=
  (suspend ;;; emit e ;;; call)%cmd.

Definition read_clock (services : Services) : M string :=
  fun w => (isoformat_now services (clock w),
            mkWorld (db w) (auto_send_task w) (auto_send_running w)
                    (last_auto_parse_stats w) (live_tasks w) (created_tasks w)
                    (S (clock w)) (others w) (log w)).

Definition set_running (b : bool) : M unit :=
  fun w => (tt, mkWorld (db w) (auto_send_task w) b (last_auto_parse_stats w)
                        (live_tasks w) (created_tasks w) (clock w) (others w) (log w)).

Definition set_task (t : option Task) : M unit :=
  fun w => (tt, mkWorld (db w) t (auto_send_running w) (last_auto_parse_stats w)
                        (live_tasks w) (created_tasks w) (clock w) (others w) (log w)).

Definition set_stats (st : ParseStats) : M unit :=
  fun w => (tt, mkWorld (db w) (auto_send_task w) (auto_send_running w) st
                        (live_tasks w) (created_tasks w) (clock w) (others w) (log w)).

(** [asyncio.create_task(auto_send_loop())]. *)
Definition create_task : M Task :=
  fun w =>
    let t := created_tasks w in
    (t, mkWorld (db w) (auto_send_task w) (auto_send_running w)
                (last_auto_parse_stats w) (live_tasks w ++ [t]) (S t) (clock w)
                (others w) (log w ++ [CreateTask t])).

(** [task.cancel()]. *)
Definition cancel (t : Task) : M unit :=
  fun w =>
    (tt, mkWorld (db w) (auto_send_task w) (auto_send_running w)
                 (last_auto_parse_stats w)
                 (filter (fun t' => negb (Nat.eqb t' t)) (live_tasks w))
                 (created_tasks w) (clock w) (others w) (log w ++ [CancelTask t])).

Section WithServices.

Context {lib : Scraper.Library}.
Variable services : Services.

(** ** The awaited calls *)

Definition get_pending_count : M Z :=
  await GetPendingCount (fun w => (Database.get_pending_count (db w), w)).

Definition get_news_count : M Z :=
  await GetNewsCount (fun w => (Database.get_news_count (db w), w)).

Definition check_if_exists (title : string) : M bool :=
  await (CheckIfExists title)
        (fun w => (Database.check_if_exists title (db w), w)).

Definition add_news (title summary_ru source_url source_name : string) : M bool :=
  await (AddNews title)
        (now <- read_clock services ;;
         fun w =>
           let (d, ok) :=
             Database.add_news now title summary_ru source_url source_name (db w) in
           (ok, with_db (fun _ => d) w))%cmd.

Definition get_unsent_news : M (option Database.Row) :=
  await GetUnsentNews (fun w => (Database.get_unsent_news (db w), w)).

Definition mark_as_sent (news_id : Z) : M unit :=
  await (MarkAsSent news_id)
        (fun w => (tt, with_db (Database.mark_as_sent news_id) w)).

Definition check_libretranslate_status : M bool :=
  await CheckLibreTranslate
        (ret (Translator.check_libretranslate_status
                (libretranslate_languages services))).

Definition translate_to_russian (text : string) : M string :=
  await (Translate text)
        (ret (Translator.translate_to_russian
                (libretranslate_translate services) text)).

Definition scrape_all_sources : M (outcome Scraper.ScrapeResult) :=
  await ScrapeAllSources (ret (Scraper.scrape_all_sources (playwright services))).

Definition send_news_to_telegram (title summary source_url source_name : string)
    : M (bool * string) :=
  await (SendTelegram title summary source_url source_name)
        (ret (TelegramBot.send_news_to_telegram (telegram services)
                title summary source_url source_name)).

Definition sleep (seconds : Z) : M unit := await (Sleep seconds) (ret tt).

(** ** Responses *)

Inductive Response : Type :=
| Parsed (message : string) (added : Z) (parsed : option Z)
         (sources : option (Scraper.dict Scraper.SourceStat))
| Sent (message sent_news : string)
| Message (message : string)
| JSONResponse (status_code : Z) (error : string)
| Unhandled.

(** ** [api_parse_news] *)

(** The body of [for item in news_items], after the capacity test. *)
Definition parse_step (item : Scraper.NewsItem) (added_count : Z) : M Z :=
  (translated_summary <- translate_to_russian (Scraper.summary item) ;;
   added <- add_news (Scraper.title item) translated_summary
                     (Scraper.url item) (Scraper.source item) ;;
   ret (if added then added_count + 1 else added_count))%cmd.

(** The [for item in news_items] loop.  Besides [added_count] it returns
    the candidates that the [break] left unvisited (not a program value:
    kept to state properties of the run). *)
Fixpoint parse_loop (max_to_add : Z) (news_items : list Scraper.NewsItem)
    (added_count : Z) : M (Z * list Scraper.NewsItem) :=
  match news_items with
  | [] => ret (added_count, [])
  | item :: rest =>
      if max_to_add <=? added_count then ret (added_count, news_items)
      else
        (added_count <- parse_step item added_count ;;
         parse_loop max_to_add rest added_count)%cmd
  end.

Definition translator_note (lt_status : bool) : string :=
  if lt_status then "" else " (переводчик недоступен)".

(** [str(n)] of an [int]. *)
Definition str_of_int (n : Z) : string := NilZero.string_of_int (Z.to_int n).

(** What a run of the admission loop was given and left, for the record:
    the pending count it read and the candidates the [break] left unvisited. *)
Record ManualRun : Type := mkManualRun {
  manual_pending : Z;
  manual_unvisited : list Scraper.NewsItem
}.

Definition api_parse_news_run : M (Response * option ManualRun) :=
  (lt_status <- check_libretranslate_status ;;
   pending_count <- get_pending_count ;;
   let max_to_add := Z.max 0 (10 - pending_count) in
   if max_to_add =? 0
   then ret (Parsed "В базе уже 10 ожидающих новостей" 0 (Some 0) None, None)
   else
     scrape_result <- scrape_all_sources ;;
     match scrape_result with
     | Raises => ret (Unhandled, None)
     | Returns scrape_result =>
         let news_items := Scraper.items scrape_result in
         match news_items with
         | [] => ret (Parsed "Новости не найдены" 0 None None, None)
         | _ :: _ =>
             r <- parse_loop max_to_add news_items 0 ;;
             let added_count := fst r in
             set_stats (mkParseStats (len news_items) added_count
                                     (len news_items - added_count)
                                     (Some (Scraper.sources scrape_result))) ;;;
             ret (Parsed ("Добавлено " ++ str_of_int added_count ++ " новых новостей"
                           ++ translator_note lt_status)
                         added_count (Some (len news_items))
                         (Some (Scraper.sources scrape_result)),
                  Some (mkManualRun pending_count (snd r)))
         end
     end)%cmd.

Definition api_parse_news : M Response :=
  (r <- api_parse_news_run ;; ret (fst r))%cmd.

(** ** [api_send_telegram] *)

Definition api_send_telegram : M Response :=
  (news <- get_unsent_news ;;
   match news with
   | None => ret (JSONResponse 404 "Нет новостей для отправки")
   | Some news =>
       sent <- send_news_to_telegram (Database.title news) (Database.summary_ru news)
                                     (Database.source_url news)
                                     (Database.source_name news) ;;
       let (success, message) := (sent : bool * string) in
       if success
       then mark_as_sent (Database.id news) ;;; ret (Sent message (Database.title news))
       else ret (JSONResponse 500 message)
   end)%cmd.

(** ** [auto_send_loop] *)

(** The counters of the duplicate-aware pass.  [skipped] is not a program
    variable: it counts the turns that reach the empty [else] of
    [if added < needed] (the comment there: the item is skipped, counted in
    found, and is not a duplicate). *)
Record Tally : Type := mkTally {
  tally_added : Z;
  tally_duplicates : Z;
  tally_skipped : Z
}.

(** The body of [for item in news_items]. *)
Definition admit_step (needed : Z) (item : Scraper.NewsItem) (t : Tally) : M Tally :=
  (exists_ <- check_if_exists (Scraper.title item) ;;
   if (exists_ : bool)
   then ret (mkTally (tally_added t) (tally_duplicates t + 1) (tally_skipped t))
   else if tally_added t <? needed
   then
     translated_summary <- translate_to_russian (Scraper.summary item) ;;
     add_news (Scraper.title item) translated_summary
              (Scraper.url item) (Scraper.source item) ;;;
     ret (mkTally (tally_added t + 1) (tally_duplicates t) (tally_skipped t))
   else ret (mkTally (tally_added t) (tally_duplicates t) (tally_skipped t + 1)))%cmd.

Fixpoint admit_loop (needed : Z) (news_items : list Scraper.NewsItem)
    (t : Tally) : M Tally :=
  match news_items with
  | [] => ret t
  | item :: rest =>
      (t <- admit_step needed item t ;; admit_loop needed rest t)%cmd
  end.

(** The body of [if pending_count < 10]; [None] when the [try] is left by
    an exception. *)
Definition auto_parse (pending_count : Z) : M (option Tally) :=
  (let needed := 10 - pending_count in
   check_libretranslate_status ;;;
   scrape_result <- scrape_all_sources ;;
   match scrape_result with
   | Raises => ret None
   | Returns scrape_result =>
       let news_items := Scraper.items scrape_result in
       let found_count := len news_items in
       t <- admit_loop needed news_items (mkTally 0 0 0) ;;
       set_stats (mkParseStats found_count (tally_added t) (tally_duplicates t)
                               (Some (Scraper.sources scrape_result))) ;;;
       ret (Some t)
   end)%cmd.

(** One turn of [while auto_send_running].  For the record it returns the
    pending count it read and, when the pass over the candidates ran to its
    end, the counters of the pass. *)
Definition auto_send_iteration : M (Z * option Tally) :=
  (pending_count <- get_pending_count ;;
   t <- (if pending_count <? 10 then auto_parse pending_count else ret None) ;;
   sleep 30 ;;;
   ret (pending_count, t))%cmd.

(** [auto_send_loop], for at most [turns] turns of the [while]. *)
Fixpoint auto_send_loop (turns : nat) : M unit :=
  match turns with
  | O => ret tt
  | S turns' =>
      fun w =>
        if auto_send_running w
        then (auto_send_iteration ;;; auto_send_loop turns')%cmd w
        else (tt, w)
  end.

(** ** [api_start_auto_send] and [api_stop_auto_send] *)

Definition api_start_auto_send : M Response :=
  fun w =>
    if auto_send_running w then (Message "Автоотправка уже запущена", w)
    else
      (count <- get_news_count ;;
       if count =? 0
       then ret (JSONResponse 400 "Нет новостей в базе. Сначала выполните парсинг.")
       else
         set_running true ;;;
         t <- create_task ;;
         set_task (Some t) ;;;
         ret (Message "Автоотправка запущена (каждые 30 секунд)"))%cmd w.

Definition api_stop_auto_send : M Response :=
  fun w =>
    if negb (auto_send_running w) then (Message "Автоотправка не запущена", w)
    else
      (set_running false ;;;
       (fun w' =>
          match auto_send_task w' with
          | Some t => (cancel t ;;; set_task None)%cmd w'
          | None => (tt, w')
          end) ;;;
       ret (Message "Автоотправка остановлена"))%cmd w.

(** A request to the scheduler endpoints. *)
Inductive Request : Type :=
| Start
| Stop.

Definition serve (r : Request) : M Response :=
  match r with
  | Start => api_start_auto_send
  | Stop => api_stop_auto_send
  end.

Fixpoint serve_all (rs : list Request) (w : World) : World :=
  match rs with
  | [] => w
  | r :: rest => serve_all rest (snd (serve r w))
  end.

End WithServices.

(** The repository as the next awaited call finds it: the other tasks have
    run their next batch. *)
Definition seen (w : World) : Database.Store := db (snd (suspend w)).

(** ** Notions used to state the properties of the commands *)

(** The world in which an awaited call logged as [e] takes place. *)
Definition arrive (e : Event) (w : World) : World :=
  snd (emit e (snd (suspend w))).

(** The world after [add_news]: the clock has ticked and the table is what
    [Database.add_news] leaves. *)
Definition inserted (services : Services) (t s u n : string) (w : World) : World :=
  let w1 := arrive (AddNews t) w in
  let w2 := snd (read_clock services w1) in
  with_db (fun _ => fst (Database.add_news (isoformat_now services (clock w1))
                                           t s u n (seen w)))
          w2.

(** The events that a publish request adds to the log when it selects [x]. *)
Definition publish_events (services : Services) (x : Database.Row) : list Event :=
  GetUnsentNews
  :: SendTelegram (Database.title x) (Database.summary_ru x)
                  (Database.source_url x) (Database.source_name x)
  :: (if fst (TelegramBot.send_news_to_telegram (telegram services)
                (Database.title x) (Database.summary_ru x)
                (Database.source_url x) (Database.source_name x))
      then [MarkAsSent (Database.id x)] else []).

(** One loop task is alive when the flag is up, and it is the one the
    process remembers; none is alive when the flag is down. *)
Definition one_loop (w : World) : Prop :=
  if auto_send_running w
  then exists t, auto_send_task w = Some t /\ live_tasks w = [t]
  else live_tasks w = [].

(** The table [d'] comes from [d] by repository calls. *)
Definition evolves (d d' : Database.Store) : Prop :=
  exists ops, d' = Database.run_ops ops d.

(** A command that changes the table by repository calls only (its own and
    those of the other tasks). *)
Definition steady {A : Type} (c : M A) : Prop :=
  forall w, evolves (db w) (db (snd (c w))).

(** A candidate whose title is not in the table. *)
Definition novel (d : Database.Store) (item : Scraper.NewsItem) : bool :=
  negb (Database.check_if_exists (Scraper.title item) d).

(** The specification's [skippedDueToCapacity] for a manual run: the
    candidates that the [break] left unvisited and whose title is not in the
    table the run leaves. *)
Definition skipped_due_to_capacity (run : ManualRun) (d : Database.Store) : Z :=
  len (filter (novel d) (manual_unvisited run)).

(** ** The other endpoints of the module

    Their repository calls are awaited like the others; the log has no entry
    for the calls that only they make. *)
Section OtherEndpoints.

Context {lib : Scraper.Library}.
Variable services : Services.

Definition await_unlogged {A : Type} (call : M A) : M A := (suspend ;;; call)%cmd.

Definition get_all_news : M (list Database.Row) :=
  await_unlogged (fun w => (Database.get_all_news (db w), w)).

Definition get_pending_news : M (list Database.Row) :=
  await_unlogged (fun w => (Database.get_pending_news (db w), w)).

Definition get_sent_news : M (list Database.Row) :=
  await_unlogged (fun w => (Database.get_sent_news (db w), w)).

Definition get_sent_count : M Z :=
  await_unlogged (fun w => (Database.get_sent_count (db w), w)).

Definition clear_all_news : M Z :=
  await_unlogged
    (fun w => let (d, n) := Database.clear_all_news (db w) in
              (n, with_db (fun _ => d) w)).

(** The context that [index] hands to the template. *)
Record IndexPage : Type := mkIndexPage {
  page_news : list Database.Row;
  page_pending_news : list Database.Row;
  page_sent_news : list Database.Row;
  page_auto_send_running : bool
}.

Definition index : M IndexPage :=
  (news <- get_all_news ;;
   pending_news <- get_pending_news ;;
   sent_news <- get_sent_news ;;
   fun w => (mkIndexPage news pending_news sent_news (auto_send_running w), w))%cmd.

(** [api_get_news] *)
Record NewsList : Type := mkNewsList {
  list_news : list Database.Row;
  list_count : Z
}.

Definition api_get_news : M NewsList :=
  (news <- get_all_news ;; ret (mkNewsList news (len news)))%cmd.

(** [api_status] *)
Record StatusReport : Type := mkStatusReport {
  status_libretranslate : Scraper.Status;
  status_news_count : Z;
  status_pending_count : Z;
  status_sent_count : Z;
  status_auto_send : bool;
  status_parse_stats : ParseStats
}.

Definition api_status : M StatusReport :=
  (lt_status <- check_libretranslate_status services ;;
   news_count <- get_news_count ;;
   pending_count <- get_pending_count ;;
   sent_count <- get_sent_count ;;
   fun w =>
     (mkStatusReport (if lt_status then Scraper.online else Scraper.offline)
                     news_count pending_count sent_count
                     (auto_send_running w) (last_auto_parse_stats w),
      w))%cmd.

(** [api_clear_database] *)
Record Cleared : Type := mkCleared {
  cleared_message : string;
  cleared_deleted : Z
}.

Definition api_clear_database : M Cleared :=
  (deleted <- clear_all_news ;;
   ret (mkCleared ("Удалено " ++ str_of_int deleted ++ " новостей из базы данных")
                  deleted))%cmd.

(** The cleanup of [lifespan], after the [yield]: the flag goes down and
    the loop task, if any, is cancelled (the handle is kept). *)
Definition lifespan_cleanup : M unit :=
  (set_running false ;;;
   fun w =>
     match auto_send_task w with
     | Some t => cancel t w
     | None => (tt, w)
     end)%cmd.

End OtherEndpoints.

(** ** Notions used to state further properties *)

(** No other task runs while the command does. *)
Definition quiet (w : World) : Prop := others w = [].

(** Two worlds that differ at most in the summaries of the stored rows. *)
Definition same_but_summaries_world (w w' : World) : Prop :=
  Database.same_but_summaries (db w) (db w') /\
  auto_send_task w = auto_send_task w' /\
  auto_send_running w = auto_send_running w' /\
  last_auto_parse_stats w = last_auto_parse_stats w' /\
  live_tasks w = live_tasks w' /\
  created_tasks w = created_tasks w' /\
  clock w = clock w' /\
  others w = others w' /\
  log w = log w'.

(** Two sets of services that differ at most in what LibreTranslate answers
    to a translation request. *)
Definition same_but_translator (s s' : Services) : Prop :=
  libretranslate_languages s = libretranslate_languages s' /\
  playwright s = playwright s' /\
  telegram s = telegram s' /\
  isoformat_now s = isoformat_now s'.

(** Two commands that, run in worlds that differ at most in the stored
    summaries, return the same value and leave worlds that differ at most
    in the stored summaries. *)
Definition agree {A : Type} (c c' : M A) : Prop :=
  forall w w',
    same_but_summaries_world w w' ->
    fst (c w) = fst (c' w') /\ same_but_summaries_world (snd (c w)) (snd (c' w')).

(** What the two loops hand to [add_news] for a candidate, and what comes
    back, when no other task runs. *)
Definition admitted (services : Services) (item : Scraper.NewsItem) (w : World)
    : Database.Store * bool :=
  Database.add_news (isoformat_now services (clock w)) (Scraper.title item)
    (Translator.translate_to_russian (libretranslate_translate services)
       (Scraper.summary item))
    (Scraper.url item) (Scraper.source item) (db w).

(** [n] copies of a list of events, one after the other. *)
Fixpoint repeated (n : nat) (events : list Event) : list Event :=
  match n with
  | O => []
  | S n' => (events ++ repeated n' events)%list
  end.

End Main.

(** * Concrete sites, stores and schedules *)
Module Examples.

Import Scraper.

(** A library instance on plain ASCII text without surrounding blanks. *)
Definition plain : Library :=
  mkLibrary (fun s => s) (fun base u => base ++ u) (fun s => s) (fun s => [s]).

Definition blank : Element :=
  mkElement (Returns "") (fun _ => Returns None) (fun _ => Returns None)
            (fun _ => Returns []).

(** [<a href=href>text</a>] *)
Definition link (text href : string) : Element :=
  mkElement (Returns text)
            (fun name => Returns (if (name =? "href")%string then Some href else None))
            (fun _ => Returns None) (fun _ => Returns []).

(** An article card whose title selector finds [link text href]. *)
Definition card (text href : string) : Element :=
  mkElement (Returns text) (fun _ => Returns None)
            (fun _ => Returns (Some (link text href))) (fun _ => Returns []).

(** A listing page showing [articles] under every container selector. *)
Definition listing (articles : list Element) : Doc :=
  mkDoc (mkElement (Returns "") (fun _ => Returns None) (fun _ => Returns None)
                   (fun _ => Returns articles))
        (Returns tt) (fun _ => Returns tt).

(** A site whose listing shows [articles]; article pages have no paragraph. *)
Definition site (listing_url : string) (articles : list Element) : Page :=
  mkPage (fun u => if (u =? listing_url)%string then Returns (listing articles)
                   else Returns (listing [])).

(** A site that does not answer. *)
Definition down : Page := mkPage (fun _ => Raises).

Definition session (page : Page) : Context := mkContext (Returns page) (Returns tt).

Definition chromium (tc tv vb : Page) : Playwright :=
  mkPlaywright
    (Returns (mkBrowser (fun opened =>
                           match opened with
                           | O => Returns (session tc)
                           | S O => Returns (session tv)
                           | _ => Returns (session vb)
                           end)
                        (Returns tt))).

Definition techcrunch_url : string :=
  "https://techcrunch.com/category/artificial-intelligence/".

(** TechCrunch lists [articles]; the two other sites are down. *)
Definition only_techcrunch (articles : list Element) : Playwright :=
  chromium (site techcrunch_url articles) down down.

Definition stamp (n : nat) : string :=
  "2025-01-01T00:00:00." ++ NilZero.string_of_uint (Nat.to_uint n).

(** Telegram answers every post with the given status. *)
Definition telegram_status (code : Z) : string -> TelegramBot.Post :=
  fun _ => TelegramBot.Answered code (inr None).

(** LibreTranslate is offline. *)
Definition services (p : Playwright) (telegram_code : Z) : Main.Services :=
  Main.mkServices Raises (fun _ => Raises) p (telegram_status telegram_code) stamp.

(** A table of [n] unsent rows titled [old1], [old2], ... *)
Fixpoint backlog (n : nat) : Database.Store :=
  match n with
  | O => Database.empty
  | S n' =>
      fst (Database.add_news (stamp n')
             ("old" ++ NilZero.string_of_uint (Nat.to_uint n)) "s" "u" "n"
             (backlog n'))
  end.

(** Two unsent rows, the second dated a day after the first. *)
Definition two_unsent : Database.Store :=
  Database.mkStore
    [Database.mkRow 1 "2025-01-01T10:00:00" "Older" "s1" "u1" "n1" 0;
     Database.mkRow 2 "2025-01-02T10:00:00" "Newer" "s2" "u2" "n2" 0]
    2.

(** TechCrunch lists articles [A] and [B]. *)
Definition lists_a_b : Playwright :=
  only_techcrunch [card "A" "/a"; card "B" "/b"].

(** TechCrunch lists article [A] only. *)
Definition lists_a : Playwright := only_techcrunch [card "A" "/a"].

(** TechCrunch shows one article container without a title link. *)
Definition lists_untitled : Playwright := only_techcrunch [blank].

(** A table holding a row titled [A]. *)
Definition holds_a : Database.Store :=
  fst (Database.add_news (stamp 0) "A" "s" "u" "n" Database.empty).

(** The scheduler runs on a table with one row, while another task (a manual
    parse of the same site) inserts [A] during the fifth suspension of the
    turn, the one of the translation call. *)
Definition racing : Main.World :=
  Main.mkWorld (backlog 1) (Some 0%nat) true Main.initial_stats [0%nat] 1 5
               [[]; []; []; [];
                [Database.OpAdd "2025-01-01T00:00:00.9" "A" "other" "u" "n"]]
               [].

(** Chromium does not start. *)
Definition no_browser : Playwright := mkPlaywright Raises.

(** The browser starts, and refuses to open a context. *)
Definition no_context : Playwright :=
  mkPlaywright (Returns (mkBrowser (fun _ => Raises) (Returns tt))).

(** The sites answer, and none lists an article. *)
Definition lists_nothing : Playwright :=
  chromium (site techcrunch_url []) (site "https://www.theverge.com/ai-artificial-intelligence" [])
           (site "https://venturebeat.com/category/ai/" []).

(** LibreTranslate answers every request with the text in upper-case
    brackets. *)
Definition translating (p : Playwright) (telegram_code : Z) : Main.Services :=
  Main.mkServices (Returns 200)
                  (fun text => Returns (Translator.mkReply 200 (Some ("[" ++ text ++ "]"))))
                  p (telegram_status telegram_code) stamp.

(** LibreTranslate answers the status check and fails every translation. *)
Definition untranslating (p : Playwright) (telegram_code : Z) : Main.Services :=
  Main.mkServices (Returns 200) (fun _ => Raises) p (telegram_status telegram_code) stamp.

(** The scheduler was started on a table with [n] pending rows. *)
Definition started (n : nat) : Main.World :=
  snd (Main.api_start_auto_send (Main.boot (backlog n))).

(** Two rows, the first one sent. *)
Definition one_sent : Database.Store := Database.mark_as_sent 1 two_unsent.

Definition item_a : NewsItem := mkNewsItem "A" "A" "https://techcrunch.com/a" "TechCrunch".
Definition item_b : NewsItem := mkNewsItem "B" "B" "https://techcrunch.com/b" "TechCrunch".

End Examples.

(** * Facts about the repository *)

Section StringOrder.

Lemma ascii_compare_trans_lt (a b c : ascii) :
  Ascii.compare a b = Lt -> Ascii.compare b c = Lt -> Ascii.compare a c = Lt.
Proof.
  unfold Ascii.compare. rewrite !N.compare_lt_iff. lia.
Qed.

Lemma string_compare_refl (s : string) : String.compare s s = Eq.
Proof.
  induction s as [|a s IH]; simpl; [reflexivity|].
  unfold Ascii.compare. now rewrite N.compare_refl.
Qed.

Lemma string_compare_trans_lt (s1 : string) :
  forall s2 s3, String.compare s1 s2 = Lt -> String.compare s2 s3 = Lt ->
                String.compare s1 s3 = Lt.
Proof.
  induction s1 as [|a s1 IH]; intros [|b s2] [|c s3]; simpl; try congruence.
  destruct (Ascii.compare a b) eqn:Eab; try congruence.
  - apply Ascii.compare_eq_iff in Eab. subst b.
    destruct (Ascii.compare a c) eqn:Eac; try congruence. apply IH.
  - intros _. destruct (Ascii.compare b c) eqn:Ebc; try congruence.
    + apply Ascii.compare_eq_iff in Ebc. subst c. now rewrite Eab.
    + now rewrite (ascii_compare_trans_lt _ _ _ Eab Ebc).
Qed.

Lemma string_leb_refl (s : string) : String.leb s s = true.
Proof. unfold String.leb. now rewrite string_compare_refl. Qed.

Lemma string_leb_trans (s1 s2 s3 : string) :
  String.leb s1 s2 = true -> String.leb s2 s3 = true -> String.leb s1 s3 = true.
Proof.
  unfold String.leb.
  destruct (String.compare s1 s2) eqn:E12; try discriminate; intros _;
    destruct (String.compare s2 s3) eqn:E23; try discriminate; intros _.
  - apply String.compare_eq_iff in E12, E23. subst. now rewrite string_compare_refl.
  - apply String.compare_eq_iff in E12. subst. now rewrite E23.
  - apply String.compare_eq_iff in E23. subst. now rewrite E12.
  - now rewrite (string_compare_trans_lt _ _ _ E12 E23).
Qed.

Lemma string_leb_false_flip (s1 s2 : string) :
  String.leb s1 s2 = false -> String.leb s2 s1 = true.
Proof.
  intros H. destruct (String.leb_total s1 s2) as [H'|H']; congruence.
Qed.

End StringOrder.

(** ** The newest row comes first under [ORDER BY date DESC] *)

Section OrderByDate.

Import Database.

Lemma insert_by_date_desc_In (r x : Row) (rs : list Row) :
  In x (insert_by_date_desc r rs) <-> x = r \/ In x rs.
Proof.
  induction rs as [|r' rs IH]; simpl.
  - intuition congruence.
  - destruct (String.leb (date r') (date r)); simpl; [intuition congruence|].
    rewrite IH. intuition congruence.
Qed.

Lemma order_by_date_desc_In (x : Row) (rs : list Row) :
  In x (order_by_date_desc rs) <-> In x rs.
Proof.
  induction rs as [|r rs IH]; simpl; [tauto|].
  rewrite insert_by_date_desc_In, IH. intuition congruence.
Qed.

Lemma insert_by_date_desc_head (r : Row) (rs : list Row) (x : Row) :
  (forall h, hd_error rs = Some h -> newest h rs) ->
  hd_error (insert_by_date_desc r rs) = Some x ->
  newest x (r :: rs).
Proof.
  destruct rs as [|r' rs]; simpl.
  - intros _ [= <-] y [<-|[]]. apply string_leb_refl.
  - intros Hhd. specialize (Hhd r' eq_refl).
    destruct (String.leb (date r') (date r)) eqn:E; simpl; intros [= <-].
    + intros y [<-|Hy]; [apply string_leb_refl|].
      apply string_leb_trans with (date r'); [apply Hhd, Hy | exact E].
    + intros y [<-|Hy]; [now apply string_leb_false_flip | apply Hhd, Hy].
Qed.

Lemma order_by_date_desc_head (rs : list Row) (x : Row) :
  hd_error (order_by_date_desc rs) = Some x -> newest x rs.
Proof.
  revert x. induction rs as [|r rs IH]; simpl; [discriminate|].
  intros x Hx.
  assert (H : newest x (r :: order_by_date_desc rs)).
  { apply insert_by_date_desc_head; [|exact Hx].
    intros h Hh y Hy. apply (IH h Hh). now apply order_by_date_desc_In. }
  intros y [<-|Hy]; apply H; [now left | right; now apply order_by_date_desc_In].
Qed.

Lemma order_by_date_desc_nonempty (rs : list Row) :
  rs <> [] -> exists x, hd_error (order_by_date_desc rs) = Some x.
Proof.
  destruct rs as [|r rs]; [congruence|]. intros _. simpl.
  destruct (order_by_date_desc rs) as [|r' rs']; simpl; [eauto|].
  destruct (String.leb (date r') (date r)); simpl; eauto.
Qed.

(** [get_unsent_news] returns an unsent row of the table that no unsent row
    is dated after, and returns one whenever the table has an unsent row. *)
Lemma get_unsent_news_spec (d : Store) (x : Row) :
  get_unsent_news d = Some x ->
  In x (rows d) /\ is_unsent x = true /\
  (forall r, In r (rows d) -> is_unsent r = true ->
             String.leb (date r) (date x) = true).
Proof.
  unfold get_unsent_news. intros H.
  assert (Hin : In x (filter is_unsent (rows d))).
  { apply order_by_date_desc_In.
    destruct (order_by_date_desc (filter is_unsent (rows d))); simpl in H;
      [discriminate | injection H as <-; now left]. }
  apply filter_In in Hin. destruct Hin as [Hin Hun].
  repeat split; trivial.
  intros r Hr Hru. apply (order_by_date_desc_head _ _ H).
  apply filter_In. now split.
Qed.

Lemma get_unsent_news_some (d : Store) (r : Row) :
  In r (rows d) -> is_unsent r = true -> exists x, get_unsent_news d = Some x.
Proof.
  intros Hr Hu. apply order_by_date_desc_nonempty.
  intros E. assert (H : In r (filter is_unsent (rows d))) by (apply filter_In; now split).
  rewrite E in H. destruct H.
Qed.

End OrderByDate.

(** ** Titles, ids and flags under repository calls *)

Section RepositoryCalls.

Import Database.

Lemma has_title_absent (t : string) (rs : list Row) :
  existsb (has_title t) rs = false -> ~ In t (map title rs).
Proof.
  intros H Hin. apply in_map_iff in Hin. destruct Hin as [r [Ht Hr]].
  assert (E : existsb (has_title t) rs = true).
  { apply existsb_exists. exists r. split; [exact Hr|].
    unfold has_title. now apply String.eqb_eq. }
  congruence.
Qed.

Lemma add_news_unique_titles (now t s u n : string) (d : Store) :
  unique_titles d -> unique_titles (fst (add_news now t s u n d)).
Proof.
  unfold unique_titles, add_news. intros H.
  destruct (existsb (has_title t) (rows d)) eqn:E; simpl; [exact H|].
  rewrite map_app. simpl. apply NoDup_app; [exact H | repeat constructor; intros [] |].
  intros a Ha [<-|[]]. revert Ha. now apply has_title_absent.
Qed.

Lemma mark_as_sent_titles (i : Z) (d : Store) :
  map title (rows (mark_as_sent i d)) = map title (rows d).
Proof.
  unfold mark_as_sent. simpl. rewrite map_map. apply map_ext.
  intros r. now destruct (id r =? i).
Qed.

Lemma run_op_unique_titles (o : Op) (d : Store) :
  unique_titles d -> unique_titles (run_op o d).
Proof.
  destruct o as [now t s u n|i|]; simpl.
  - apply add_news_unique_titles.
  - unfold unique_titles. now rewrite mark_as_sent_titles.
  - intros _. constructor.
Qed.

Lemma run_ops_unique_titles (ops : list Op) :
  forall d, unique_titles d -> unique_titles (run_ops ops d).
Proof.
  unfold run_ops. induction ops as [|o ops IH]; simpl; intros d H; [exact H|].
  apply IH. now apply run_op_unique_titles.
Qed.

Lemma run_ops_app (ops ops' : list Op) (d : Store) :
  run_ops (ops ++ ops') d = run_ops ops' (run_ops ops d).
Proof. unfold run_ops. apply fold_left_app. Qed.

Lemma max_rowid_ge (rs : list Row) (r : Row) : In r rs -> id r <= max_rowid rs.
Proof.
  induction rs as [|r' rs IH]; simpl; [tauto|].
  intros [->|H]; [lia | specialize (IH H); lia].
Qed.

Lemma max_rowid_nonneg (rs : list Row) : 0 <= max_rowid rs.
Proof. induction rs as [|r rs IH]; simpl; lia. Qed.

Lemma max_rowid_mark (i : Z) (rs : list Row) :
  max_rowid (map (fun r => if id r =? i then set_sent r else r) rs) = max_rowid rs.
Proof.
  induction rs as [|r rs IH]; simpl; [reflexivity|].
  rewrite IH. now destruct (id r =? i).
Qed.

Lemma run_op_sent_for_good (i : Z) (o : Op) (d : Store) :
  sent_for_good i d -> sent_for_good i (run_op o d).
Proof.
  intros [Hi Hs]. destruct o as [now t s u n|j|]; simpl.
  - unfold add_news. destruct (existsb (has_title t) (rows d)); simpl; [now split|].
    split; simpl.
    + lia.
    + intros r Hr Hid. apply in_app_or in Hr. destruct Hr as [Hr|[<-|[]]].
      * now apply Hs.
      * simpl in Hid. lia.
  - split; simpl.
    + now rewrite max_rowid_mark.
    + intros r Hr Hid. apply in_map_iff in Hr. destruct Hr as [r' [<- Hr']].
      destruct (id r' =? j); simpl in *; [reflexivity | now apply Hs].
  - split; simpl; [lia | tauto].
Qed.

Lemma run_ops_sent_for_good (i : Z) (ops : list Op) :
  forall d, sent_for_good i d -> sent_for_good i (run_ops ops d).
Proof.
  unfold run_ops. induction ops as [|o ops IH]; simpl; intros d H; [exact H|].
  apply IH. now apply run_op_sent_for_good.
Qed.

Lemma mark_as_sent_for_good (x : Row) (d : Store) :
  In x (rows d) -> sent_for_good (id x) (mark_as_sent (id x) d).
Proof.
  intros Hx. split; simpl.
  - rewrite max_rowid_mark. pose proof (max_rowid_ge _ _ Hx). lia.
  - intros r Hr Hid. apply in_map_iff in Hr. destruct Hr as [r' [<- Hr']].
    destruct (id r' =? id x) eqn:E; simpl in *; [reflexivity|].
    apply Z.eqb_neq in E. congruence.
Qed.

Lemma mark_as_sent_fixed (i : Z) (d : Store) :
  (forall r, In r (rows d) -> id r = i -> sent_to_telegram r = 1) ->
  mark_as_sent i d = d.
Proof.
  destruct d as [rs sq]. unfold mark_as_sent. simpl. intros H. f_equal.
  rewrite <- (map_id rs) at 2. apply map_ext_in.
  intros r Hr. destruct (id r =? i) eqn:E; [|reflexivity].
  apply Z.eqb_eq in E. specialize (H r Hr E).
  destruct r as [ri rd rt rsu ru rn rsent]. unfold set_sent. simpl in *. now subst.
Qed.

End RepositoryCalls.

(** C10.  [mark_as_sent] is idempotent: marking an id twice gives the table
    that marking it once gives; marking an id whose rows are all flagged
    already leaves the table as it is; so does marking an id that no row has. *)
Theorem mark_as_sent_idempotent (news_id : Z) (d : Database.Store) :
  Database.mark_as_sent news_id (Database.mark_as_sent news_id d)
    = Database.mark_as_sent news_id d /\
  ((forall r, In r (Database.rows d) -> Database.id r = news_id ->
              Database.sent_to_telegram r = 1) ->
   Database.mark_as_sent news_id d = d) /\
  ((forall r, In r (Database.rows d) -> Database.id r <> news_id) ->
   Database.mark_as_sent news_id d = d).
Proof.
  split; [|split].
  - apply mark_as_sent_fixed. intros r Hr Hid. simpl in Hr.
    apply in_map_iff in Hr. destruct Hr as [r' [<- Hr']].
    destruct (Database.id r' =? news_id) eqn:E; simpl in *; [reflexivity|].
    apply Z.eqb_neq in E. congruence.
  - apply mark_as_sent_fixed.
  - intros H. apply mark_as_sent_fixed. intros r Hr Hid. now apply H in Hr.
Qed.

(** * Facts about the commands of app/main.py *)

Section AwaitedCalls.

Import Main.

Context {lib : Scraper.Library}.
Variable services : Services.

Lemma await_arrive {A : Type} (e : Event) (call : M A) (w : World) :
  await e call w = call (arrive e w).
Proof.
  unfold await, arrive, mbind. destruct (suspend w) as [[] w1]. simpl.
  reflexivity.
Qed.

Lemma arrive_db (e : Event) (w : World) : db (arrive e w) = seen w.
Proof. destruct w as [d t r st lv c k [|batch rest] lg]; reflexivity. Qed.

Lemma arrive_log (e : Event) (w : World) : log (arrive e w) = (log w ++ [e])%list.
Proof. destruct w as [d t r st lv c k [|batch rest] lg]; reflexivity. Qed.

Lemma arrive_others (e : Event) (w : World) : others (arrive e w) = tl (others w).
Proof. destruct w as [d t r st lv c k [|batch rest] lg]; reflexivity. Qed.

Lemma arrive_running (e : Event) (w : World) :
  auto_send_running (arrive e w) = auto_send_running w.
Proof. destruct w as [d t r st lv c k [|batch rest] lg]; reflexivity. Qed.

Lemma arrive_task (e : Event) (w : World) :
  auto_send_task (arrive e w) = auto_send_task w.
Proof. destruct w as [d t r st lv c k [|batch rest] lg]; reflexivity. Qed.

Lemma arrive_live (e : Event) (w : World) : live_tasks (arrive e w) = live_tasks w.
Proof. destruct w as [d t r st lv c k [|batch rest] lg]; reflexivity. Qed.

Lemma arrive_created (e : Event) (w : World) :
  created_tasks (arrive e w) = created_tasks w.
Proof. destruct w as [d t r st lv c k [|batch rest] lg]; reflexivity. Qed.

Lemma arrive_stats (e : Event) (w : World) :
  last_auto_parse_stats (arrive e w) = last_auto_parse_stats w.
Proof. destruct w as [d t r st lv c k [|batch rest] lg]; reflexivity. Qed.

Lemma seen_quiet (w : World) : others w = [] -> seen w = db w.
Proof. unfold seen, suspend. now intros ->. Qed.

Lemma get_pending_count_run (w : World) :
  get_pending_count w
  = (Database.get_pending_count (seen w), arrive GetPendingCount w).
Proof. unfold get_pending_count. now rewrite await_arrive, arrive_db. Qed.

Lemma get_news_count_run (w : World) :
  get_news_count w = (Database.get_news_count (seen w), arrive GetNewsCount w).
Proof. unfold get_news_count. now rewrite await_arrive, arrive_db. Qed.

Lemma check_if_exists_run (t : string) (w : World) :
  check_if_exists t w
  = (Database.check_if_exists t (seen w), arrive (CheckIfExists t) w).
Proof. unfold check_if_exists. now rewrite await_arrive, arrive_db. Qed.

Lemma get_unsent_news_run (w : World) :
  get_unsent_news w = (Database.get_unsent_news (seen w), arrive GetUnsentNews w).
Proof. unfold get_unsent_news. now rewrite await_arrive, arrive_db. Qed.

Lemma translate_to_russian_run (text : string) (w : World) :
  translate_to_russian services text w
  = (Translator.translate_to_russian (libretranslate_translate services) text,
     arrive (Translate text) w).
Proof. unfold translate_to_russian. now rewrite await_arrive. Qed.

Lemma check_libretranslate_status_run (w : World) :
  check_libretranslate_status services w
  = (Translator.check_libretranslate_status (libretranslate_languages services),
     arrive CheckLibreTranslate w).
Proof. unfold check_libretranslate_status. now rewrite await_arrive. Qed.

Lemma scrape_all_sources_run (w : World) :
  scrape_all_sources services w
  = (Scraper.scrape_all_sources (playwright services), arrive ScrapeAllSources w).
Proof. unfold scrape_all_sources. now rewrite await_arrive. Qed.

Lemma send_news_to_telegram_run (t s u n : string) (w : World) :
  send_news_to_telegram services t s u n w
  = (TelegramBot.send_news_to_telegram (telegram services) t s u n,
     arrive (SendTelegram t s u n) w).
Proof. unfold send_news_to_telegram. now rewrite await_arrive. Qed.

Lemma sleep_run (seconds : Z) (w : World) : sleep seconds w = (tt, arrive (Sleep seconds) w).
Proof. unfold sleep. now rewrite await_arrive. Qed.

Lemma mark_as_sent_run (i : Z) (w : World) :
  mark_as_sent i w = (tt, with_db (Database.mark_as_sent i) (arrive (MarkAsSent i) w)).
Proof. unfold mark_as_sent. now rewrite await_arrive. Qed.

Lemma add_news_run (t s u n : string) (w : World) :
  add_news services t s u n w
  = (snd (Database.add_news (isoformat_now services (clock (arrive (AddNews t) w)))
                            t s u n (seen w)),
     inserted services t s u n w).
Proof.
  unfold add_news, inserted. rewrite await_arrive. unfold mbind, read_clock.
  cbv beta iota. cbn [db]. rewrite arrive_db.
  now destruct (Database.add_news _ t s u n (seen w)).
Qed.

Lemma inserted_db (t s u n : string) (w : World) :
  db (inserted services t s u n w)
  = fst (Database.add_news (isoformat_now services (clock (arrive (AddNews t) w)))
                           t s u n (seen w)).
Proof. reflexivity. Qed.

Lemma inserted_log (t s u n : string) (w : World) :
  log (inserted services t s u n w) = (log w ++ [AddNews t])%list.
Proof. unfold inserted, with_db, read_clock. cbn [log snd]. apply arrive_log. Qed.

End AwaitedCalls.

Section SchedulerTurn.

Import Main.

Context {lib : Scraper.Library}.
Variable services : Services.

Lemma seen_batch (w : World) :
  seen w = Database.run_ops (nth 0 (others w) []) (db w).
Proof. destruct w as [d t r st lv c k [|batch rest] lg]; reflexivity. Qed.

Lemma seen_arrive (e : Event) (w : World) :
  seen (arrive e w) = Database.run_ops (nth 1 (others w) []) (seen w).
Proof.
  rewrite seen_batch, arrive_others, arrive_db.
  destruct (others w) as [|b [|b' rest]]; reflexivity.
Qed.

(** C9.  A scheduler turn that reads a pending count of at least 10 makes two
    awaited calls only, the count and the 30-second sleep: it does not call
    [scrape_all_sources], looks up no title, translates nothing and inserts
    nothing; the statistics are left as they were and the table changes only
    by what the other tasks do during those two calls. *)
Theorem full_queue_skips_parsing (w : World) :
  10 <= Database.get_pending_count (seen w) ->
  exists w',
    auto_send_iteration services w
      = ((Database.get_pending_count (seen w), None), w') /\
    log w' = (log w ++ [GetPendingCount; Sleep 30])%list /\
    last_auto_parse_stats w' = last_auto_parse_stats w /\
    db w' = Database.run_ops (nth 1 (others w) [])
              (Database.run_ops (nth 0 (others w) []) (db w)).
Proof.
  intros Hfull.
  exists (arrive (Sleep 30) (arrive GetPendingCount w)).
  repeat split.
  - unfold auto_send_iteration, mbind. rewrite get_pending_count_run.
    replace (Database.get_pending_count (seen w) <? 10) with false
      by (symmetry; apply Z.ltb_ge; exact Hfull).
    unfold ret. now rewrite sleep_run.
  - rewrite !arrive_log, <- app_assoc. reflexivity.
  - now rewrite !arrive_stats.
  - now rewrite arrive_db, seen_arrive, seen_batch.
Qed.

End SchedulerTurn.

Section Publish.

Import Main.

Context {lib : Scraper.Library}.

Lemma api_send_telegram_selected (services : Services) (w : World) (x : Database.Row) :
  Database.get_unsent_news (seen w) = Some x ->
  log (snd (api_send_telegram services w)) = (log w ++ publish_events services x)%list.
Proof.
  intros Hx. unfold api_send_telegram, publish_events, mbind.
  rewrite get_unsent_news_run, Hx, send_news_to_telegram_run.
  destruct (TelegramBot.send_news_to_telegram _ _ _ _ _) as [[|] message];
    cbv beta iota; cbn [fst].
  - unfold mbind. rewrite mark_as_sent_run. unfold ret, with_db. cbn [snd log].
    rewrite !arrive_log, <- !app_assoc. reflexivity.
  - unfold ret. cbn [snd]. rewrite !arrive_log, <- !app_assoc. reflexivity.
Qed.

(** C2, as the code has it.  Whenever the table holds an unsent row when the
    publish request reads it, the request selects an unsent row that no
    unsent row is dated after (the newest one), hands the Publisher that
    row's title, summary, url and source name, and calls the Publisher
    once. *)
Theorem publish_hands_newest_unsent (services : Services) (w : World)
    (r : Database.Row) :
  In r (Database.rows (seen w)) -> Database.is_unsent r = true ->
  exists x,
    In x (Database.rows (seen w)) /\ Database.is_unsent x = true /\
    (forall r', In r' (Database.rows (seen w)) -> Database.is_unsent r' = true ->
                String.leb (Database.date r') (Database.date x) = true) /\
    log (snd (api_send_telegram services w))
      = (log w ++ publish_events services x)%list.
Proof.
  intros Hr Hu. destruct (get_unsent_news_some _ _ Hr Hu) as [x Hx].
  exists x. destruct (get_unsent_news_spec _ _ Hx) as [Hin [Hux Hmax]].
  repeat split; trivial. now apply api_send_telegram_selected.
Qed.

Lemma api_send_telegram_failure (services : Services) (w : World) (x : Database.Row) :
  others w = [] ->
  Database.get_unsent_news (db w) = Some x ->
  fst (TelegramBot.send_news_to_telegram (telegram services)
         (Database.title x) (Database.summary_ru x)
         (Database.source_url x) (Database.source_name x)) = false ->
  let w' := snd (api_send_telegram services w) in
  db w' = db w /\ others w' = [] /\
  log w' = (log w ++ publish_events services x)%list.
Proof.
  intros Hq Hx Hsend. cbn zeta.
  assert (Hx' : Database.get_unsent_news (seen w) = Some x)
    by now rewrite seen_quiet.
  split; [|split]; [| |now apply api_send_telegram_selected].
  - unfold api_send_telegram, mbind.
    rewrite get_unsent_news_run, Hx', send_news_to_telegram_run.
    destruct (TelegramBot.send_news_to_telegram _ _ _ _ _) as [[|] message];
      simpl in Hsend; [discriminate|].
    unfold ret. cbn [snd].
    assert (Hq1 : others (arrive GetUnsentNews w) = []) by now rewrite arrive_others, Hq.
    now rewrite arrive_db, (seen_quiet _ Hq1), arrive_db, seen_quiet.
  - unfold api_send_telegram, mbind.
    rewrite get_unsent_news_run, Hx', send_news_to_telegram_run.
    destruct (TelegramBot.send_news_to_telegram _ _ _ _ _) as [[|] message];
      simpl in Hsend; [discriminate|].
    unfold ret. cbn [snd]. now rewrite !arrive_others, Hq.
Qed.

Lemma api_send_telegram_success (services : Services) (w : World) (x : Database.Row) :
  others w = [] ->
  Database.get_unsent_news (db w) = Some x ->
  fst (TelegramBot.send_news_to_telegram (telegram services)
         (Database.title x) (Database.summary_ru x)
         (Database.source_url x) (Database.source_name x)) = true ->
  let w' := snd (api_send_telegram services w) in
  db w' = Database.mark_as_sent (Database.id x) (db w) /\
  log w' = (log w ++ publish_events services x)%list.
Proof.
  intros Hq Hx Hsend. cbn zeta.
  assert (Hx' : Database.get_unsent_news (seen w) = Some x)
    by now rewrite seen_quiet.
  split; [|now apply api_send_telegram_selected].
  unfold api_send_telegram, mbind.
  rewrite get_unsent_news_run, Hx', send_news_to_telegram_run.
  destruct (TelegramBot.send_news_to_telegram _ _ _ _ _) as [[|] message];
    simpl in Hsend; [|discriminate].
  unfold mbind. rewrite mark_as_sent_run. unfold ret, with_db. cbn [snd db].
  assert (Hq1 : others (arrive GetUnsentNews w) = []) by now rewrite arrive_others, Hq.
  assert (Hq2 : others (arrive (SendTelegram (Database.title x) (Database.summary_ru x)
                                  (Database.source_url x) (Database.source_name x))
                               (arrive GetUnsentNews w)) = [])
    by now rewrite arrive_others, Hq1.
  rewrite arrive_db, (seen_quiet _ Hq2), arrive_db, (seen_quiet _ Hq1), arrive_db.
  now rewrite seen_quiet.
Qed.

(** C7.  With no other task touching the table: when the Publisher fails for
    the selected row [x], the publish request leaves the table exactly as it
    was, [x] is still in it unsent, and no [mark_as_sent] is issued; when a
    later request (on the table as it is by then) selects [x] again and the
    Publisher succeeds, the request issues one [mark_as_sent] and the table
    becomes the one it found with [x] marked; from then on, whatever
    repository calls follow, every row with the id of [x] is flagged as sent
    and [get_unsent_news] does not select it again. *)
Theorem failed_publish_then_retry (failing working : Services) (w later : World)
    (x : Database.Row) :
  others w = [] ->
  Database.get_unsent_news (db w) = Some x ->
  fst (TelegramBot.send_news_to_telegram (telegram failing)
         (Database.title x) (Database.summary_ru x)
         (Database.source_url x) (Database.source_name x)) = false ->
  others later = [] ->
  Database.get_unsent_news (db later) = Some x ->
  fst (TelegramBot.send_news_to_telegram (telegram working)
         (Database.title x) (Database.summary_ru x)
         (Database.source_url x) (Database.source_name x)) = true ->
  let w1 := snd (api_send_telegram failing w) in
  let w2 := snd (api_send_telegram working later) in
  (db w1 = db w /\
   In x (Database.rows (db w1)) /\ Database.sent_to_telegram x = 0 /\
   log w1 = (log w
             ++ [GetUnsentNews;
                 SendTelegram (Database.title x) (Database.summary_ru x)
                              (Database.source_url x) (Database.source_name x)])%list) /\
  (db w2 = Database.mark_as_sent (Database.id x) (db later) /\
   log w2 = (log later
             ++ [GetUnsentNews;
                 SendTelegram (Database.title x) (Database.summary_ru x)
                              (Database.source_url x) (Database.source_name x);
                 MarkAsSent (Database.id x)])%list) /\
  (forall ops,
      (forall r, In r (Database.rows (Database.run_ops ops (db w2))) ->
                 Database.id r = Database.id x -> Database.sent_to_telegram r = 1) /\
      (forall y, Database.get_unsent_news (Database.run_ops ops (db w2)) = Some y ->
                 Database.id y <> Database.id x)).
Proof.
  intros Hq Hx Hfail Hq' Hx' Hok. cbn zeta.
  destruct (api_send_telegram_failure failing w x Hq Hx Hfail) as [Hdb1 [_ Hlog1]].
  destruct (get_unsent_news_spec _ _ Hx) as [Hin [Hun _]].
  destruct (get_unsent_news_spec _ _ Hx') as [Hin' _].
  destruct (api_send_telegram_success working later x Hq' Hx' Hok) as [Hdb2 Hlog2].
  split; [|split].
  - split; [exact Hdb1|]. rewrite Hdb1. split; [exact Hin|].
    split; [now apply Z.eqb_eq|].
    rewrite Hlog1. unfold publish_events. now rewrite Hfail.
  - split; [exact Hdb2|]. rewrite Hlog2. unfold publish_events. now rewrite Hok.
  - intros ops. rewrite Hdb2.
    pose proof (run_ops_sent_for_good (Database.id x) ops _
                  (mark_as_sent_for_good x (db later) Hin')) as [_ Hs].
    split; [exact Hs|].
    intros y Hy Hid. destruct (get_unsent_news_spec _ _ Hy) as [Hyin [Hyun _]].
    specialize (Hs y Hyin Hid). unfold Database.is_unsent in Hyun.
    rewrite Hs in Hyun. discriminate.
Qed.

End Publish.

Section Scheduler.

Import Main.

Context {lib : Scraper.Library}.
Variable services : Services.

Lemma start_while_running (w : World) :
  auto_send_running w = true ->
  api_start_auto_send w = (Message "Автоотправка уже запущена", w).
Proof. unfold api_start_auto_send. now intros ->. Qed.

Lemma stop_while_stopped (w : World) :
  auto_send_running w = false ->
  api_stop_auto_send w = (Message "Автоотправка не запущена", w).
Proof. unfold api_stop_auto_send. now intros ->. Qed.

Lemma start_on_empty_store (w : World) :
  auto_send_running w = false ->
  Database.get_news_count (seen w) = 0 ->
  api_start_auto_send w
  = (JSONResponse 400 "Нет новостей в базе. Сначала выполните парсинг.",
     arrive GetNewsCount w).
Proof.
  intros Hr Hc. unfold api_start_auto_send, mbind.
  now rewrite Hr, get_news_count_run, Hc.
Qed.

Lemma start_on_stocked_store (w : World) :
  auto_send_running w = false ->
  Database.get_news_count (seen w) <> 0 ->
  let w' := snd (api_start_auto_send w) in
  auto_send_running w' = true /\
  auto_send_task w' = Some (created_tasks w) /\
  live_tasks w' = (live_tasks w ++ [created_tasks w])%list.
Proof.
  intros Hr Hc. unfold api_start_auto_send, mbind.
  rewrite Hr, get_news_count_run.
  apply Z.eqb_neq in Hc. rewrite Hc.
  unfold set_running, create_task, set_task, ret.
  cbn [snd auto_send_running auto_send_task live_tasks created_tasks].
  now rewrite arrive_created, arrive_live.
Qed.

Lemma stop_while_running (w : World) :
  auto_send_running w = true ->
  let w' := snd (api_stop_auto_send w) in
  auto_send_running w' = false /\
  live_tasks w'
  = match auto_send_task w with
    | Some t => filter (fun t' => negb (Nat.eqb t' t)) (live_tasks w)
    | None => live_tasks w
    end.
Proof.
  intros Hr. unfold api_stop_auto_send, mbind. rewrite Hr.
  unfold set_running, cancel, set_task, ret. cbn.
  destruct (auto_send_task w); cbn; now split.
Qed.

Lemma serve_one_loop (r : Request) (w : World) :
  one_loop w -> one_loop (snd (serve r w)).
Proof.
  unfold one_loop. intros H. destruct r; cbn [serve].
  - destruct (auto_send_running w) eqn:Hr.
    + rewrite start_while_running by assumption. cbn [snd]. now rewrite Hr.
    + destruct (Z.eq_dec (Database.get_news_count (seen w)) 0) as [Hc|Hc].
      * rewrite start_on_empty_store by assumption. cbn [snd].
        now rewrite arrive_running, Hr, arrive_live.
      * destruct (start_on_stocked_store w Hr Hc) as [-> [-> ->]].
        rewrite H. now exists (created_tasks w).
  - destruct (auto_send_running w) eqn:Hr.
    + destruct (stop_while_running w Hr) as [-> ->].
      destruct H as [t [-> ->]]. cbn. now rewrite Nat.eqb_refl.
    + rewrite stop_while_stopped by assumption. cbn [snd]. now rewrite Hr.
Qed.

(** C8.  [start] while the flag is up changes nothing (no task is created,
    no call is made); [stop] while the flag is down changes nothing; [start]
    on a table without rows answers 400 and leaves the flag down, the
    remembered task, the live tasks and the number of tasks ever created as
    they were; and over any sequence of start and stop requests exactly one
    loop task is alive while the flag is up and none while it is down. *)
Theorem scheduler_start_stop_safe (w : World) :
  (auto_send_running w = true ->
   api_start_auto_send w = (Message "Автоотправка уже запущена", w)) /\
  (auto_send_running w = false ->
   api_stop_auto_send w = (Message "Автоотправка не запущена", w)) /\
  (auto_send_running w = false -> Database.get_news_count (seen w) = 0 ->
   exists w',
     api_start_auto_send w
     = (JSONResponse 400 "Нет новостей в базе. Сначала выполните парсинг.", w') /\
     auto_send_running w' = false /\
     auto_send_task w' = auto_send_task w /\
     live_tasks w' = live_tasks w /\
     created_tasks w' = created_tasks w /\
     log w' = (log w ++ [GetNewsCount])%list) /\
  (forall requests, one_loop w -> one_loop (serve_all requests w)).
Proof.
  split; [apply start_while_running|].
  split; [apply stop_while_stopped|].
  split.
  - intros Hr Hc. exists (arrive GetNewsCount w).
    split; [now apply start_on_empty_store|].
    now rewrite arrive_running, arrive_task, arrive_live, arrive_created, arrive_log.
  - intros requests. revert w.
    induction requests as [|r rest IH]; intros w H; cbn [serve_all]; [exact H|].
    apply IH. now apply serve_one_loop.
Qed.

End Scheduler.

Section Admission.

Import Main.

Context {lib : Scraper.Library}.
Variable services : Services.

(** ** The duplicate-aware pass of the scheduler *)

Lemma admit_step_tally (needed : Z) (item : Scraper.NewsItem) (t : Tally) (w : World) :
  let t' := fst (admit_step services needed item t w) in
  tally_added t' + tally_duplicates t' + tally_skipped t'
    = tally_added t + tally_duplicates t + tally_skipped t + 1 /\
  (tally_added t <= Z.max 0 needed -> tally_added t' <= Z.max 0 needed).
Proof.
  unfold admit_step, mbind. rewrite check_if_exists_run.
  destruct (Database.check_if_exists _ _); [cbn; lia|].
  destruct (tally_added t <? needed) eqn:E.
  - rewrite translate_to_russian_run, add_news_run. cbn.
    apply Z.ltb_lt in E. lia.
  - cbn. lia.
Qed.

Lemma admit_loop_tally (needed : Z) (news_items : list Scraper.NewsItem) :
  forall (t : Tally) (w : World),
    let t' := fst (admit_loop services needed news_items t w) in
    tally_added t' + tally_duplicates t' + tally_skipped t'
      = tally_added t + tally_duplicates t + tally_skipped t + len news_items /\
    (tally_added t <= Z.max 0 needed -> tally_added t' <= Z.max 0 needed).
Proof.
  induction news_items as [|item rest IH]; intros t w.
  - cbn. lia.
  - cbn [admit_loop]. unfold mbind.
    pose proof (admit_step_tally needed item t w) as Hstep.
    destruct (admit_step services needed item t w) as [t1 w1].
    specialize (IH t1 w1). cbn [fst] in Hstep.
    destruct (admit_loop services needed rest t1 w1) as [t2 w2]. cbn [fst] in *.
    unfold len in *. cbn [List.length]. lia.
Qed.

(** A scheduler turn whose pass ran to its end stores the counters of the
    pass, with the number of candidates as [found]. *)
Lemma auto_send_iteration_stats (w w' : World) (pending : Z) (t : Tally) :
  auto_send_iteration services w = ((pending, Some t), w') ->
  found (last_auto_parse_stats w')
    = tally_added t + tally_duplicates t + tally_skipped t /\
  added (last_auto_parse_stats w') = tally_added t /\
  duplicates (last_auto_parse_stats w') = tally_duplicates t /\
  tally_added t <= Z.max 0 (10 - pending).
Proof.
  unfold auto_send_iteration, mbind. rewrite get_pending_count_run.
  destruct (Database.get_pending_count (seen w) <? 10).
  - unfold auto_parse, mbind.
    rewrite check_libretranslate_status_run, scrape_all_sources_run.
    destruct (Scraper.scrape_all_sources (playwright services)) as [result|].
    + pose proof (admit_loop_tally (10 - Database.get_pending_count (seen w))
                    (Scraper.items result) (mkTally 0 0 0)
                    (arrive ScrapeAllSources
                       (arrive CheckLibreTranslate (arrive GetPendingCount w))))
        as Hloop.
      destruct (admit_loop services _ _ _ _) as [t1 w1]. cbn [fst] in Hloop.
      unfold set_stats, ret. rewrite sleep_run.
      intros [= <- <- <-]. rewrite arrive_stats. cbn in *. lia.
    + unfold ret. rewrite sleep_run. discriminate.
  - unfold ret. rewrite sleep_run. discriminate.
Qed.

(** ** The loop of [api_parse_news] *)

Lemma parse_step_added (item : Scraper.NewsItem) (a : Z) (w : World) :
  a <= fst (parse_step services item a w) <= a + 1.
Proof.
  unfold parse_step, mbind. rewrite translate_to_russian_run, add_news_run.
  destruct (snd (Database.add_news _ _ _ _ _ _)); cbn; lia.
Qed.

Lemma parse_loop_bound (max_to_add : Z) (news_items : list Scraper.NewsItem) :
  forall (a : Z) (w : World),
    a <= Z.max 0 max_to_add ->
    a <= fst (fst (parse_loop services max_to_add news_items a w))
      <= Z.max 0 max_to_add.
Proof.
  induction news_items as [|item rest IH]; intros a w Ha.
  - cbn. lia.
  - cbn [parse_loop]. destruct (max_to_add <=? a) eqn:E; [cbn; lia|].
    apply Z.leb_gt in E. unfold mbind.
    pose proof (parse_step_added item a w) as Hstep.
    destruct (parse_step services item a w) as [a1 w1]. cbn [fst] in Hstep.
    assert (Ha1 : a1 <= Z.max 0 max_to_add) by lia.
    specialize (IH a1 w1 Ha1). lia.
Qed.

(** A manual run that reached the loop stores [found = len(news_items)],
    [duplicates = found - added], and an [added] within the capacity. *)
Lemma api_parse_news_stats (w w' : World) (resp : Response) (run : ManualRun) :
  api_parse_news_run services w = ((resp, Some run), w') ->
  let st := last_auto_parse_stats w' in
  found st = added st + duplicates st /\
  0 <= added st <= Z.max 0 (10 - manual_pending run).
Proof.
  unfold api_parse_news_run, mbind.
  rewrite check_libretranslate_status_run, get_pending_count_run.
  set (pending := Database.get_pending_count (seen (arrive CheckLibreTranslate w))).
  destruct (Z.max 0 (10 - pending) =? 0); [unfold ret; discriminate|].
  rewrite scrape_all_sources_run.
  destruct (Scraper.scrape_all_sources (playwright services)) as [result|];
    [|unfold ret; discriminate].
  generalize (len (Scraper.items result)). intros n.
  destruct (Scraper.items result) as [|item rest] eqn:Eitems; [unfold ret; discriminate|].
  pose proof (parse_loop_bound (Z.max 0 (10 - pending)) (item :: rest) 0
                (arrive ScrapeAllSources
                   (arrive GetPendingCount (arrive CheckLibreTranslate w))))
    as Hloop.
  destruct (parse_loop services _ _ _ _) as [[a unvisited] w1]. cbn [fst] in Hloop.
  unfold set_stats, ret. intros [= <- <- <-].
  cbn [found added duplicates last_auto_parse_stats manual_pending fst snd].
  lia.
Qed.

End Admission.

Section TableEvolution.

Import Main.

Context {lib : Scraper.Library}.
Variable services : Services.

Lemma evolves_refl (d : Database.Store) : evolves d d.
Proof. now exists []. Qed.

Lemma evolves_trans (d1 d2 d3 : Database.Store) :
  evolves d1 d2 -> evolves d2 d3 -> evolves d1 d3.
Proof.
  intros [ops ->] [ops' ->]. exists (ops ++ ops')%list. now rewrite run_ops_app.
Qed.

Lemma evolves_seen (w : World) : evolves (db w) (seen w).
Proof. rewrite seen_batch. now eexists. Qed.

Lemma steady_ret {A : Type} (a : A) : steady (ret a).
Proof. intros w. apply evolves_refl. Qed.

Lemma steady_bind {A B : Type} (c : M A) (k : A -> M B) :
  steady c -> (forall a, steady (k a)) -> steady (mbind c k).
Proof.
  intros Hc Hk w. unfold mbind. specialize (Hc w).
  destruct (c w) as [a w1]. cbn [snd] in Hc.
  apply evolves_trans with (db w1); [exact Hc | apply Hk].
Qed.

Lemma steady_await {A : Type} (e : Event) (call : M A) :
  steady call -> steady (await e call).
Proof.
  intros H w. rewrite await_arrive.
  apply evolves_trans with (db (arrive e w)); [|apply H].
  rewrite arrive_db. apply evolves_seen.
Qed.

Lemma steady_read (A : Type) (f : World -> A) : steady (fun w => (f w, w)).
Proof. intros w. apply evolves_refl. Qed.

Lemma steady_set_stats (st : ParseStats) : steady (set_stats st).
Proof. intros w. apply evolves_refl. Qed.

Lemma steady_add_news (t s u n : string) : steady (add_news services t s u n).
Proof.
  intros w. rewrite add_news_run. cbn [snd]. rewrite inserted_db.
  apply evolves_trans with (seen w); [apply evolves_seen|].
  exists [Database.OpAdd (isoformat_now services (clock (arrive (AddNews t) w))) t s u n].
  reflexivity.
Qed.

Lemma steady_mark_as_sent (i : Z) : steady (mark_as_sent i).
Proof.
  intros w. rewrite mark_as_sent_run. unfold with_db. cbn [snd db]. rewrite arrive_db.
  apply evolves_trans with (seen w); [apply evolves_seen|].
  now exists [Database.OpMarkSent i].
Qed.

Lemma steady_translate (text : string) : steady (translate_to_russian services text).
Proof. apply steady_await, steady_ret. Qed.

Lemma steady_check_if_exists (t : string) : steady (check_if_exists t).
Proof. apply steady_await, steady_read. Qed.

Lemma steady_get_pending_count : steady get_pending_count.
Proof. apply steady_await, steady_read. Qed.

Lemma steady_check_libretranslate_status :
  steady (check_libretranslate_status services).
Proof. apply steady_await, steady_ret. Qed.

Lemma steady_scrape_all_sources : steady (scrape_all_sources services).
Proof. apply steady_await, steady_ret. Qed.

Lemma steady_sleep (seconds : Z) : steady (sleep seconds).
Proof. apply steady_await, steady_ret. Qed.

Lemma steady_parse_step (item : Scraper.NewsItem) (a : Z) :
  steady (parse_step services item a).
Proof.
  apply steady_bind; [apply steady_translate|]. intros translated.
  apply steady_bind; [apply steady_add_news|]. intros ok. apply steady_ret.
Qed.

Lemma steady_parse_loop (max_to_add : Z) (news_items : list Scraper.NewsItem) :
  forall a, steady (parse_loop services max_to_add news_items a).
Proof.
  induction news_items as [|item rest IH]; intros a; cbn [parse_loop].
  - apply steady_ret.
  - destruct (max_to_add <=? a); [apply steady_ret|].
    apply steady_bind; [apply steady_parse_step | exact IH].
Qed.

Lemma steady_api_parse_news_run : steady (api_parse_news_run services).
Proof.
  apply steady_bind; [apply steady_check_libretranslate_status|]. intros lt_status.
  apply steady_bind; [apply steady_get_pending_count|]. intros pending. cbv zeta.
  destruct (Z.max 0 (10 - pending) =? 0); [apply steady_ret|].
  apply steady_bind; [apply steady_scrape_all_sources|]. intros [result|];
    [|apply steady_ret].
  cbv zeta. destruct (Scraper.items result) as [|item rest]; [apply steady_ret|].
  apply steady_bind; [apply steady_parse_loop|]. intros r.
  apply steady_bind; [apply steady_set_stats|]. intros _. apply steady_ret.
Qed.

Lemma steady_api_parse_news : steady (api_parse_news services).
Proof.
  apply steady_bind; [apply steady_api_parse_news_run|]. intros r. apply steady_ret.
Qed.

Lemma steady_admit_step (needed : Z) (item : Scraper.NewsItem) (t : Tally) :
  steady (admit_step services needed item t).
Proof.
  apply steady_bind; [apply steady_check_if_exists|]. intros [|]; [apply steady_ret|].
  destruct (tally_added t <? needed); [|apply steady_ret].
  apply steady_bind; [apply steady_translate|]. intros translated.
  apply steady_bind; [apply steady_add_news|]. intros ok. apply steady_ret.
Qed.

Lemma steady_admit_loop (needed : Z) (news_items : list Scraper.NewsItem) :
  forall t, steady (admit_loop services needed news_items t).
Proof.
  induction news_items as [|item rest IH]; intros t; cbn [admit_loop].
  - apply steady_ret.
  - apply steady_bind; [apply steady_admit_step | exact IH].
Qed.

Lemma steady_auto_send_iteration : steady (auto_send_iteration services).
Proof.
  apply steady_bind; [apply steady_get_pending_count|]. intros pending.
  apply steady_bind.
  - destruct (pending <? 10); [|apply steady_ret].
    unfold auto_parse. cbv zeta.
    apply steady_bind; [apply steady_check_libretranslate_status|]. intros _.
    apply steady_bind; [apply steady_scrape_all_sources|]. intros [result|];
      [|apply steady_ret].
    cbv zeta. apply steady_bind; [apply steady_admit_loop|]. intros t.
    apply steady_bind; [apply steady_set_stats|]. intros _. apply steady_ret.
  - intros t. apply steady_bind; [apply steady_sleep|]. intros _. apply steady_ret.
Qed.

Lemma evolves_unique_titles (d d' : Database.Store) :
  evolves d d' -> Database.unique_titles d -> Database.unique_titles d'.
Proof. intros [ops ->]. apply run_ops_unique_titles. Qed.

(** C3.  Title uniqueness: when no two rows of the table share a title, none
    do after any sequence of repository calls ([add_news] invocations with
    any arguments, also mixed with [mark_as_sent] and [clear_all_news]), nor
    after a manual parse request, nor after a scheduler turn, whatever the
    other tasks insert in between. *)
Theorem titles_stay_unique (ops : list Database.Op) (w : World) :
  Database.unique_titles (db w) ->
  Database.unique_titles (Database.run_ops ops (db w)) /\
  Database.unique_titles (db (snd (api_parse_news services w))) /\
  Database.unique_titles (db (snd (auto_send_iteration services w))).
Proof.
  intros H. split; [|split].
  - now apply run_ops_unique_titles.
  - apply (evolves_unique_titles (db w)); [apply steady_api_parse_news | exact H].
  - apply (evolves_unique_titles (db w)); [apply steady_auto_send_iteration | exact H].
Qed.

End TableEvolution.

Section AdmissionClaims.

Import Main.

Context {lib : Scraper.Library}.
Variable services : Services.

(** C1, as the code has it.  A scheduler turn that runs the pass to its end
    stores statistics with [found = added + duplicates + skipped], where
    [skipped] counts the candidates that were not in the table when looked
    up and came after [added] had reached the capacity, and with [added] at
    most the capacity [max(0, 10 - pending)].  A manual run that reaches its
    loop stores [added] at most the capacity and [found = added +
    duplicates]: its [duplicates] is [found - added], whatever the
    candidates left unvisited by the [break] are. *)
Theorem admission_statistics (w : World) :
  (forall pending t w',
      auto_send_iteration services w = ((pending, Some t), w') ->
      let st := last_auto_parse_stats w' in
      found st = added st + duplicates st + tally_skipped t /\
      added st <= Z.max 0 (10 - pending)) /\
  (forall resp run w',
      api_parse_news_run services w = ((resp, Some run), w') ->
      let st := last_auto_parse_stats w' in
      found st = added st + duplicates st /\
      added st <= Z.max 0 (10 - manual_pending run)).
Proof.
  split.
  - intros pending t w' H.
    destruct (auto_send_iteration_stats services w w' pending t H)
      as [Hf [Ha [Hd Hcap]]].
    cbn zeta. rewrite Hf, Ha, Hd. split; [reflexivity | exact Hcap].
  - intros resp run w' H.
    destruct (api_parse_news_stats services w w' resp run H) as [Hf Ha].
    split; [exact Hf | apply Ha].
Qed.

Lemma admit_step_duplicate (needed : Z) (item : Scraper.NewsItem) (t : Tally)
    (w : World) :
  Database.check_if_exists (Scraper.title item) (seen w) = true ->
  admit_step services needed item t w
  = (mkTally (tally_added t) (tally_duplicates t + 1) (tally_skipped t),
     arrive (CheckIfExists (Scraper.title item)) w).
Proof.
  intros H. unfold admit_step, mbind. now rewrite check_if_exists_run, H.
Qed.

Lemma parse_step_log (item : Scraper.NewsItem) (a : Z) (w : World) :
  log (snd (parse_step services item a w))
  = (log w ++ [Translate (Scraper.summary item); AddNews (Scraper.title item)])%list.
Proof.
  unfold parse_step, mbind. rewrite translate_to_russian_run, add_news_run.
  unfold ret. cbn [snd]. now rewrite inserted_log, arrive_log, <- app_assoc.
Qed.

Lemma add_news_duplicate (now t s u n : string) (d : Database.Store) :
  Database.check_if_exists t d = true -> Database.add_news now t s u n d = (d, false).
Proof. unfold Database.check_if_exists, Database.add_news. now intros ->. Qed.

Lemma parse_step_duplicate (item : Scraper.NewsItem) (a : Z) (w : World) :
  others w = [] ->
  Database.check_if_exists (Scraper.title item) (db w) = true ->
  fst (parse_step services item a w) = a /\ db (snd (parse_step services item a w)) = db w.
Proof.
  intros Hq Hdup. unfold parse_step, mbind.
  rewrite translate_to_russian_run, add_news_run.
  assert (Hq1 : others (arrive (Translate (Scraper.summary item)) w) = [])
    by now rewrite arrive_others, Hq.
  unfold ret. cbn [fst snd]. rewrite inserted_db.
  rewrite (seen_quiet _ Hq1), arrive_db, (seen_quiet _ Hq).
  now rewrite add_news_duplicate.
Qed.

(** C5, as the code has it.  In the scheduler's pass, a candidate whose title
    is in the table when it is looked up adds one to [duplicates] and costs
    that lookup only: nothing is translated and no insert is attempted.  The
    manual loop has no lookup and no duplicate counter: every candidate it
    visits is translated and an insert is attempted; when the title is in the
    table already (and no other task touches the table) the insert fails,
    [added_count] stays as it was and so does the table. *)
Theorem duplicate_candidate_handling (needed : Z) (item : Scraper.NewsItem)
    (t : Tally) (a : Z) (w : World) :
  (Database.check_if_exists (Scraper.title item) (seen w) = true ->
   exists w',
     admit_step services needed item t w
     = (mkTally (tally_added t) (tally_duplicates t + 1) (tally_skipped t), w') /\
     log w' = (log w ++ [CheckIfExists (Scraper.title item)])%list /\
     db w' = seen w) /\
  log (snd (parse_step services item a w))
  = (log w ++ [Translate (Scraper.summary item); AddNews (Scraper.title item)])%list /\
  (others w = [] ->
   Database.check_if_exists (Scraper.title item) (db w) = true ->
   fst (parse_step services item a w) = a /\
   db (snd (parse_step services item a w)) = db w).
Proof.
  split; [|split].
  - intros H. exists (arrive (CheckIfExists (Scraper.title item)) w).
    split; [now apply admit_step_duplicate|].
    now rewrite arrive_log, arrive_db.
  - apply parse_step_log.
  - apply parse_step_duplicate.
Qed.

End AdmissionClaims.

(** * Facts about the orchestrator *)

Section Orchestrator.

Import Scraper.

Context {lib : Library}.

Lemma adapter_run (body : Page -> outcome (list NewsItem)) (browser : Browser)
    (opened : nat) (context : Context) (page : Page) :
  new_context browser opened = Returns context ->
  new_page context = Returns page ->
  close context = Returns tt ->
  exists r, adapter body browser opened = Returns r /\
            fst r = harvest (body page) /\
            stat_of (fst r) (snd r) = report (body page).
Proof.
  intros Hc Hp Hx. unfold adapter, guarded. rewrite Hc. cbn [bind]. rewrite Hp.
  cbn [bind]. destruct (body page) as [news_items|]; rewrite Hx; cbn [bind];
    eexists; (split; [reflexivity|]); split; reflexivity.
Qed.

(** The body of each adapter's [try] raises when the listing does not load,
    and when the wait for the article container times out. *)
Lemma listing_failure_raises (page : Page) :
  (forall u, goto page u = Raises) ->
  techcrunch_body page = Raises /\ theverge_body page = Raises /\
  venturebeat_body page = Raises.
Proof.
  intros H. unfold techcrunch_body, theverge_body, venturebeat_body.
  rewrite !H. now repeat split.
Qed.

Lemma container_timeout_raises (page : Page) (doc : Doc) :
  (forall u, goto page u = Returns doc) ->
  (forall selector, wait_for_selector doc selector = Raises) ->
  techcrunch_body page = Raises /\ theverge_body page = Raises /\
  venturebeat_body page = Raises.
Proof.
  intros Hg Hw. unfold techcrunch_body, theverge_body, venturebeat_body.
  rewrite !Hg. cbn [bind]. rewrite !Hw. now repeat split.
Qed.


End Orchestrator.

(** * The properties on concrete tables, sites and schedules *)

Section Runs.

Import Examples.

(** C1 as stated fails for a manual run: nine rows are pending, so the
    capacity is 1; TechCrunch lists [A] and [B], neither in the table.  The
    run adds [A], breaks at [B], and stores [found = 2], [added = 1],
    [duplicates = 1], while one candidate that is not in the table was
    skipped for lack of capacity: 2 is not 1 + 1 + 1. *)
Lemma manual_run_counts_skipped_as_duplicate :
  exists resp run w',
    Main.api_parse_news_run (lib := plain) (services lists_a_b 200)
      (Main.boot (backlog 9)) = ((resp, Some run), w') /\
    Main.manual_pending run = 9 /\
    Main.found (Main.last_auto_parse_stats w') = 2 /\
    Main.added (Main.last_auto_parse_stats w') = 1 /\
    Main.duplicates (Main.last_auto_parse_stats w') = 1 /\
    Main.skipped_due_to_capacity run (Main.db w') = 1 /\
    Main.found (Main.last_auto_parse_stats w')
      <> Main.added (Main.last_auto_parse_stats w')
         + Main.duplicates (Main.last_auto_parse_stats w')
         + Main.skipped_due_to_capacity run (Main.db w').
Proof.
  eexists _, _, _. split; [vm_compute; reflexivity|].
  repeat split; try reflexivity. vm_compute. discriminate.
Qed.

Lemma admission_statistics_witness :
  let w := Main.boot (backlog 9) in
  let s := services lists_a_b 200 in
  let turn := Main.auto_send_iteration (lib := plain) s w in
  let manual := Main.api_parse_news_run (lib := plain) s w in
  (fst turn = (9, Some (Main.mkTally 1 0 1)) /\
   Main.found (Main.last_auto_parse_stats (snd turn))
   = Main.added (Main.last_auto_parse_stats (snd turn))
     + Main.duplicates (Main.last_auto_parse_stats (snd turn)) + 1 /\
   Main.added (Main.last_auto_parse_stats (snd turn)) <= Z.max 0 (10 - 9)) /\
  (snd (fst manual)
   = Some (Main.mkManualRun 9 [Scraper.mkNewsItem "B" "B" "https://techcrunch.com/b"
                                                  "TechCrunch"]) /\
   Main.found (Main.last_auto_parse_stats (snd manual))
   = Main.added (Main.last_auto_parse_stats (snd manual))
     + Main.duplicates (Main.last_auto_parse_stats (snd manual)) /\
   Main.added (Main.last_auto_parse_stats (snd manual)) <= Z.max 0 (10 - 9)).
Proof.
  cbv zeta.
  destruct (admission_statistics (lib := plain) (services lists_a_b 200)
              (Main.boot (backlog 9))) as [Hturn Hmanual].
  split.
  - split; [vm_compute; reflexivity|].
    apply (Hturn 9 (Main.mkTally 1 0 1)
             (snd (Main.auto_send_iteration (lib := plain) (services lists_a_b 200)
                     (Main.boot (backlog 9))))).
    vm_compute. reflexivity.
  - split; [vm_compute; reflexivity|].
    apply (Hmanual
             (fst (fst (Main.api_parse_news_run (lib := plain) (services lists_a_b 200)
                          (Main.boot (backlog 9)))))
             (Main.mkManualRun 9 [Scraper.mkNewsItem "B" "B" "https://techcrunch.com/b"
                                                     "TechCrunch"])
             (snd (Main.api_parse_news_run (lib := plain) (services lists_a_b 200)
                     (Main.boot (backlog 9))))).
    vm_compute. reflexivity.
Defined.

(** C2 as stated fails: of two unsent rows, the publish request hands the
    Publisher the one dated 2025-01-02, and never the oldest unsent row,
    dated 2025-01-01. *)
Lemma publish_passes_over_oldest_unsent :
  let oldest := Database.mkRow 1 "2025-01-01T10:00:00" "Older" "s1" "u1" "n1" 0 in
  let w' := snd (Main.api_send_telegram (services lists_a 200) (Main.boot two_unsent)) in
  In oldest (Database.rows two_unsent) /\
  Database.is_unsent oldest = true /\
  (forall r, In r (Database.rows two_unsent) -> Database.is_unsent r = true ->
             String.leb (Database.date oldest) (Database.date r) = true) /\
  Main.log w' = [Main.GetUnsentNews; Main.SendTelegram "Newer" "s2" "u2" "n2";
                 Main.MarkAsSent 2] /\
  ~ In (Main.SendTelegram (Database.title oldest) (Database.summary_ru oldest)
                          (Database.source_url oldest) (Database.source_name oldest))
       (Main.log w').
Proof.
  cbv zeta. split; [now left|]. split; [reflexivity|]. split.
  - intros r [<-|[<-|[]]] _; reflexivity.
  - split; [reflexivity|]. intros [H|[H|[H|[]]]]; discriminate.
Qed.

Lemma publish_hands_newest_unsent_witness :
  let oldest := Database.mkRow 1 "2025-01-01T10:00:00" "Older" "s1" "u1" "n1" 0 in
  let w := Main.boot two_unsent in
  (In oldest (Database.rows (Main.seen w)) /\ Database.is_unsent oldest = true) /\
  exists x,
    In x (Database.rows (Main.seen w)) /\ Database.is_unsent x = true /\
    (forall r', In r' (Database.rows (Main.seen w)) -> Database.is_unsent r' = true ->
                String.leb (Database.date r') (Database.date x) = true) /\
    Main.log (snd (Main.api_send_telegram (services lists_a 200) w))
    = (Main.log w ++ Main.publish_events (services lists_a 200) x)%list.
Proof.
  cbv zeta. split; [split; [now left | reflexivity]|].
  apply (publish_hands_newest_unsent (services lists_a 200) (Main.boot two_unsent)
           (Database.mkRow 1 "2025-01-01T10:00:00" "Older" "s1" "u1" "n1" 0)).
  - now left.
  - reflexivity.
Defined.

Lemma titles_stay_unique_witness :
  let calls := [Database.OpAdd (stamp 0) "A" "s" "u" "n";
                Database.OpAdd (stamp 1) "A" "again" "u" "n";
                Database.OpMarkSent 1;
                Database.OpAdd (stamp 2) "B" "s" "u" "n"] in
  let w := Main.boot holds_a in
  let s := services lists_a_b 200 in
  Database.unique_titles (Main.db w) /\
  Database.unique_titles (Database.run_ops calls (Main.db w)) /\
  Database.unique_titles (Main.db (snd (Main.api_parse_news (lib := plain) s w))) /\
  Database.unique_titles (Main.db (snd (Main.auto_send_iteration (lib := plain) s w))).
Proof.
  cbv zeta.
  assert (H : Database.unique_titles (Main.db (Main.boot holds_a))).
  { repeat constructor; intros []; discriminate. }
  split; [exact H|].
  apply (titles_stay_unique (lib := plain) (services lists_a_b 200)); exact H.
Defined.

Lemma mark_as_sent_idempotent_witness :
  let marked := Database.mark_as_sent 1 two_unsent in
  Database.mark_as_sent 1 marked = marked /\
  Database.mark_as_sent 7 two_unsent = two_unsent.
Proof.
  cbv zeta. split.
  - apply (proj1 (proj2 (mark_as_sent_idempotent 1 (Database.mark_as_sent 1 two_unsent)))).
    intros r [<-|[<-|[]]]; [reflexivity | discriminate].
  - apply (proj2 (proj2 (mark_as_sent_idempotent 7 two_unsent))).
    intros r [<-|[<-|[]]]; discriminate.
Defined.

Lemma full_queue_skips_parsing_witness :
  let w := Main.boot (backlog 10) in
  10 <= Database.get_pending_count (Main.seen w) /\
  exists w',
    Main.auto_send_iteration (lib := plain) (services lists_a_b 200) w
      = ((10, None), w') /\
    Main.log w' = [Main.GetPendingCount; Main.Sleep 30] /\
    Main.last_auto_parse_stats w' = Main.initial_stats /\
    Main.db w' = backlog 10.
Proof.
  cbv zeta. split; [vm_compute; discriminate|].
  destruct (full_queue_skips_parsing (lib := plain) (services lists_a_b 200)
              (Main.boot (backlog 10))) as [w' [Hrun [Hlog [Hstats Hdb]]]].
  - vm_compute. discriminate.
  - exists w'. repeat split; assumption.
Defined.

(** C4 on the scheduler's pass: the turn looks [A] up and does not find it;
    while the summary is being translated another task inserts [A]; the
    turn's own insert then fails on the UNIQUE constraint, and the turn
    still stores [added = 1].  The only row titled [A] is the other task's. *)
Theorem scheduler_counts_failed_insert :
  let w' := snd (Main.auto_send_iteration (lib := plain) (services lists_a 200) racing) in
  Main.log w' = [Main.GetPendingCount; Main.CheckLibreTranslate; Main.ScrapeAllSources;
                 Main.CheckIfExists "A"; Main.Translate "A"; Main.AddNews "A";
                 Main.Sleep 30] /\
  map (fun r => (Database.title r, Database.summary_ru r)) (Database.rows (Main.db w'))
  = [("old1", "s"); ("A", "other")] /\
  Main.added (Main.last_auto_parse_stats w') = 1 /\
  Main.duplicates (Main.last_auto_parse_stats w') = 0 /\
  Main.found (Main.last_auto_parse_stats w') = 1.
Proof. cbv zeta. repeat split; vm_compute; reflexivity. Qed.

(** C5 as stated fails for a manual run: [A] is in the table and TechCrunch
    lists [A]; the run translates the summary of [A] and attempts the
    insert. *)
Lemma manual_run_translates_duplicate :
  let w' := snd (Main.api_parse_news (lib := plain) (services lists_a 200)
                   (Main.boot holds_a)) in
  Database.check_if_exists "A" holds_a = true /\
  Main.log w' = [Main.CheckLibreTranslate; Main.GetPendingCount; Main.ScrapeAllSources;
                 Main.Translate "A"; Main.AddNews "A"] /\
  In (Main.Translate "A") (Main.log w') /\
  In (Main.AddNews "A") (Main.log w').
Proof.
  cbv zeta. split; [reflexivity|]. split; [vm_compute; reflexivity|].
  split; vm_compute; tauto.
Qed.

Lemma duplicate_candidate_handling_witness :
  let w := Main.boot holds_a in
  let item := Scraper.mkNewsItem "A" "A" "https://techcrunch.com/a" "TechCrunch" in
  let s := services lists_a 200 in
  (Database.check_if_exists "A" (Main.seen w) = true /\ Main.others w = [] /\
   Database.check_if_exists "A" (Main.db w) = true) /\
  (exists w',
      Main.admit_step s 3 item (Main.mkTally 0 0 0) w = (Main.mkTally 0 1 0, w') /\
      Main.log w' = [Main.CheckIfExists "A"] /\ Main.db w' = holds_a) /\
  Main.log (snd (Main.parse_step s item 0 w)) = [Main.Translate "A"; Main.AddNews "A"] /\
  fst (Main.parse_step s item 0 w) = 0 /\
  Main.db (snd (Main.parse_step s item 0 w)) = holds_a.
Proof.
  cbv zeta. split; [repeat split|].
  destruct (duplicate_candidate_handling (services lists_a 200) 3
              (Scraper.mkNewsItem "A" "A" "https://techcrunch.com/a" "TechCrunch")
              (Main.mkTally 0 0 0) 0 (Main.boot holds_a)) as [Hdup [Hlog Hmanual]].
  split; [|split].
  - destruct Hdup as [w' [Hstep [Hl Hd]]]; [reflexivity|].
    exists w'. repeat split; assumption.
  - exact Hlog.
  - apply Hmanual; reflexivity.
Defined.



Lemma failed_publish_then_retry_witness :
  let w := Main.boot two_unsent in
  let x := Database.mkRow 2 "2025-01-02T10:00:00" "Newer" "s2" "u2" "n2" 0 in
  let w1 := snd (Main.api_send_telegram (services lists_a 500) w) in
  let w2 := snd (Main.api_send_telegram (services lists_a 200) w1) in
  (Main.others w = [] /\ Database.get_unsent_news (Main.db w) = Some x /\
   Main.others w1 = [] /\ Database.get_unsent_news (Main.db w1) = Some x) /\
  Main.db w1 = two_unsent /\
  Main.db w2 = Database.mark_as_sent 2 two_unsent /\
  (forall ops r,
      In r (Database.rows (Database.run_ops ops (Main.db w2))) ->
      Database.id r = 2 -> Database.sent_to_telegram r = 1).
Proof.
  cbv zeta. split; [repeat split|].
  destruct (failed_publish_then_retry (services lists_a 500) (services lists_a 200)
              (Main.boot two_unsent)
              (snd (Main.api_send_telegram (services lists_a 500) (Main.boot two_unsent)))
              (Database.mkRow 2 "2025-01-02T10:00:00" "Newer" "s2" "u2" "n2" 0))
    as [[H1 _] [[H2 _] H3]]; try reflexivity.
  split; [exact H1|]. split; [exact H2|].
  intros ops. apply (proj1 (H3 ops)).
Defined.

Lemma scheduler_start_stop_safe_witness :
  let idle := Main.boot Database.empty in
  let stocked := Main.boot (backlog 1) in
  let running := snd (Main.api_start_auto_send stocked) in
  (Main.auto_send_running running = true /\
   Main.auto_send_running idle = false /\
   Database.get_news_count (Main.seen idle) = 0 /\
   Main.one_loop stocked) /\
  Main.api_start_auto_send running
  = (Main.Message "Автоотправка уже запущена", running) /\
  Main.api_stop_auto_send idle = (Main.Message "Автоотправка не запущена", idle) /\
  fst (Main.api_start_auto_send idle)
  = Main.JSONResponse 400 "Нет новостей в базе. Сначала выполните парсинг." /\
  Main.live_tasks (snd (Main.api_start_auto_send idle)) = [] /\
  Main.one_loop (Main.serve_all [Main.Start; Main.Start; Main.Stop; Main.Stop; Main.Start]
                                stocked).
Proof.
  cbv zeta. split; [repeat split|].
  split; [|split; [|split; [|split]]].
  - apply (proj1 (scheduler_start_stop_safe
                    (snd (Main.api_start_auto_send (Main.boot (backlog 1)))))).
    reflexivity.
  - apply (proj1 (proj2 (scheduler_start_stop_safe (Main.boot Database.empty)))).
    reflexivity.
  - destruct (proj1 (proj2 (proj2 (scheduler_start_stop_safe (Main.boot Database.empty))))
                eq_refl eq_refl) as [w' [Hrun _]].
    now rewrite Hrun.
  - destruct (proj1 (proj2 (proj2 (scheduler_start_stop_safe (Main.boot Database.empty))))
                eq_refl eq_refl) as [w' [Hrun [_ [_ [Hlive _]]]]].
    now rewrite Hrun.
  - apply (proj2 (proj2 (proj2 (scheduler_start_stop_safe (Main.boot (backlog 1)))))).
    reflexivity.
Defined.

End Runs.

(** * Further properties of the repository *)

Section RepositoryCounts.

Import Database.

Lemma run_op_flags_binary (o : Op) (d : Store) :
  flags_binary d -> flags_binary (run_op o d).
Proof.
  unfold flags_binary. intros H. destruct o as [now t s u n|i|]; simpl.
  - unfold add_news. destruct (existsb (has_title t) (rows d)); simpl; [exact H|].
    intros r Hr. apply in_app_or in Hr. destruct Hr as [Hr|[<-|[]]]; [now apply H|].
    now left.
  - intros r Hr. apply in_map_iff in Hr. destruct Hr as [r' [<- Hr']].
    destruct (id r' =? i); [now right | now apply H].
  - intros r [].
Qed.

Lemma run_ops_flags_binary (ops : list Op) :
  forall d, flags_binary d -> flags_binary (run_ops ops d).
Proof.
  unfold run_ops. induction ops as [|o ops IH]; simpl; intros d H; [exact H|].
  apply IH. now apply run_op_flags_binary.
Qed.

Lemma len_cons {A : Type} (x : A) (xs : list A) : len (x :: xs) = len xs + 1.
Proof. unfold len. cbn [List.length]. lia. Qed.

Lemma len_app {A : Type} (xs ys : list A) : len (xs ++ ys) = len xs + len ys.
Proof. unfold len. rewrite length_app. lia. Qed.

Lemma len_nonneg {A : Type} (xs : list A) : 0 <= len xs.
Proof. unfold len. lia. Qed.

Lemma partition_by_flag (rs : list Row) :
  (forall r, In r rs -> sent_to_telegram r = 0 \/ sent_to_telegram r = 1) ->
  len rs = len (filter is_unsent rs) + len (filter is_sent rs).
Proof.
  induction rs as [|r rs IH]; intros H; [reflexivity|].
  assert (Hr : sent_to_telegram r = 0 \/ sent_to_telegram r = 1) by (apply H; now left).
  assert (IH' : len rs = len (filter is_unsent rs) + len (filter is_sent rs))
    by (apply IH; intros r' Hr'; apply H; now right).
  cbn [filter]. unfold is_unsent at 1, is_sent at 1.
  destruct Hr as [-> | ->]; cbn [Z.eqb Pos.eqb]; rewrite !len_cons; lia.
Qed.

(** X1.  When every flag of the table is 0 or 1 (as on a fresh table), it
    stays so under any sequence of repository calls, and the three counters
    agree: the total is the pending count plus the sent count. *)
Theorem counts_add_up (ops : list Op) (d : Store) :
  flags_binary d ->
  flags_binary (run_ops ops d) /\
  get_news_count (run_ops ops d)
  = get_pending_count (run_ops ops d) + get_sent_count (run_ops ops d).
Proof.
  intros H. pose proof (run_ops_flags_binary ops d H) as H'.
  split; [exact H'|]. unfold get_news_count, get_pending_count, get_sent_count.
  now apply partition_by_flag.
Qed.

Lemma existsb_has_title_app (t : string) (rs rs' : list Row) :
  existsb (has_title t) (rs ++ rs') = existsb (has_title t) rs || existsb (has_title t) rs'.
Proof. apply existsb_app. Qed.

Lemma add_news_lookup (now t s u n : string) (d : Store) :
  check_if_exists t (fst (add_news now t s u n d)) = true /\
  snd (add_news now t s u n d) = negb (check_if_exists t d) /\
  (forall t', t' <> t ->
     check_if_exists t' (fst (add_news now t s u n d)) = check_if_exists t' d).
Proof.
  unfold check_if_exists, add_news.
  destruct (existsb (has_title t) (rows d)) eqn:E; cbn [fst snd rows negb].
  - now rewrite E.
  - rewrite existsb_has_title_app. cbn [existsb]. unfold has_title at 2. cbn [title].
    rewrite String.eqb_refl, orb_true_r. repeat split.
    intros t' Ht'. rewrite existsb_has_title_app. cbn [existsb].
    unfold has_title at 2. cbn [title].
    replace (t =? t')%string with false
      by (symmetry; apply String.eqb_neq; congruence).
    now rewrite !orb_false_r.
Qed.

(** X2.  Insert and lookup: after [add_news] for a title, whatever it
    returned, [check_if_exists] finds the title; [add_news] returns [True]
    exactly when [check_if_exists] did not find the title before; and the
    lookup of every other title answers as before. *)
Theorem add_news_then_exists (now t s u n : string) (d : Store) :
  check_if_exists t (fst (add_news now t s u n d)) = true /\
  snd (add_news now t s u n d) = negb (check_if_exists t d) /\
  (forall t', t' <> t ->
     check_if_exists t' (fst (add_news now t s u n d)) = check_if_exists t' d).
Proof. apply add_news_lookup. Qed.

Lemma add_news_effect (now t s u n : string) (d : Store) :
  (snd (add_news now t s u n d) = true ->
   exists i,
     rows (fst (add_news now t s u n d)) = (rows d ++ [mkRow i now t s u n 0])%list /\
     (forall r, In r (rows d) -> id r < i) /\
     get_news_count (fst (add_news now t s u n d)) = get_news_count d + 1 /\
     get_pending_count (fst (add_news now t s u n d)) = get_pending_count d + 1 /\
     get_sent_count (fst (add_news now t s u n d)) = get_sent_count d) /\
  (snd (add_news now t s u n d) = false -> fst (add_news now t s u n d) = d).
Proof.
  unfold add_news. destruct (existsb (has_title t) (rows d)); cbn [fst snd].
  - split; [discriminate | reflexivity].
  - split; [|discriminate]. intros _.
    exists (Z.max (seq d) (max_rowid (rows d)) + 1). cbn [rows].
    split; [reflexivity|]. split.
    + intros r Hr. pose proof (max_rowid_ge _ _ Hr). lia.
    + unfold get_news_count, get_pending_count, get_sent_count. cbn [rows].
      rewrite !filter_app, !len_app. cbn. lia.
Qed.

(** X3.  When [add_news] returns [True] it has appended one unsent row with
    the given fields and an id above every id of the table: the total and
    the pending count go up by one and the sent count stays.  When it
    returns [False] the table is the one it was given. *)
Theorem add_news_adds_one_pending (now t s u n : string) (d : Store) :
  (snd (add_news now t s u n d) = true ->
   exists i,
     rows (fst (add_news now t s u n d)) = (rows d ++ [mkRow i now t s u n 0])%list /\
     (forall r, In r (rows d) -> id r < i) /\
     get_news_count (fst (add_news now t s u n d)) = get_news_count d + 1 /\
     get_pending_count (fst (add_news now t s u n d)) = get_pending_count d + 1 /\
     get_sent_count (fst (add_news now t s u n d)) = get_sent_count d) /\
  (snd (add_news now t s u n d) = false -> fst (add_news now t s u n d) = d).
Proof. apply add_news_effect. Qed.

Lemma run_op_unique_ids (o : Op) (d : Store) : unique_ids d -> unique_ids (run_op o d).
Proof.
  unfold unique_ids. intros H. destruct o as [now t s u n|i|]; simpl.
  - unfold add_news. destruct (existsb (has_title t) (rows d)); simpl; [exact H|].
    rewrite map_app. apply NoDup_app; [exact H | repeat constructor; intros [] |].
    intros a Ha [<-|[]]. apply in_map_iff in Ha. destruct Ha as [r [Hid Hr]].
    pose proof (max_rowid_ge _ _ Hr). simpl in Hid. lia.
  - rewrite map_map. erewrite map_ext; [exact H|].
    intros r. now destruct (id r =? i).
  - constructor.
Qed.

(** X4.  The primary key: when no two rows share an id, none do after any
    sequence of repository calls, deletions of the whole table included. *)
Theorem primary_keys_stay_unique (ops : list Op) (d : Store) :
  unique_ids d -> unique_ids (run_ops ops d).
Proof.
  revert d. unfold run_ops. induction ops as [|o ops IH]; simpl; intros d H; [exact H|].
  apply IH. now apply run_op_unique_ids.
Qed.

Lemma mark_leaves_other_ids (i : Z) (rs : list Row) :
  ~ In i (map id rs) ->
  map (fun r => if id r =? i then set_sent r else r) rs = rs.
Proof.
  intros H. rewrite <- (map_id rs) at 2. apply map_ext_in. intros r Hr.
  destruct (id r =? i) eqn:E; [|reflexivity].
  apply Z.eqb_eq in E. exfalso. apply H. apply in_map_iff. now exists r.
Qed.

Lemma mark_moves_one (x : Row) (rs : list Row) :
  NoDup (map id rs) -> In x rs -> is_unsent x = true ->
  let rs' := map (fun r => if id r =? id x then set_sent r else r) rs in
  len (filter is_unsent rs') = len (filter is_unsent rs) - 1 /\
  len (filter is_sent rs') = len (filter is_sent rs) + 1.
Proof.
  induction rs as [|r rs IH]; intros Hnd Hin Hun; [destruct Hin|].
  cbn [map] in Hnd. apply NoDup_cons_iff in Hnd. destruct Hnd as [Hfresh Hnd].
  cbn zeta. cbn [map]. destruct Hin as [->|Hin].
  - rewrite Z.eqb_refl, (mark_leaves_other_ids _ _ Hfresh). cbn [filter].
    assert (Hs : is_sent x = false).
    { unfold is_sent, is_unsent in *. apply Z.eqb_eq in Hun. now rewrite Hun. }
    replace (is_unsent (set_sent x)) with false by reflexivity.
    replace (is_sent (set_sent x)) with true by reflexivity.
    rewrite Hun, Hs, !len_cons. lia.
  - assert (Hne : id r <> id x).
    { intros E. apply Hfresh. rewrite E. apply in_map_iff. now exists x. }
    apply Z.eqb_neq in Hne. rewrite Hne.
    destruct (IH Hnd Hin Hun) as [IHu IHs]. cbn [filter].
    destruct (is_unsent r), (is_sent r); rewrite ?len_cons; lia.
Qed.

(** X5.  On a table without repeated ids, [mark_as_sent] for the id of an
    unsent row moves exactly one row from pending to sent: the pending count
    goes down by one, the sent count up by one, the total stays. *)
Theorem mark_as_sent_moves_one (x : Row) (d : Store) :
  unique_ids d -> In x (rows d) -> is_unsent x = true ->
  get_pending_count (mark_as_sent (id x) d) = get_pending_count d - 1 /\
  get_sent_count (mark_as_sent (id x) d) = get_sent_count d + 1 /\
  get_news_count (mark_as_sent (id x) d) = get_news_count d.
Proof.
  intros Hu Hin Hun. destruct (mark_moves_one x (rows d) Hu Hin Hun) as [Hp Hs].
  unfold get_pending_count, get_sent_count, get_news_count, mark_as_sent. cbn [rows].
  split; [exact Hp|]. split; [exact Hs|]. unfold len. now rewrite length_map.
Qed.

(** X6.  [clear_all_news] returns the number of rows it found and leaves an
    empty table: every counter is 0, no title is found, nothing is left to
    publish; a title stored before can be added again, and the row it then
    gets has an id above every id of the cleared table. *)
Theorem clear_all_news_empties (d : Store) (now t s u n : string) :
  let cleared := fst (clear_all_news d) in
  snd (clear_all_news d) = get_news_count d /\
  get_news_count cleared = 0 /\ get_pending_count cleared = 0 /\
  get_sent_count cleared = 0 /\
  check_if_exists t cleared = false /\
  get_unsent_news cleared = None /\
  exists i,
    add_news now t s u n cleared
    = (mkStore [mkRow i now t s u n 0] i, true) /\
    forall r, In r (rows d) -> id r < i.
Proof.
  cbn zeta. repeat split.
  exists (Z.max (seq d) (max_rowid (rows d)) + 1). split.
  - unfold add_news, clear_all_news. cbn [fst rows seq existsb max_rowid fold_right app].
    now rewrite Z.max_l by (pose proof (max_rowid_nonneg (rows d)); lia).
  - intros r Hr. pose proof (max_rowid_ge _ _ Hr). lia.
Qed.

End RepositoryCounts.

Section Listings.

Import Database.

Lemma insert_by_date_desc_perm (r : Row) (rs : list Row) :
  Permutation (insert_by_date_desc r rs) (r :: rs).
Proof.
  induction rs as [|r' rs IH]; simpl; [reflexivity|].
  destruct (String.leb (date r') (date r)); [reflexivity|].
  rewrite IH. apply perm_swap.
Qed.

Lemma order_by_date_desc_perm (rs : list Row) : Permutation (order_by_date_desc rs) rs.
Proof.
  induction rs as [|r rs IH]; simpl; [reflexivity|].
  rewrite insert_by_date_desc_perm. now constructor.
Qed.

Lemma insert_by_date_desc_sorted (r : Row) (rs : list Row) :
  Sorted dated_after rs -> Sorted dated_after (insert_by_date_desc r rs).
Proof.
  induction rs as [|r' rs IH]; intros Hs; simpl; [repeat constructor|].
  destruct (String.leb (date r') (date r)) eqn:E.
  - constructor; [exact Hs | constructor; exact E].
  - apply Sorted_inv in Hs. destruct Hs as [Hs Hhd].
    constructor; [now apply IH|].
    destruct rs as [|r'' rs]; simpl.
    + constructor. now apply string_leb_false_flip.
    + destruct (String.leb (date r'') (date r)).
      * constructor. now apply string_leb_false_flip.
      * constructor. now apply HdRel_inv in Hhd.
Qed.

Lemma order_by_date_desc_sorted (rs : list Row) :
  StronglySorted dated_after (order_by_date_desc rs).
Proof.
  apply Sorted_StronglySorted.
  - intros a b c Hab Hbc. unfold dated_after in *.
    now apply string_leb_trans with (date b).
  - induction rs as [|r rs IH]; simpl; [constructor|].
    now apply insert_by_date_desc_sorted.
Qed.

(** X7.  The three listings: [get_all_news] returns every row of the table
    once, [get_pending_news] every unsent row once and [get_sent_news] every
    sent row once, each with no row dated before a row that follows it
    (newest first); the row that [get_unsent_news] returns is the first of
    [get_pending_news]. *)
Theorem listings_newest_first (d : Store) :
  (Permutation (get_all_news d) (rows d) /\
   StronglySorted dated_after (get_all_news d)) /\
  (Permutation (get_pending_news d) (filter is_unsent (rows d)) /\
   StronglySorted dated_after (get_pending_news d)) /\
  (Permutation (get_sent_news d) (filter is_sent (rows d)) /\
   StronglySorted dated_after (get_sent_news d)) /\
  get_unsent_news d = hd_error (get_pending_news d).
Proof.
  unfold get_all_news, get_pending_news, get_sent_news, get_unsent_news.
  repeat split; try apply order_by_date_desc_perm; apply order_by_date_desc_sorted.
Qed.

Lemma get_unsent_news_none (d : Store) :
  get_unsent_news d = None <-> get_pending_count d = 0.
Proof.
  unfold get_unsent_news, get_pending_count.
  pose proof (order_by_date_desc_perm (filter is_unsent (rows d))) as Hp.
  apply Permutation_length in Hp. unfold len.
  destruct (order_by_date_desc (filter is_unsent (rows d))) as [|r rs];
    destruct (filter is_unsent (rows d)) as [|r' rs']; simpl in *;
    split; intros H; try reflexivity; try discriminate; lia.
Qed.

(** X8.  [get_unsent_news] returns no row exactly when the pending count
    is 0. *)
Theorem nothing_to_publish_iff_no_pending (d : Store) :
  get_unsent_news d = None <-> get_pending_count d = 0.
Proof. apply get_unsent_news_none. Qed.

End Listings.

(** * Further properties of the scraper *)

Section ScraperBounds.

Import Scraper.

Context {lib : Library}.

Lemma str_len_nonneg (s : string) : 0 <= str_len s.
Proof.
  induction s as [|a s IH]; cbn [str_len]; [lia|].
  destruct (is_continuation a); lia.
Qed.

Lemma str_len_append (s s' : string) : str_len (s ++ s') = str_len s + str_len s'.
Proof.
  induction s as [|a s IH]; cbn [append str_len]; [lia|]. rewrite IH. lia.
Qed.

Lemma str_len_slice_to (n : nat) (s : string) :
  str_len (str_slice_to n s) <= Z.of_nat n.
Proof.
  revert n. induction s as [|a s IH]; intros n; cbn [str_slice_to str_len]; [lia|].
  destruct (is_continuation a) eqn:E.
  - cbn [str_len]. rewrite E. specialize (IH n). lia.
  - destruct n as [|n]; cbn [str_len]; [lia|]. rewrite E. specialize (IH n). lia.
Qed.

Lemma extract_first_sentences_le (text : string) (count : nat) :
  str_len (extract_first_sentences text count) <= 500.
Proof.
  unfold extract_first_sentences. destruct (negb (truthy text)); [cbn; lia|].
  cbv zeta.
  destruct (500 <? str_len (String.concat " " (slice_to count
              (re_split_sentences (re_sub_spaces (strip text)))))) eqn:E.
  - rewrite str_len_append.
    pose proof (str_len_slice_to 497 (String.concat " " (slice_to count
                  (re_split_sentences (re_sub_spaces (strip text)))))) as H.
    replace (str_len "...") with 3 by reflexivity. lia.
  - now apply Z.ltb_ge in E.
Qed.

Lemma try_selector_le (doc : Doc) (selector s : string) :
  try_selector doc selector = Some s -> str_len s <= 500.
Proof.
  unfold try_selector.
  destruct (query_selector_all (root doc) selector) as [[|e es]|]; cbn [bind];
    try discriminate.
  destruct (collect_texts (slice_to 5 (e :: es))) as [[|t ts]|]; cbn [bind];
    try discriminate.
  intros [= <-]. apply extract_first_sentences_le.
Qed.

Lemma first_content_le (doc : Doc) (selectors : list string) :
  str_len (first_content doc selectors) <= 500.
Proof.
  induction selectors as [|selector rest IH]; cbn [first_content]; [cbn; lia|].
  destruct (try_selector doc selector) as [s|] eqn:E; [|exact IH].
  now apply try_selector_le in E.
Qed.

Lemma get_article_content_le (page : Page) (url : string) (selectors : list string) :
  str_len (get_article_content page url selectors) <= 500.
Proof.
  unfold get_article_content. destruct (goto page url) as [doc|]; cbn [bind];
    [|cbn; lia].
  destruct (wait_for_load_state doc); cbn [bind]; [|cbn; lia].
  apply first_content_le.
Qed.

(** X9.  A summary is cut to size: [extract_first_sentences] returns at
    most 500 characters and the empty text for the empty text, and
    [get_article_content] returns at most 500 characters, whatever the page
    does. *)
Theorem summaries_are_cut_to_size (text : string) (count : nat) (page : Page)
    (url : string) (selectors : list string) :
  str_len (extract_first_sentences text count) <= 500 /\
  extract_first_sentences EmptyString count = EmptyString /\
  str_len (get_article_content page url selectors) <= 500.
Proof.
  split; [apply extract_first_sentences_le|].
  split; [reflexivity | apply get_article_content_le].
Qed.

Lemma len_firstn_le {A : Type} (n : nat) (xs : list A) :
  len (slice_to n xs) <= Z.of_nat n.
Proof. unfold len, slice_to. rewrite length_firstn. lia. Qed.

Lemma visit_articles_spec (page : Page) (selectors : list string) (name : string)
    (article_data : list ArticleData) :
  len (visit_articles page selectors name article_data) <= 20 /\
  forall item, In item (visit_articles page selectors name article_data) ->
               source item = name /\ summary_ok item.
Proof.
  unfold visit_articles. split.
  - unfold len. rewrite length_map. apply (len_firstn_le 20).
  - intros item Hitem. apply in_map_iff in Hitem. destruct Hitem as [data [<- _]].
    cbn [source]. split; [reflexivity|]. unfold summary_ok. cbn [summary title].
    destruct (truthy (get_article_content page (data_url data) selectors)) eqn:E.
    + right. split; [exact E | apply get_article_content_le].
    + now left.
Qed.

Lemma techcrunch_body_visits (page : Page) (news_items : list NewsItem) :
  techcrunch_body page = Returns news_items ->
  exists selectors data, news_items = visit_articles page selectors "TechCrunch" data.
Proof.
  unfold techcrunch_body. destruct (goto page _) as [doc|]; cbn [bind]; [|discriminate].
  destruct (wait_for_selector doc _); cbn [bind]; [|discriminate].
  destruct (query_selector_all (root doc) _) as [articles|]; cbn [bind]; [|discriminate].
  intros [= <-]. now eexists _, _.
Qed.

Lemma theverge_body_visits (page : Page) (news_items : list NewsItem) :
  theverge_body page = Returns news_items ->
  exists selectors data, news_items = visit_articles page selectors "The Verge" data.
Proof.
  unfold theverge_body. destruct (goto page _) as [doc|]; cbn [bind]; [|discriminate].
  destruct (wait_for_selector doc _); cbn [bind]; [|discriminate].
  destruct (query_selector_all (root doc) _) as [articles|]; cbn [bind]; [|discriminate].
  intros [= <-]. now eexists _, _.
Qed.

Lemma venturebeat_body_visits (page : Page) (news_items : list NewsItem) :
  venturebeat_body page = Returns news_items ->
  exists selectors data, news_items = visit_articles page selectors "VentureBeat" data.
Proof.
  unfold venturebeat_body. destruct (goto page _) as [doc|]; cbn [bind]; [|discriminate].
  destruct (wait_for_selector doc _); cbn [bind]; [|discriminate].
  destruct (query_selector_all (root doc) _) as [articles|]; cbn [bind]; [|discriminate].
  intros [= <-]. now eexists _, _.
Qed.

(** X10.  What an adapter returns: at most 20 items, each carrying the name
    of the adapter's source, and each with a summary that is the item's
    title or a non-empty text of at most 500 characters. *)
Theorem adapter_items_bounded (page : Page) (news_items : list NewsItem) :
  (techcrunch_body page = Returns news_items ->
   len news_items <= 20 /\
   forall item, In item news_items -> source item = "TechCrunch" /\ summary_ok item) /\
  (theverge_body page = Returns news_items ->
   len news_items <= 20 /\
   forall item, In item news_items -> source item = "The Verge" /\ summary_ok item) /\
  (venturebeat_body page = Returns news_items ->
   len news_items <= 20 /\
   forall item, In item news_items -> source item = "VentureBeat" /\ summary_ok item).
Proof.
  split; [|split]; intros H.
  - apply techcrunch_body_visits in H. destruct H as [sel [data ->]].
    apply visit_articles_spec.
  - apply theverge_body_visits in H. destruct H as [sel [data ->]].
    apply visit_articles_spec.
  - apply venturebeat_body_visits in H. destruct H as [sel [data ->]].
    apply visit_articles_spec.
Qed.

Lemma guarded_spec (context : Context) (body : outcome (list NewsItem))
    (r : list NewsItem * bool) :
  guarded context body = Returns r ->
  fst r = harvest body /\ stat_of (fst r) (snd r) = report body.
Proof.
  unfold guarded. destruct body as [news_items|]; destruct (close context);
    cbn [bind]; try discriminate; intros [= <-]; now split.
Qed.

Lemma adapter_spec (body : Page -> outcome (list NewsItem)) (browser : Browser)
    (k : nat) (r : list NewsItem * bool) :
  adapter body browser k = Returns r ->
  exists page, fst r = harvest (body page) /\ stat_of (fst r) (snd r) = report (body page).
Proof.
  unfold adapter. destruct (new_context browser k) as [context|]; cbn [bind];
    [|discriminate].
  destruct (new_page context) as [page|]; cbn [bind]; [|discriminate].
  intros H. exists page. now apply guarded_spec in H.
Qed.

Lemma report_spec (body : outcome (list NewsItem)) :
  len (harvest body) <= 20 ->
  count (report body) = len (harvest body) /\
  0 <= count (report body) <= 20 /\
  (status (report body) = offline -> count (report body) = 0).
Proof.
  destruct body as [news_items|]; cbn [harvest report count status]; intros H.
  - split; [reflexivity|]. split; [unfold len in *; lia | discriminate].
  - now repeat split.
Qed.

Lemma harvest_le (body : Page -> outcome (list NewsItem)) (page : Page) :
  (forall news_items, body page = Returns news_items -> len news_items <= 20) ->
  len (harvest (body page)) <= 20.
Proof.
  intros H. destruct (body page) as [news_items|]; cbn [harvest]; [now apply H|].
  cbn. lia.
Qed.

Lemma harvest_techcrunch_le (page : Page) : len (harvest (techcrunch_body page)) <= 20.
Proof.
  apply harvest_le. intros l Hl. apply techcrunch_body_visits in Hl.
  destruct Hl as [sel [data ->]]. apply visit_articles_spec.
Qed.

Lemma harvest_theverge_le (page : Page) : len (harvest (theverge_body page)) <= 20.
Proof.
  apply harvest_le. intros l Hl. apply theverge_body_visits in Hl.
  destruct Hl as [sel [data ->]]. apply visit_articles_spec.
Qed.

Lemma harvest_venturebeat_le (page : Page) : len (harvest (venturebeat_body page)) <= 20.
Proof.
  apply harvest_le. intros l Hl. apply venturebeat_body_visits in Hl.
  destruct Hl as [sel [data ->]]. apply visit_articles_spec.
Qed.

(** X11.  Whenever [scrape_all_sources] returns, its map has the three
    sources in the order TechCrunch, The Verge, VentureBeat; each count is
    between 0 and 20 and is 0 for an offline source; and the counts add up
    to the number of items returned, at most 60. *)
Theorem scrape_result_is_consistent (p : Playwright) (result : ScrapeResult) :
  scrape_all_sources p = Returns result ->
  exists tc tv vb,
    sources result = [("TechCrunch", tc); ("The Verge", tv); ("VentureBeat", vb)] /\
    len (items result) = count tc + count tv + count vb /\
    len (items result) <= 60 /\
    (0 <= count tc <= 20 /\ (status tc = offline -> count tc = 0)) /\
    (0 <= count tv <= 20 /\ (status tv = offline -> count tv = 0)) /\
    (0 <= count vb <= 20 /\ (status vb = offline -> count vb = 0)).
Proof.
  unfold scrape_all_sources, scrape_techcrunch, scrape_theverge, scrape_venturebeat.
  destruct (launch p) as [browser|]; cbn [bind]; [|discriminate].
  destruct (adapter techcrunch_body browser 0) as [tc|] eqn:Etc; cbn [bind];
    [|discriminate].
  destruct (adapter theverge_body browser 1) as [tv|] eqn:Etv; cbn [bind];
    [|discriminate].
  destruct (adapter venturebeat_body browser 2) as [vb|] eqn:Evb; cbn [bind];
    [|discriminate].
  destruct (browser_close browser); cbn [bind]; [|discriminate].
  intros [= <-]. cbn [sources items app dict_set String.eqb Ascii.eqb Bool.eqb].
  apply adapter_spec in Etc, Etv, Evb.
  destruct Etc as [p0 [Htci Htcs]], Etv as [p1 [Htvi Htvs]], Evb as [p2 [Hvbi Hvbs]].
  rewrite Htcs, Htvs, Hvbs, Htci, Htvi, Hvbi.
  pose proof (report_spec _ (harvest_techcrunch_le p0)) as [Ec0 [Hc0 Ho0]].
  pose proof (report_spec _ (harvest_theverge_le p1)) as [Ec1 [Hc1 Ho1]].
  pose proof (report_spec _ (harvest_venturebeat_le p2)) as [Ec2 [Hc2 Ho2]].
  eexists _, _, _. split; [reflexivity|].
  rewrite !len_app.
  pose proof (harvest_techcrunch_le p0). pose proof (harvest_theverge_le p1).
  pose proof (harvest_venturebeat_le p2).
  repeat split; try assumption; try lia.
Qed.

End ScraperBounds.

Section OutsideTheTry.

Import Scraper.

Context {lib : Library}.

Lemma adapter_context_fails (body : Page -> outcome (list NewsItem))
    (browser : Browser) (k : nat) :
  context_fails browser k -> adapter body browser k = Raises.
Proof.
  unfold adapter, guarded. intros [H|[context [Hc [H|[page [Hp Hx]]]]]].
  - now rewrite H.
  - rewrite Hc. cbn [bind]. now rewrite H.
  - rewrite Hc. cbn [bind]. rewrite Hp. cbn [bind].
    destruct (body page); now rewrite Hx.
Qed.

(** X12.  Failures outside the adapters' [try] abort the run: when Chromium
    does not start, when an adapter cannot open its context or its page,
    when the [close] of a context raises, or when closing the browser
    raises, [scrape_all_sources] raises, whatever the other adapters
    found. *)
Theorem failures_outside_try_abort (p : Playwright) :
  (launch p = Raises -> scrape_all_sources p = Raises) /\
  (forall browser,
      launch p = Returns browser ->
      context_fails browser 0 \/ context_fails browser 1 \/ context_fails browser 2
      \/ browser_close browser = Raises ->
      scrape_all_sources p = Raises).
Proof.
  unfold scrape_all_sources, scrape_techcrunch, scrape_theverge, scrape_venturebeat.
  split.
  - now intros ->.
  - intros browser -> H. cbn [bind].
    destruct H as [H|[H|[H|H]]].
    + now rewrite (adapter_context_fails _ _ _ H).
    + destruct (adapter techcrunch_body browser 0); cbn [bind]; [|reflexivity].
      now rewrite (adapter_context_fails _ _ _ H).
    + destruct (adapter techcrunch_body browser 0); cbn [bind]; [|reflexivity].
      destruct (adapter theverge_body browser 1); cbn [bind]; [|reflexivity].
      now rewrite (adapter_context_fails _ _ _ H).
    + destruct (adapter techcrunch_body browser 0); cbn [bind]; [|reflexivity].
      destruct (adapter theverge_body browser 1); cbn [bind]; [|reflexivity].
      destruct (adapter venturebeat_body browser 2); cbn [bind]; [|reflexivity].
      now rewrite H.
Qed.

End OutsideTheTry.

(** * Further properties of the commands *)

Section QuietWorlds.

Import Main.

Context {lib : Scraper.Library}.
Variable services : Services.

Lemma arrive_clock (e : Event) (w : World) : clock (arrive e w) = clock w.
Proof. destruct w as [d t r st lv c k [|batch rest] lg]; reflexivity. Qed.

Lemma arrive_quiet (e : Event) (w : World) :
  quiet w -> quiet (arrive e w) /\ db (arrive e w) = db w.
Proof.
  unfold quiet. intros Hq. split.
  - now rewrite arrive_others, Hq.
  - now rewrite arrive_db, seen_quiet.
Qed.

Lemma inserted_quiet (t s u n : string) (w : World) :
  quiet w ->
  quiet (inserted services t s u n w) /\
  db (inserted services t s u n w)
  = fst (Database.add_news (isoformat_now services (clock w)) t s u n (db w)).
Proof.
  unfold quiet. intros Hq. split.
  - unfold inserted, with_db, read_clock. cbn [snd others].
    now rewrite arrive_others, Hq.
  - now rewrite inserted_db, arrive_clock, seen_quiet.
Qed.

Lemma inserted_stats (t s u n : string) (w : World) :
  last_auto_parse_stats (inserted services t s u n w) = last_auto_parse_stats w.
Proof.
  unfold inserted, with_db, read_clock. cbn [snd last_auto_parse_stats].
  apply arrive_stats.
Qed.

Lemma inserted_running (t s u n : string) (w : World) :
  auto_send_running (inserted services t s u n w) = auto_send_running w.
Proof.
  unfold inserted, with_db, read_clock. cbn [snd auto_send_running].
  apply arrive_running.
Qed.

End QuietWorlds.

Section FailuresAndEarlyExits.

Import Main.

Context {lib : Scraper.Library}.
Variable services : Services.

(** X13.  A scrape that raises does not stop the scheduler: with no other
    task running and fewer than 10 rows pending, a turn whose
    [scrape_all_sources] raises still ends in its 30-second sleep; it looks
    up, translates and inserts nothing, and leaves the table and the
    statistics as they were.  The same failure in a manual parse request
    goes unhandled, also with the table and the statistics as they were. *)
Theorem scrape_failure_is_contained (w : World) :
  quiet w ->
  Database.get_pending_count (db w) < 10 ->
  Scraper.scrape_all_sources (playwright services) = Raises ->
  (exists w',
      auto_send_iteration services w
      = ((Database.get_pending_count (db w), None), w') /\
      log w' = (log w ++ [GetPendingCount; CheckLibreTranslate; ScrapeAllSources;
                          Sleep 30])%list /\
      db w' = db w /\ last_auto_parse_stats w' = last_auto_parse_stats w /\
      auto_send_running w' = auto_send_running w) /\
  (exists w',
      api_parse_news services w = (Unhandled, w') /\
      log w' = (log w ++ [CheckLibreTranslate; GetPendingCount; ScrapeAllSources])%list /\
      db w' = db w /\ last_auto_parse_stats w' = last_auto_parse_stats w).
Proof.
  intros Hq Hp Hs. split.
  - eexists. split.
    + unfold auto_send_iteration, mbind. rewrite get_pending_count_run.
      rewrite (seen_quiet _ Hq).
      replace (Database.get_pending_count (db w) <? 10) with true
        by (symmetry; now apply Z.ltb_lt).
      unfold auto_parse, mbind.
      rewrite check_libretranslate_status_run, scrape_all_sources_run, Hs.
      unfold ret. rewrite sleep_run. reflexivity.
    + destruct (arrive_quiet GetPendingCount w Hq) as [Hq1 Hd1].
      destruct (arrive_quiet CheckLibreTranslate _ Hq1) as [Hq2 Hd2].
      destruct (arrive_quiet ScrapeAllSources _ Hq2) as [Hq3 Hd3].
      destruct (arrive_quiet (Sleep 30) _ Hq3) as [Hq4 Hd4].
      rewrite !arrive_log, !arrive_stats, !arrive_running, <- !app_assoc.
      repeat split. congruence.
  - eexists. split.
    + unfold api_parse_news, api_parse_news_run, mbind.
      rewrite check_libretranslate_status_run, get_pending_count_run.
      destruct (arrive_quiet CheckLibreTranslate w Hq) as [Hq1 Hd1].
      rewrite (seen_quiet _ Hq1), Hd1.
      replace (Z.max 0 (10 - Database.get_pending_count (db w)) =? 0) with false
        by (symmetry; apply Z.eqb_neq; lia).
      rewrite scrape_all_sources_run, Hs. unfold ret. reflexivity.
    + destruct (arrive_quiet CheckLibreTranslate w Hq) as [Hq1 Hd1].
      destruct (arrive_quiet GetPendingCount _ Hq1) as [Hq2 Hd2].
      destruct (arrive_quiet ScrapeAllSources _ Hq2) as [Hq3 Hd3].
      rewrite !arrive_log, !arrive_stats, <- !app_assoc.
      repeat split. congruence.
Qed.

(** X14.  The early exits of a manual parse request, with no other task
    running.  With 10 or more rows pending it answers that the queue is
    full after the status check and the count, without scraping.  With
    fewer pending and no item scraped it answers that nothing was found.  In
    both cases nothing is translated or inserted and the table and the
    statistics stay as they were. *)
Theorem parse_request_early_exits (w : World) :
  quiet w ->
  (10 <= Database.get_pending_count (db w) ->
   exists w',
     api_parse_news services w
     = (Parsed "В базе уже 10 ожидающих новостей" 0 (Some 0) None, w') /\
     log w' = (log w ++ [CheckLibreTranslate; GetPendingCount])%list /\
     db w' = db w /\ last_auto_parse_stats w' = last_auto_parse_stats w) /\
  (forall result,
      Database.get_pending_count (db w) < 10 ->
      Scraper.scrape_all_sources (playwright services) = Returns result ->
      Scraper.items result = [] ->
      exists w',
        api_parse_news services w = (Parsed "Новости не найдены" 0 None None, w') /\
        log w' = (log w ++ [CheckLibreTranslate; GetPendingCount;
                            ScrapeAllSources])%list /\
        db w' = db w /\ last_auto_parse_stats w' = last_auto_parse_stats w).
Proof.
  intros Hq.
  destruct (arrive_quiet CheckLibreTranslate w Hq) as [Hq1 Hd1].
  destruct (arrive_quiet GetPendingCount _ Hq1) as [Hq2 Hd2].
  destruct (arrive_quiet ScrapeAllSources _ Hq2) as [Hq3 Hd3].
  split.
  - intros Hfull. eexists. split.
    + unfold api_parse_news, api_parse_news_run, mbind.
      rewrite check_libretranslate_status_run, get_pending_count_run.
      rewrite (seen_quiet _ Hq1), Hd1.
      replace (Z.max 0 (10 - Database.get_pending_count (db w)) =? 0) with true
        by (symmetry; apply Z.eqb_eq; lia).
      unfold ret. reflexivity.
    + rewrite !arrive_log, !arrive_stats, <- !app_assoc. repeat split. congruence.
  - intros result Hp Hs Hitems. eexists. split.
    + unfold api_parse_news, api_parse_news_run, mbind.
      rewrite check_libretranslate_status_run, get_pending_count_run.
      rewrite (seen_quiet _ Hq1), Hd1.
      replace (Z.max 0 (10 - Database.get_pending_count (db w)) =? 0) with false
        by (symmetry; apply Z.eqb_neq; lia).
      rewrite scrape_all_sources_run, Hs. cbv zeta. rewrite Hitems.
      unfold ret. reflexivity.
    + rewrite !arrive_log, !arrive_stats, <- !app_assoc. repeat split. congruence.
Qed.

End FailuresAndEarlyExits.

Section QuietAdmission.

Import Main.

Context {lib : Scraper.Library}.
Variable services : Services.

Lemma parse_step_quiet (item : Scraper.NewsItem) (a : Z) (w : World) :
  quiet w ->
  quiet (snd (parse_step services item a w)) /\
  db (snd (parse_step services item a w)) = fst (admitted services item w) /\
  fst (parse_step services item a w) = (if snd (admitted services item w) then a + 1 else a) /\
  last_auto_parse_stats (snd (parse_step services item a w)) = last_auto_parse_stats w.
Proof.
  intros Hq. unfold parse_step, mbind, admitted.
  rewrite translate_to_russian_run, add_news_run. unfold ret. cbn [fst snd].
  destruct (arrive_quiet (Translate (Scraper.summary item)) w Hq) as [Hq1 Hd1].
  destruct (inserted_quiet services (Scraper.title item)
              (Translator.translate_to_russian (libretranslate_translate services)
                 (Scraper.summary item))
              (Scraper.url item) (Scraper.source item) _ Hq1) as [Hq2 Hd2].
  rewrite inserted_stats, arrive_stats.
  rewrite Hd2, (seen_quiet _ Hq1), !arrive_clock, Hd1. now repeat split.
Qed.

Lemma admit_step_quiet (needed : Z) (item : Scraper.NewsItem) (t : Tally) (w : World) :
  quiet w ->
  quiet (snd (admit_step services needed item t w)) /\
  last_auto_parse_stats (snd (admit_step services needed item t w))
  = last_auto_parse_stats w /\
  (if Database.check_if_exists (Scraper.title item) (db w)
   then fst (admit_step services needed item t w)
        = mkTally (tally_added t) (tally_duplicates t + 1) (tally_skipped t) /\
        db (snd (admit_step services needed item t w)) = db w
   else if tally_added t <? needed
   then fst (admit_step services needed item t w)
        = mkTally (tally_added t + 1) (tally_duplicates t) (tally_skipped t) /\
        db (snd (admit_step services needed item t w)) = fst (admitted services item w)
   else fst (admit_step services needed item t w)
        = mkTally (tally_added t) (tally_duplicates t) (tally_skipped t + 1) /\
        db (snd (admit_step services needed item t w)) = db w).
Proof.
  intros Hq. unfold admit_step, mbind, admitted.
  rewrite check_if_exists_run, (seen_quiet _ Hq).
  destruct (arrive_quiet (CheckIfExists (Scraper.title item)) w Hq) as [Hq1 Hd1].
  destruct (Database.check_if_exists (Scraper.title item) (db w)).
  - unfold ret. cbn [fst snd]. rewrite arrive_stats. now repeat split.
  - destruct (tally_added t <? needed).
    + rewrite translate_to_russian_run, add_news_run. unfold ret. cbn [fst snd].
      destruct (arrive_quiet (Translate (Scraper.summary item)) _ Hq1) as [Hq2 Hd2].
      destruct (inserted_quiet services (Scraper.title item)
                  (Translator.translate_to_russian (libretranslate_translate services)
                     (Scraper.summary item))
                  (Scraper.url item) (Scraper.source item) _ Hq2) as [Hq3 Hd3].
      rewrite inserted_stats, !arrive_stats.
      rewrite Hd3, !arrive_clock, Hd2, Hd1. now repeat split.
    + unfold ret. cbn [fst snd]. rewrite arrive_stats. now repeat split.
Qed.

(** What an insertion attempt of a candidate does to the lookups and to the
    pending count. *)
Lemma admitted_effect (item : Scraper.NewsItem) (w : World) :
  Database.check_if_exists (Scraper.title item) (fst (admitted services item w)) = true /\
  (forall t, Database.check_if_exists t (db w) = true ->
             Database.check_if_exists t (fst (admitted services item w)) = true) /\
  snd (admitted services item w) = negb (Database.check_if_exists (Scraper.title item) (db w)) /\
  Database.get_pending_count (fst (admitted services item w))
  = Database.get_pending_count (db w) + (if snd (admitted services item w) then 1 else 0).
Proof.
  unfold admitted.
  set (now := isoformat_now services (clock w)).
  set (s := Translator.translate_to_russian _ _).
  destruct (add_news_lookup now (Scraper.title item) s (Scraper.url item)
              (Scraper.source item) (db w)) as [Hthen [Hret Hother]].
  destruct (add_news_effect now (Scraper.title item) s (Scraper.url item)
              (Scraper.source item) (db w)) as [Hok Hfail].
  split; [exact Hthen|]. split; [|split; [exact Hret|]].
  - intros t Ht. destruct (String.eqb_spec t (Scraper.title item)) as [->|Hne];
      [exact Hthen | now rewrite Hother].
  - destruct (snd (Database.add_news now _ s _ _ (db w))) eqn:E.
    + destruct (Hok eq_refl) as [i [_ [_ [_ [Hp _]]]]]. exact Hp.
    + rewrite (Hfail eq_refl). lia.
Qed.

(** The manual loop with no other task running. *)
Lemma parse_loop_quiet (max_to_add : Z) (news_items : list Scraper.NewsItem) :
  forall (a : Z) (w : World),
    quiet w ->
    let r := parse_loop services max_to_add news_items a w in
    quiet (snd r) /\
    last_auto_parse_stats (snd r) = last_auto_parse_stats w /\
    Database.get_pending_count (db (snd r))
    = Database.get_pending_count (db w) + (fst (fst r) - a) /\
    (forall t, Database.check_if_exists t (db w) = true ->
               Database.check_if_exists t (db (snd r)) = true) /\
    (exists visited,
        news_items = (visited ++ snd (fst r))%list /\
        forall item, In item visited ->
                     Database.check_if_exists (Scraper.title item) (db (snd r)) = true) /\
    (snd (fst r) <> [] -> max_to_add <= fst (fst r)).
Proof.
  induction news_items as [|item rest IH]; intros a w Hq; cbn zeta.
  - cbn [parse_loop]. unfold ret. cbn [fst snd].
    repeat split; try assumption; try lia; try congruence.
    exists []. now split.
  - cbn [parse_loop]. destruct (max_to_add <=? a) eqn:E.
    + unfold ret. cbn [fst snd]. apply Z.leb_le in E.
      repeat split; auto; try lia.
      exists []. now split.
    + unfold mbind.
      destruct (parse_step_quiet item a w Hq) as [Hq1 [Hd1 [Ha1 Hs1]]].
      destruct (admitted_effect item w) as [Hin [Hmono [Hret Hcount]]].
      destruct (parse_step services item a w) as [a1 w1]. cbn [fst snd] in *.
      specialize (IH a1 w1 Hq1). cbn zeta in IH.
      destruct IH as [Hq2 [Hs2 [Hp2 [Hm2 [[visited [Hsplit Hvis]] Hcap]]]]].
      split; [exact Hq2|]. split; [congruence|]. split.
      { rewrite Hp2, Hd1, Hcount, Ha1. destruct (snd (admitted services item w)); lia. }
      split.
      { intros t Ht. apply Hm2. rewrite Hd1. now apply Hmono. }
      split; [|exact Hcap].
      exists (item :: visited). split; [cbn [app]; now f_equal|].
      intros item' [<-|Hi]; [|now apply Hvis].
      apply Hm2. now rewrite Hd1.
Qed.

(** The scheduler's pass with no other task running. *)
Lemma admit_loop_quiet (needed : Z) (news_items : list Scraper.NewsItem) :
  forall (t : Tally) (w : World),
    quiet w ->
    let r := admit_loop services needed news_items t w in
    quiet (snd r) /\
    last_auto_parse_stats (snd r) = last_auto_parse_stats w /\
    Database.get_pending_count (db (snd r))
    = Database.get_pending_count (db w) + (tally_added (fst r) - tally_added t) /\
    (forall title, Database.check_if_exists title (db w) = true ->
                   Database.check_if_exists title (db (snd r)) = true) /\
    tally_skipped t <= tally_skipped (fst r) /\
    (tally_skipped (fst r) = tally_skipped t ->
     forall item, In item news_items ->
                  Database.check_if_exists (Scraper.title item) (db (snd r)) = true).
Proof.
  induction news_items as [|item rest IH]; intros t w Hq; cbn zeta.
  - cbn [admit_loop]. unfold ret. cbn [fst snd].
    repeat split; auto; try lia.
  - cbn [admit_loop]. unfold mbind.
    destruct (admit_step_quiet needed item t w Hq) as [Hq1 [Hs1 Hcase]].
    destruct (admitted_effect item w) as [Hin [Hmono [Hret Hcount]]].
    destruct (admit_step services needed item t w) as [t1 w1]. cbn [fst snd] in *.
    specialize (IH t1 w1 Hq1). cbn zeta in IH.
    destruct IH as [Hq2 [Hs2 [Hp2 [Hm2 [Hsk2 Hall2]]]]].
    split; [exact Hq2|]. split; [congruence|].
    destruct (Database.check_if_exists (Scraper.title item) (db w)) eqn:Ex.
    + destruct Hcase as [-> Hd1]. cbn [tally_added tally_skipped] in *.
      rewrite Hd1 in *. split; [lia|]. split; [exact Hm2|]. split; [lia|].
      intros Heq item' [<-|Hi]; [now apply Hm2 | now apply Hall2].
    + destruct (tally_added t <? needed).
      * destruct Hcase as [-> Hd1]. cbn [tally_added tally_skipped] in *.
        rewrite Hret in Hcount. cbn [negb] in Hcount.
        split; [rewrite Hp2, Hd1, Hcount; lia|]. split.
        { intros title Ht. apply Hm2. rewrite Hd1. now apply Hmono. }
        split; [lia|].
        intros Heq item' [<-|Hi]; [|now apply Hall2].
        apply Hm2. now rewrite Hd1.
      * destruct Hcase as [-> Hd1]. cbn [tally_added tally_skipped] in *.
        rewrite Hd1 in *. split; [lia|]. split; [exact Hm2|]. split; [lia|].
        intros Heq. lia.
Qed.

End QuietAdmission.

Section QuietAdmissionProperties.

Import Main.

Context {lib : Scraper.Library}.
Variable services : Services.

Lemma admit_step_added_mono (needed : Z) (item : Scraper.NewsItem) (t : Tally)
    (w : World) :
  tally_added t <= tally_added (fst (admit_step services needed item t w)).
Proof.
  unfold admit_step, mbind. rewrite check_if_exists_run.
  destruct (Database.check_if_exists _ _); [cbn; lia|].
  destruct (tally_added t <? needed).
  - rewrite translate_to_russian_run, add_news_run. cbn. lia.
  - cbn. lia.
Qed.

Lemma admit_loop_added_mono (needed : Z) (news_items : list Scraper.NewsItem) :
  forall (t : Tally) (w : World),
    tally_added t <= tally_added (fst (admit_loop services needed news_items t w)).
Proof.
  induction news_items as [|item rest IH]; intros t w; cbn [admit_loop].
  - cbn. lia.
  - unfold mbind. pose proof (admit_step_added_mono needed item t w) as Hstep.
    destruct (admit_step services needed item t w) as [t1 w1]. cbn [fst] in Hstep.
    specialize (IH t1 w1). lia.
Qed.

Lemma api_parse_news_run_pending (w : World) :
  quiet w ->
  Database.get_pending_count (db w)
  <= Database.get_pending_count (db (snd (api_parse_news_run services w)))
  <= Z.max 10 (Database.get_pending_count (db w)).
Proof.
  intros Hq. unfold api_parse_news_run, mbind.
  rewrite check_libretranslate_status_run, get_pending_count_run.
  destruct (arrive_quiet CheckLibreTranslate w Hq) as [Hq1 Hd1].
  destruct (arrive_quiet GetPendingCount _ Hq1) as [Hq2 Hd2].
  destruct (arrive_quiet ScrapeAllSources _ Hq2) as [Hq3 Hd3].
  rewrite (seen_quiet _ Hq1), Hd1.
  set (pending := Database.get_pending_count (db w)).
  destruct (Z.max 0 (10 - pending) =? 0).
  { unfold ret. cbn [snd]. rewrite Hd2, Hd1. fold pending. lia. }
  rewrite scrape_all_sources_run.
  destruct (Scraper.scrape_all_sources (playwright services)) as [result|].
  2: { unfold ret. cbn [snd]. rewrite Hd3, Hd2, Hd1. fold pending. lia. }
  cbv zeta. destruct (Scraper.items result) as [|item rest].
  { unfold ret. cbn [snd]. rewrite Hd3, Hd2, Hd1. fold pending. lia. }
  pose proof (parse_loop_quiet services (Z.max 0 (10 - pending)) (item :: rest) 0 _ Hq3)
    as Hloop.
  pose proof (parse_loop_bound services (Z.max 0 (10 - pending)) (item :: rest) 0
                (arrive ScrapeAllSources
                   (arrive GetPendingCount (arrive CheckLibreTranslate w))))
    as Hbound.
  cbn zeta in Hloop. destruct Hloop as [_ [_ [Hp _]]].
  destruct (parse_loop services _ _ _ _) as [[a unvisited] w1].
  cbn [fst snd] in *. unfold set_stats, ret. cbn [snd db].
  rewrite Hp, Hd3, Hd2, Hd1. fold pending. lia.
Qed.

Lemma auto_send_iteration_pending (w : World) :
  quiet w ->
  Database.get_pending_count (db w)
  <= Database.get_pending_count (db (snd (auto_send_iteration services w)))
  <= Z.max 10 (Database.get_pending_count (db w)).
Proof.
  intros Hq. unfold auto_send_iteration, mbind. rewrite get_pending_count_run.
  destruct (arrive_quiet GetPendingCount w Hq) as [Hq1 Hd1].
  destruct (arrive_quiet CheckLibreTranslate _ Hq1) as [Hq2 Hd2].
  destruct (arrive_quiet ScrapeAllSources _ Hq2) as [Hq3 Hd3].
  rewrite (seen_quiet _ Hq).
  set (pending := Database.get_pending_count (db w)).
  destruct (pending <? 10) eqn:E.
  - unfold auto_parse, mbind.
    rewrite check_libretranslate_status_run, scrape_all_sources_run.
    destruct (Scraper.scrape_all_sources (playwright services)) as [result|].
    + cbv zeta.
      pose proof (admit_loop_quiet services (10 - pending) (Scraper.items result)
                    (mkTally 0 0 0) _ Hq3) as Hloop.
      pose proof (admit_loop_tally services (10 - pending) (Scraper.items result)
                    (mkTally 0 0 0)
                    (arrive ScrapeAllSources
                       (arrive CheckLibreTranslate (arrive GetPendingCount w))))
        as Htally.
      pose proof (admit_loop_added_mono (10 - pending) (Scraper.items result)
                    (mkTally 0 0 0)
                    (arrive ScrapeAllSources
                       (arrive CheckLibreTranslate (arrive GetPendingCount w))))
        as Hmono.
      cbn zeta in Hloop, Htally. destruct Hloop as [Hq4 [_ [Hp _]]].
      destruct Htally as [Hsum Hcap].
      destruct (admit_loop services _ _ _ _) as [t w1].
      cbn [fst snd tally_added] in *. unfold set_stats, ret. rewrite sleep_run.
      cbn [snd].
      assert (Hq5 : quiet (mkWorld (db w1) (auto_send_task w1) (auto_send_running w1)
                             (mkParseStats (len (Scraper.items result)) (tally_added t)
                                (tally_duplicates t) (Some (Scraper.sources result)))
                             (live_tasks w1) (created_tasks w1) (clock w1) (others w1)
                             (log w1))) by exact Hq4.
      destruct (arrive_quiet (Sleep 30) _ Hq5) as [_ Hd5]. rewrite Hd5. cbn [db].
      rewrite Hp, Hd3, Hd2, Hd1. fold pending.
      apply Z.ltb_lt in E. lia.
    + unfold ret. rewrite sleep_run. cbn [snd].
      destruct (arrive_quiet (Sleep 30) _ Hq3) as [_ Hd4].
      rewrite Hd4, Hd3, Hd2, Hd1. fold pending. lia.
  - unfold ret. rewrite sleep_run. cbn [snd].
    destruct (arrive_quiet (Sleep 30) _ Hq1) as [_ Hd4].
    rewrite Hd4, Hd1. fold pending. lia.
Qed.

Lemma api_parse_news_world (w : World) :
  snd (api_parse_news services w) = snd (api_parse_news_run services w).
Proof.
  unfold api_parse_news, mbind, ret.
  now destruct (api_parse_news_run services w) as [r w'].
Qed.

(** X15.  The pending queue is bounded: with no other task running, a manual
    parse request and a scheduler turn never lower the pending count and
    never bring it above 10 (or above what it was, if that was more). *)
Theorem pending_queue_stays_bounded (w : World) :
  quiet w ->
  (Database.get_pending_count (db w)
   <= Database.get_pending_count (db (snd (api_parse_news services w)))
   <= Z.max 10 (Database.get_pending_count (db w))) /\
  (Database.get_pending_count (db w)
   <= Database.get_pending_count (db (snd (auto_send_iteration services w)))
   <= Z.max 10 (Database.get_pending_count (db w))).
Proof.
  intros Hq. split.
  - rewrite api_parse_news_world. now apply api_parse_news_run_pending.
  - now apply auto_send_iteration_pending.
Qed.

(** X16.  A pass of the scheduler over candidates that are all stored
    already, with no other task running, only looks them up: every candidate
    is counted as a duplicate, none as added or skipped, the table is left
    as it was, and the calls made are one lookup per candidate, in order. *)
Theorem stored_candidates_are_only_counted (needed : Z)
    (news_items : list Scraper.NewsItem) :
  forall (t : Tally) (w : World),
    quiet w ->
    (forall item, In item news_items ->
                  Database.check_if_exists (Scraper.title item) (db w) = true) ->
    exists w',
      admit_loop services needed news_items t w
      = (mkTally (tally_added t) (tally_duplicates t + len news_items)
                 (tally_skipped t), w') /\
      db w' = db w /\
      log w' = (log w ++ map (fun item => CheckIfExists (Scraper.title item))
                             news_items)%list.
Proof.
  induction news_items as [|item rest IH]; intros t w Hq Hall.
  - exists w. cbn [admit_loop map]. unfold ret. rewrite app_nil_r.
    replace (tally_duplicates t + len []) with (tally_duplicates t)
      by (unfold len; cbn; lia).
    now destruct t.
  - cbn [admit_loop]. unfold mbind.
    rewrite admit_step_duplicate by (rewrite (seen_quiet _ Hq); apply Hall; now left).
    destruct (arrive_quiet (CheckIfExists (Scraper.title item)) w Hq) as [Hq1 Hd1].
    destruct (IH (mkTally (tally_added t) (tally_duplicates t + 1) (tally_skipped t))
                 _ Hq1) as [w' [Hrun [Hdb Hlog]]].
    { intros item' Hi. rewrite Hd1. apply Hall. now right. }
    exists w'. rewrite Hrun. cbn [tally_added tally_duplicates tally_skipped].
    split; [|split].
    + rewrite len_cons. do 2 f_equal. lia.
    + congruence.
    + rewrite Hlog, arrive_log, <- app_assoc. reflexivity.
Qed.


End QuietAdmissionProperties.

(** * The translator and what is admitted *)

Section SummariesApart.

Import Database.

Lemma forget_summary_map {B : Type} (f : Row -> B) (rs rs' : list Row) :
  (forall r, f r = f (forget_summary r)) ->
  map forget_summary rs = map forget_summary rs' ->
  map f rs = map f rs'.
Proof.
  intros Hf H.
  rewrite (map_ext _ (fun r => f (forget_summary r)) Hf rs).
  rewrite (map_ext _ (fun r => f (forget_summary r)) Hf rs').
  now rewrite <- !(map_map forget_summary f), H.
Qed.

Lemma existsb_forget (t : string) (rs : list Row) :
  existsb (has_title t) rs = existsb (has_title t) (map forget_summary rs).
Proof. induction rs as [|r rs IH]; simpl; [reflexivity | now rewrite IH]. Qed.

Lemma filter_unsent_forget (rs : list Row) :
  List.length (filter is_unsent rs)
  = List.length (filter is_unsent (map forget_summary rs)).
Proof.
  induction rs as [|r rs IH]; simpl; [reflexivity|].
  replace (is_unsent (forget_summary r)) with (is_unsent r) by reflexivity.
  destruct (is_unsent r); simpl; now rewrite IH.
Qed.

Lemma same_check_if_exists (t : string) (d d' : Store) :
  same_but_summaries d d' -> check_if_exists t d = check_if_exists t d'.
Proof.
  intros [H _]. unfold check_if_exists.
  now rewrite (existsb_forget t (rows d)), (existsb_forget t (rows d')), H.
Qed.

Lemma same_pending_count (d d' : Store) :
  same_but_summaries d d' -> get_pending_count d = get_pending_count d'.
Proof.
  intros [H _]. unfold get_pending_count, len. f_equal.
  now rewrite (filter_unsent_forget (rows d)), (filter_unsent_forget (rows d')), H.
Qed.

Lemma same_news_count (d d' : Store) :
  same_but_summaries d d' -> get_news_count d = get_news_count d'.
Proof.
  intros [H _]. unfold get_news_count, len. f_equal.
  rewrite <- (length_map forget_summary (rows d)), H. apply length_map.
Qed.

Lemma max_rowid_ids (rs : list Row) :
  max_rowid rs = fold_right Z.max 0 (map id rs).
Proof. induction rs as [|r rs IH]; simpl; [reflexivity | now rewrite IH]. Qed.

Lemma same_max_rowid (d d' : Store) :
  same_but_summaries d d' -> max_rowid (rows d) = max_rowid (rows d').
Proof.
  intros [H _]. rewrite !max_rowid_ids. f_equal.
  now apply forget_summary_map.
Qed.

Lemma same_add_news (now t s s' u n : string) (d d' : Store) :
  same_but_summaries d d' ->
  same_but_summaries (fst (add_news now t s u n d)) (fst (add_news now t s' u n d')) /\
  snd (add_news now t s u n d) = snd (add_news now t s' u n d').
Proof.
  intros H. pose proof (same_check_if_exists t d d' H) as Hc.
  pose proof (same_max_rowid d d' H) as Hm. destruct H as [Hr Hs].
  unfold check_if_exists in Hc. unfold add_news. rewrite <- Hc.
  destruct (existsb (has_title t) (rows d)); cbn [fst snd]; [now repeat split|].
  split; [|reflexivity]. split; cbn [rows seq].
  - rewrite !map_app, Hr, Hs, Hm. reflexivity.
  - now rewrite Hs, Hm.
Qed.

Lemma mark_forget_commute (i : Z) (rs : list Row) :
  map forget_summary (map (fun r => if id r =? i then set_sent r else r) rs)
  = map (fun r => if id r =? i then set_sent r else r) (map forget_summary rs).
Proof.
  induction rs as [|r rs IH]; simpl; [reflexivity|]. rewrite IH. f_equal.
  now destruct (id r =? i).
Qed.

Lemma same_mark_as_sent (i : Z) (d d' : Store) :
  same_but_summaries d d' ->
  same_but_summaries (mark_as_sent i d) (mark_as_sent i d').
Proof.
  intros [Hr Hs]. split; cbn [mark_as_sent rows seq]; [|exact Hs].
  now rewrite !mark_forget_commute, Hr.
Qed.

Lemma same_run_op (o : Op) (d d' : Store) :
  same_but_summaries d d' -> same_but_summaries (run_op o d) (run_op o d').
Proof.
  intros H. destruct o as [now t s u n|i|]; cbn [run_op].
  - now apply same_add_news.
  - now apply same_mark_as_sent.
  - pose proof (same_max_rowid d d' H) as Hm. destruct H as [_ Hs].
    split; cbn; [reflexivity | now rewrite Hs, Hm].
Qed.

Lemma same_run_ops (ops : list Op) :
  forall d d', same_but_summaries d d' ->
               same_but_summaries (run_ops ops d) (run_ops ops d').
Proof.
  unfold run_ops. induction ops as [|o ops IH]; simpl; intros d d' H; [exact H|].
  apply IH. now apply same_run_op.
Qed.

Lemma same_but_summaries_refl (d : Store) : same_but_summaries d d.
Proof. now split. Qed.

End SummariesApart.

Section TranslatorApart.

Import Main.

Context {lib : Scraper.Library}.
Variables s s' : Services.
Hypothesis Hservices : same_but_translator s s'.

Lemma same_world_refl (w : World) : same_but_summaries_world w w.
Proof. unfold same_but_summaries_world. repeat split. Qed.

Lemma agree_ret {A : Type} (a : A) : agree (ret a) (ret a).
Proof. intros w w' H. now split. Qed.

Lemma agree_bind {A B : Type} (c c' : M A) (k k' : A -> M B) :
  agree c c' -> (forall a, agree (k a) (k' a)) -> agree (mbind c k) (mbind c' k').
Proof.
  intros Hc Hk w w' H. unfold mbind. destruct (Hc w w' H) as [Ha Hw].
  destruct (c w) as [a w1], (c' w') as [a' w1']. cbn [fst snd] in *. subst a'.
  now apply Hk.
Qed.

Lemma agree_bind_any {A B : Type} (c c' : M A) (k k' : A -> M B) :
  (forall w w', same_but_summaries_world w w' ->
                same_but_summaries_world (snd (c w)) (snd (c' w'))) ->
  (forall a a', agree (k a) (k' a')) -> agree (mbind c k) (mbind c' k').
Proof.
  intros Hc Hk w w' H. unfold mbind. specialize (Hc w w' H).
  destruct (c w) as [a w1], (c' w') as [a' w1']. cbn [snd] in Hc.
  now apply Hk.
Qed.

(** Splits a goal of [agree] on two explicit worlds into the returned
    values, the tables and the other fields. *)
Ltac alike := split; [try reflexivity | split; [try assumption | now repeat split]].

Lemma agree_suspend : agree suspend suspend.
Proof.
  intros [d t r st lv c k o lg] [d' t' r' st' lv' c' k' o' lg'].
  unfold same_but_summaries_world. cbn. intros [Hd [-> [-> [-> [-> [-> [-> [-> ->]]]]]]]].
  destruct o' as [|batch rest]; cbn; alike. now apply same_run_ops.
Qed.

Lemma agree_emit (e : Event) : agree (emit e) (emit e).
Proof.
  intros [d t r st lv c k o lg] [d' t' r' st' lv' c' k' o' lg'].
  unfold same_but_summaries_world. cbn. intros [Hd [-> [-> [-> [-> [-> [-> [-> ->]]]]]]]].
  alike.
Qed.

Lemma agree_await {A : Type} (e : Event) (call call' : M A) :
  agree call call' -> agree (await e call) (await e call').
Proof.
  intros H. unfold await.
  apply agree_bind; [apply agree_suspend|]. intros _.
  apply agree_bind; [apply agree_emit|]. intros _. exact H.
Qed.

Lemma agree_read {A : Type} (f : Database.Store -> A) :
  (forall d d', Database.same_but_summaries d d' -> f d = f d') ->
  agree (fun w => (f (db w), w)) (fun w => (f (db w), w)).
Proof. intros Hf w w' H. cbn [fst snd]. split; [apply Hf, H | exact H]. Qed.

Lemma agree_read_clock : agree (read_clock s) (read_clock s').
Proof.
  destruct Hservices as [_ [_ [_ Hnow]]].
  intros [d t r st lv c k o lg] [d' t' r' st' lv' c' k' o' lg'].
  unfold same_but_summaries_world, read_clock. cbn.
  intros [Hd [-> [-> [-> [-> [-> [-> [-> ->]]]]]]]].
  rewrite Hnow. alike.
Qed.

Lemma agree_add_news (t su su' u n : string) :
  agree (add_news s t su u n) (add_news s' t su' u n).
Proof.
  unfold add_news. apply agree_await.
  apply agree_bind; [apply agree_read_clock|]. intros now.
  intros [d tk r st lv c k o lg] [d' tk' r' st' lv' c' k' o' lg'].
  unfold same_but_summaries_world. cbn.
  intros [Hd [-> [-> [-> [-> [-> [-> [-> ->]]]]]]]].
  destruct (same_add_news now t su su' u n d d' Hd) as [Hsame Hok].
  destruct (Database.add_news now t su u n d) as [d1 ok].
  destruct (Database.add_news now t su' u n d') as [d1' ok'].
  cbn in *. subst ok'. alike.
Qed.

Lemma agree_set_stats (st : ParseStats) : agree (set_stats st) (set_stats st).
Proof.
  intros [d t r st0 lv c k o lg] [d' t' r' st0' lv' c' k' o' lg'].
  unfold same_but_summaries_world. cbn. intros [Hd [-> [-> [-> [-> [-> [-> [-> ->]]]]]]]].
  alike.
Qed.

Lemma agree_get_pending_count : agree get_pending_count get_pending_count.
Proof. apply agree_await, agree_read, same_pending_count. Qed.

Lemma agree_check_if_exists (t : string) : agree (check_if_exists t) (check_if_exists t).
Proof. apply agree_await, agree_read. intros d d'. apply same_check_if_exists. Qed.

Lemma agree_check_libretranslate_status :
  agree (check_libretranslate_status s) (check_libretranslate_status s').
Proof.
  unfold check_libretranslate_status. destruct Hservices as [-> _].
  apply agree_await, agree_ret.
Qed.

Lemma agree_scrape_all_sources : agree (scrape_all_sources s) (scrape_all_sources s').
Proof.
  unfold scrape_all_sources. destruct Hservices as [_ [-> _]].
  apply agree_await, agree_ret.
Qed.

Lemma agree_sleep (seconds : Z) : agree (sleep seconds) (sleep seconds).
Proof. apply agree_await, agree_ret. Qed.

Lemma translate_keeps_worlds_alike (text : string) (w w' : World) :
  same_but_summaries_world w w' ->
  same_but_summaries_world (snd (translate_to_russian s text w))
                           (snd (translate_to_russian s' text w')).
Proof.
  intros H. rewrite !translate_to_russian_run. cbn [snd].
  pose proof (agree_await (Translate text) (ret tt) (ret tt) (agree_ret tt) w w' H)
    as [_ Hw].
  now rewrite !await_arrive in Hw.
Qed.

Lemma agree_parse_step (item : Scraper.NewsItem) (a : Z) :
  agree (parse_step s item a) (parse_step s' item a).
Proof.
  unfold parse_step. apply agree_bind_any; [apply translate_keeps_worlds_alike|].
  intros tr tr'. apply agree_bind; [apply agree_add_news|]. intros ok. apply agree_ret.
Qed.

Lemma agree_parse_loop (max_to_add : Z) (news_items : list Scraper.NewsItem) :
  forall a, agree (parse_loop s max_to_add news_items a)
                  (parse_loop s' max_to_add news_items a).
Proof.
  induction news_items as [|item rest IH]; intros a; cbn [parse_loop].
  - apply agree_ret.
  - destruct (max_to_add <=? a); [apply agree_ret|].
    apply agree_bind; [apply agree_parse_step | exact IH].
Qed.

Lemma agree_api_parse_news_run :
  agree (api_parse_news_run s) (api_parse_news_run s').
Proof.
  unfold api_parse_news_run.
  apply agree_bind; [apply agree_check_libretranslate_status|]. intros lt_status.
  apply agree_bind; [apply agree_get_pending_count|]. intros pending. cbv zeta.
  destruct (Z.max 0 (10 - pending) =? 0); [apply agree_ret|].
  apply agree_bind; [apply agree_scrape_all_sources|]. intros [result|];
    [|apply agree_ret].
  cbv zeta. destruct (Scraper.items result) as [|item rest]; [apply agree_ret|].
  apply agree_bind; [apply agree_parse_loop|]. intros r.
  apply agree_bind; [apply agree_set_stats|]. intros _. apply agree_ret.
Qed.

Lemma agree_admit_step (needed : Z) (item : Scraper.NewsItem) (t : Tally) :
  agree (admit_step s needed item t) (admit_step s' needed item t).
Proof.
  unfold admit_step.
  apply agree_bind; [apply agree_check_if_exists|]. intros [|]; [apply agree_ret|].
  destruct (tally_added t <? needed); [|apply agree_ret].
  apply agree_bind_any; [apply translate_keeps_worlds_alike|]. intros tr tr'.
  apply agree_bind_any; [apply agree_add_news|]. intros _ _. apply agree_ret.
Qed.

Lemma agree_admit_loop (needed : Z) (news_items : list Scraper.NewsItem) :
  forall t, agree (admit_loop s needed news_items t) (admit_loop s' needed news_items t).
Proof.
  induction news_items as [|item rest IH]; intros t; cbn [admit_loop].
  - apply agree_ret.
  - apply agree_bind; [apply agree_admit_step | exact IH].
Qed.

Lemma agree_auto_send_iteration :
  agree (auto_send_iteration s) (auto_send_iteration s').
Proof.
  unfold auto_send_iteration.
  apply agree_bind; [apply agree_get_pending_count|]. intros pending.
  apply agree_bind.
  - destruct (pending <? 10); [|apply agree_ret].
    unfold auto_parse. cbv zeta.
    apply agree_bind; [apply agree_check_libretranslate_status|]. intros _.
    apply agree_bind; [apply agree_scrape_all_sources|]. intros [result|];
      [|apply agree_ret].
    cbv zeta. apply agree_bind; [apply agree_admit_loop|]. intros t.
    apply agree_bind; [apply agree_set_stats|]. intros _. apply agree_ret.
  - intros t. apply agree_bind; [apply agree_sleep|]. intros _. apply agree_ret.
Qed.


End TranslatorApart.

(** * Publishing, the loop and the other endpoints *)

Section PublishOutcomes.

Import Main.

Context {lib : Scraper.Library}.
Variable services : Services.

(** X19.  Nothing to publish: when the pending count of the table the
    request reads is 0, [api_send_telegram] answers 404 after its one
    query; the Publisher is not called, nothing is marked and the table is
    the one it read. *)
Theorem publish_without_pending (w : World) :
  Database.get_pending_count (seen w) = 0 ->
  exists w',
    api_send_telegram services w
    = (JSONResponse 404 "Нет новостей для отправки", w') /\
    log w' = (log w ++ [GetUnsentNews])%list /\
    db w' = seen w.
Proof.
  intros H. apply get_unsent_news_none in H.
  exists (arrive GetUnsentNews w). split.
  - unfold api_send_telegram, mbind. now rewrite get_unsent_news_run, H.
  - now rewrite arrive_log, arrive_db.
Qed.

Lemma api_send_telegram_response (w : World) (x : Database.Row) :
  Database.get_unsent_news (seen w) = Some x ->
  fst (api_send_telegram services w)
  = (let sent := TelegramBot.send_news_to_telegram (telegram services)
                   (Database.title x) (Database.summary_ru x)
                   (Database.source_url x) (Database.source_name x) in
     if fst sent then Sent (snd sent) (Database.title x)
     else JSONResponse 500 (snd sent)).
Proof.
  intros Hx. unfold api_send_telegram, mbind.
  rewrite get_unsent_news_run, Hx, send_news_to_telegram_run. cbv zeta.
  destruct (TelegramBot.send_news_to_telegram _ _ _ _ _) as [[|] message];
    cbv beta iota; cbn [fst snd]; [|reflexivity].
  unfold mbind. now rewrite mark_as_sent_run.
Qed.

(** X20.  A row is marked only on a 200 from Telegram.  With no other task
    running and [x] the row selected: when the post is answered 200 the
    request answers with the title of [x] and marks [x]; when it is answered
    with another status, times out or raises, the request answers 500 with
    a message and the table is left as it was. *)
Theorem marks_only_on_telegram_200 (w : World) (x : Database.Row) :
  quiet w ->
  Database.get_unsent_news (db w) = Some x ->
  let post := telegram services
                (TelegramBot.render (Database.title x) (Database.summary_ru x)
                                    (Database.source_url x) (Database.source_name x)) in
  let r := api_send_telegram services w in
  (forall json,
      post = TelegramBot.Answered 200 json ->
      fst r = Sent "Сообщение отправлено" (Database.title x) /\
      db (snd r) = Database.mark_as_sent (Database.id x) (db w)) /\
  (forall code json,
      post = TelegramBot.Answered code json -> code <> 200 ->
      (exists message, fst r = JSONResponse 500 message) /\ db (snd r) = db w) /\
  (post = TelegramBot.TimedOut ->
   fst r = JSONResponse 500 "Таймаут при отправке" /\ db (snd r) = db w) /\
  (forall err,
      post = TelegramBot.Failed err ->
      fst r = JSONResponse 500 ("Ошибка: " ++ err) /\ db (snd r) = db w).
Proof.
  intros Hq Hx. cbv zeta.
  assert (Hx' : Database.get_unsent_news (seen w) = Some x) by now rewrite seen_quiet.
  pose proof (api_send_telegram_response w x Hx') as Hresp. cbv zeta in Hresp.
  pose proof (api_send_telegram_failure services w x Hq Hx) as Hfail.
  pose proof (api_send_telegram_success services w x Hq Hx) as Hok.
  cbv zeta in Hfail, Hok.
  unfold TelegramBot.send_news_to_telegram in Hresp, Hfail, Hok.
  split; [|split; [|split]].
  - intros json E. rewrite E in *. cbn in Hresp, Hok.
    split; [exact Hresp | now apply Hok].
  - intros code json E Hcode. rewrite E in *. apply Z.eqb_neq in Hcode.
    rewrite Hcode in *. split.
    + destruct json as [err|[description|]]; cbn in Hresp; eexists; exact Hresp.
    + destruct json as [err|[description|]]; now apply Hfail.
  - intros E. rewrite E in *. split; [exact Hresp | now apply Hfail].
  - intros err E. rewrite E in *. split; [exact Hresp | now apply Hfail].
Qed.

End PublishOutcomes.

Section LoopOnFullQueue.

Import Main.

Context {lib : Scraper.Library}.
Variable services : Services.

Lemma full_queue_iteration (w : World) :
  10 <= Database.get_pending_count (seen w) ->
  auto_send_iteration services w
  = ((Database.get_pending_count (seen w), None),
     arrive (Sleep 30) (arrive GetPendingCount w)).
Proof.
  intros Hfull. unfold auto_send_iteration, mbind. rewrite get_pending_count_run.
  replace (Database.get_pending_count (seen w) <? 10) with false
    by (symmetry; now apply Z.ltb_ge).
  unfold ret. now rewrite sleep_run.
Qed.

Lemma auto_send_loop_stopped (turns : nat) (w : World) :
  auto_send_running w = false -> auto_send_loop services turns w = (tt, w).
Proof. intros H. destruct turns; cbn [auto_send_loop]; [reflexivity | now rewrite H]. Qed.

Lemma auto_send_loop_full_queue (turns : nat) :
  forall w,
    quiet w -> auto_send_running w = true ->
    10 <= Database.get_pending_count (db w) ->
    exists w',
      auto_send_loop services turns w = (tt, w') /\
      log w' = (log w ++ repeated turns [GetPendingCount; Sleep 30])%list /\
      db w' = db w /\
      last_auto_parse_stats w' = last_auto_parse_stats w /\
      auto_send_running w' = true.
Proof.
  induction turns as [|turns IH]; intros w Hq Hr Hfull.
  - exists w. cbn [auto_send_loop repeated]. unfold ret. rewrite app_nil_r.
    now repeat split.
  - cbn [auto_send_loop]. rewrite Hr. unfold mbind.
    rewrite full_queue_iteration by now rewrite (seen_quiet _ Hq).
    destruct (arrive_quiet GetPendingCount w Hq) as [Hq1 Hd1].
    destruct (arrive_quiet (Sleep 30) _ Hq1) as [Hq2 Hd2].
    destruct (IH (arrive (Sleep 30) (arrive GetPendingCount w)) Hq2)
      as [w' [Hrun [Hlog [Hdb [Hst Hrun']]]]].
    + now rewrite !arrive_running.
    + now rewrite Hd2, Hd1.
    + exists w'. split; [exact Hrun|]. split; [|split; [|split]].
      * rewrite Hlog, !arrive_log. cbn [repeated]. now rewrite <- !app_assoc.
      * congruence.
      * now rewrite Hst, !arrive_stats.
      * exact Hrun'.
Qed.

(** X21.  The loop on a full queue.  With no other task running and 10 or
    more rows pending, any number of turns of [auto_send_loop] consists of
    that many pairs of one count and one 30-second sleep: nothing is
    scraped, the table and the statistics stay as they were and the flag
    stays up.  With the flag down the loop makes no call at all. *)
Theorem loop_on_full_queue_only_polls (turns : nat) (w : World) :
  (quiet w -> auto_send_running w = true ->
   10 <= Database.get_pending_count (db w) ->
   exists w',
     auto_send_loop services turns w = (tt, w') /\
     log w' = (log w ++ repeated turns [GetPendingCount; Sleep 30])%list /\
     db w' = db w /\
     last_auto_parse_stats w' = last_auto_parse_stats w /\
     auto_send_running w' = true) /\
  (auto_send_running w = false -> auto_send_loop services turns w = (tt, w)).
Proof.
  split; [apply auto_send_loop_full_queue | apply auto_send_loop_stopped].
Qed.

End LoopOnFullQueue.

Section OtherEndpointsFacts.

Import Main.

Context {lib : Scraper.Library}.
Variable services : Services.

Lemma suspend_quiet (w : World) : quiet w -> suspend w = (tt, w).
Proof. unfold quiet, suspend. now intros ->. Qed.

Lemma await_unlogged_quiet {A : Type} (call : M A) (w : World) :
  quiet w -> await_unlogged call w = call w.
Proof. intros Hq. unfold await_unlogged, mbind. now rewrite suspend_quiet. Qed.

(** X22.  Clearing the table, with no other task running:
    [api_clear_database] reports the number of rows it deleted, which is the
    total count before, and leaves no row; a start request that follows
    while the scheduler is stopped is refused with 400 and a publish request
    that follows answers 404. *)
Theorem clear_then_start_or_publish (w : World) :
  quiet w -> auto_send_running w = false ->
  let r := api_clear_database w in
  cleared_deleted (fst r) = Database.get_news_count (db w) /\
  Database.rows (db (snd r)) = [] /\
  fst (api_start_auto_send (snd r))
  = JSONResponse 400 "Нет новостей в базе. Сначала выполните парсинг." /\
  auto_send_running (snd (api_start_auto_send (snd r))) = false /\
  live_tasks (snd (api_start_auto_send (snd r))) = live_tasks w /\
  fst (api_send_telegram services (snd r))
  = JSONResponse 404 "Нет новостей для отправки".
Proof.
  intros Hq Hr. cbv zeta. unfold api_clear_database, clear_all_news, mbind.
  rewrite (await_unlogged_quiet _ w Hq). unfold ret, with_db. cbn [fst snd db].
  cbn [Database.clear_all_news fst snd cleared_deleted].
  set (w1 := mkWorld _ _ _ _ _ _ _ _ _).
  assert (Hq1 : quiet w1) by exact Hq.
  assert (Hr1 : auto_send_running w1 = false) by exact Hr.
  assert (Hc1 : Database.get_news_count (seen w1) = 0)
    by now rewrite (seen_quiet _ Hq1).
  split; [reflexivity|]. split; [reflexivity|].
  rewrite (start_on_empty_store w1 Hr1 Hc1). cbn [fst snd].
  rewrite arrive_running, arrive_live. split; [reflexivity|].
  split; [exact Hr1|]. split; [reflexivity|].
  unfold api_send_telegram, mbind. rewrite get_unsent_news_run.
  now rewrite (seen_quiet _ Hq1).
Qed.

(** X23.  The status report, with no other task running and a table whose
    flags are 0 or 1: the total it shows is the pending count plus the sent
    count it shows, these are the counts of the table, the flag and the
    statistics are the process's, and the table is left as it was. *)
Theorem status_counts_add_up (w : World) :
  quiet w -> Database.flags_binary (db w) ->
  let r := api_status services w in
  status_news_count (fst r) = status_pending_count (fst r) + status_sent_count (fst r) /\
  status_news_count (fst r) = Database.get_news_count (db w) /\
  status_pending_count (fst r) = Database.get_pending_count (db w) /\
  status_auto_send (fst r) = auto_send_running w /\
  status_parse_stats (fst r) = last_auto_parse_stats w /\
  db (snd r) = db w.
Proof.
  intros Hq Hflags. cbv zeta. unfold api_status, mbind.
  rewrite check_libretranslate_status_run, get_news_count_run, get_pending_count_run.
  destruct (arrive_quiet CheckLibreTranslate w Hq) as [Hq1 Hd1].
  destruct (arrive_quiet GetNewsCount _ Hq1) as [Hq2 Hd2].
  destruct (arrive_quiet GetPendingCount _ Hq2) as [Hq3 Hd3].
  unfold get_sent_count. rewrite (await_unlogged_quiet _ _ Hq3).
  cbn [fst snd status_news_count status_pending_count status_sent_count
         status_auto_send status_parse_stats].
  rewrite (seen_quiet _ Hq1), (seen_quiet _ Hq2), Hd3, Hd2, Hd1.
  rewrite !arrive_running, !arrive_stats.
  repeat split.
  unfold Database.get_news_count, Database.get_pending_count, Database.get_sent_count.
  now apply partition_by_flag.
Qed.

End OtherEndpointsFacts.

Section PagesAndShutdown.

Import Main.

Context {lib : Scraper.Library}.

Lemma partition_perm (rs : list Database.Row) :
  (forall r, In r rs -> Database.sent_to_telegram r = 0 \/ Database.sent_to_telegram r = 1) ->
  Permutation (filter Database.is_unsent rs ++ filter Database.is_sent rs) rs.
Proof.
  induction rs as [|r rs IH]; intros H; [constructor|].
  assert (Hr : Database.sent_to_telegram r = 0 \/ Database.sent_to_telegram r = 1)
    by (apply H; now left).
  assert (IH' : Permutation (filter Database.is_unsent rs ++ filter Database.is_sent rs) rs)
    by (apply IH; intros r' Hr'; apply H; now right).
  cbn [filter]. unfold Database.is_unsent at 1, Database.is_sent at 1.
  destruct Hr as [-> | ->]; cbn [Z.eqb Pos.eqb].
  - cbn [app]. now constructor.
  - symmetry. apply Permutation_cons_app. now symmetry.
Qed.

(** X24.  The pages, with no other task running.  [api_get_news] returns
    every row once, newest first, with their number as [count].  On a table
    whose flags are 0 or 1, the pending list and the sent list of [index]
    together hold exactly the rows of its full list, each list newest
    first, and no row is in both. *)
Theorem pages_list_every_row (w : World) :
  quiet w ->
  (let r := fst (api_get_news w) in
   Permutation (list_news r) (Database.rows (db w)) /\
   StronglySorted Database.dated_after (list_news r) /\
   list_count r = Database.get_news_count (db w)) /\
  (Database.flags_binary (db w) ->
   let page := fst (index w) in
   Permutation (page_pending_news page ++ page_sent_news page) (page_news page) /\
   StronglySorted Database.dated_after (page_news page) /\
   StronglySorted Database.dated_after (page_pending_news page) /\
   StronglySorted Database.dated_after (page_sent_news page) /\
   (forall r, In r (page_pending_news page) -> ~ In r (page_sent_news page)) /\
   page_auto_send_running page = auto_send_running w).
Proof.
  intros Hq. split.
  - cbv zeta. unfold api_get_news, get_all_news, mbind.
    rewrite (await_unlogged_quiet _ w Hq). unfold ret.
    cbn [fst list_news list_count]. unfold Database.get_all_news.
    split; [apply order_by_date_desc_perm|].
    split; [apply order_by_date_desc_sorted|].
    unfold Database.get_news_count, len. f_equal.
    apply Permutation_length, order_by_date_desc_perm.
  - intros Hflags. cbv zeta.
    unfold index, get_all_news, get_pending_news, get_sent_news, mbind.
    rewrite !(await_unlogged_quiet _ w Hq).
    cbn [fst page_news page_pending_news page_sent_news page_auto_send_running].
    unfold Database.get_all_news, Database.get_pending_news, Database.get_sent_news.
    split; [|split; [|split; [|split; [|split]]]];
      try apply order_by_date_desc_sorted; try reflexivity.
    + rewrite !order_by_date_desc_perm. now apply partition_perm.
    + intros r Hp Hs. apply order_by_date_desc_In, filter_In in Hp.
      apply order_by_date_desc_In, filter_In in Hs.
      destruct Hp as [_ Hp], Hs as [_ Hs].
      unfold Database.is_unsent, Database.is_sent in *.
      apply Z.eqb_eq in Hp, Hs. congruence.
Qed.


End PagesAndShutdown.

(** * The further properties on concrete tables, sites and schedules *)

Section FurtherRuns.

Import Examples.

Lemma counts_add_up_witness :
  let calls := [Database.OpAdd (stamp 0) "A" "s" "u" "n";
                Database.OpAdd (stamp 1) "B" "s" "u" "n";
                Database.OpMarkSent 1] in
  Database.flags_binary Database.empty /\
  Database.flags_binary (Database.run_ops calls Database.empty) /\
  Database.get_news_count (Database.run_ops calls Database.empty)
  = Database.get_pending_count (Database.run_ops calls Database.empty)
    + Database.get_sent_count (Database.run_ops calls Database.empty).
Proof.
  cbv zeta. assert (H : Database.flags_binary Database.empty) by (intros r []).
  split; [exact H|]. apply counts_add_up. exact H.
Defined.

Lemma add_news_then_exists_witness :
  let after := fst (Database.add_news (stamp 1) "B" "s" "u" "n" holds_a) in
  "A" <> "B" /\
  Database.check_if_exists "B" after = true /\
  snd (Database.add_news (stamp 1) "B" "s" "u" "n" holds_a) = true /\
  Database.check_if_exists "A" after = Database.check_if_exists "A" holds_a.
Proof.
  cbv zeta. split; [discriminate|].
  destruct (add_news_then_exists (stamp 1) "B" "s" "u" "n" holds_a) as [H1 [H2 H3]].
  split; [exact H1|]. split; [exact H2|]. apply H3. discriminate.
Defined.

Lemma add_news_adds_one_pending_witness :
  (snd (Database.add_news (stamp 1) "B" "s" "u" "n" holds_a) = true /\
   snd (Database.add_news (stamp 1) "A" "s" "u" "n" holds_a) = false) /\
  Database.get_pending_count (fst (Database.add_news (stamp 1) "B" "s" "u" "n" holds_a))
  = Database.get_pending_count holds_a + 1 /\
  fst (Database.add_news (stamp 1) "A" "s" "u" "n" holds_a) = holds_a.
Proof.
  split; [split; reflexivity|]. split.
  - destruct (proj1 (add_news_adds_one_pending (stamp 1) "B" "s" "u" "n" holds_a) eq_refl)
      as [i [_ [_ [_ [H _]]]]].
    exact H.
  - apply (proj2 (add_news_adds_one_pending (stamp 1) "A" "s" "u" "n" holds_a)).
    reflexivity.
Defined.

Lemma primary_keys_stay_unique_witness :
  let calls := [Database.OpAdd (stamp 0) "A" "s" "u" "n";
                Database.OpClear;
                Database.OpAdd (stamp 1) "A" "s" "u" "n";
                Database.OpAdd (stamp 2) "B" "s" "u" "n"] in
  Database.unique_ids two_unsent /\
  Database.unique_ids (Database.run_ops calls two_unsent).
Proof.
  cbv zeta.
  assert (H : Database.unique_ids two_unsent).
  { repeat constructor; cbn; intros H; repeat destruct H as [H|H];
      try discriminate; assumption. }
  split; [exact H|]. apply primary_keys_stay_unique. exact H.
Defined.

Lemma mark_as_sent_moves_one_witness :
  let x := Database.mkRow 1 "2025-01-01T10:00:00" "Older" "s1" "u1" "n1" 0 in
  (Database.unique_ids two_unsent /\ In x (Database.rows two_unsent) /\
   Database.is_unsent x = true) /\
  Database.get_pending_count (Database.mark_as_sent 1 two_unsent) = 2 - 1 /\
  Database.get_sent_count (Database.mark_as_sent 1 two_unsent) = 0 + 1 /\
  Database.get_news_count (Database.mark_as_sent 1 two_unsent) = 2.
Proof.
  cbv zeta.
  assert (H : Database.unique_ids two_unsent).
  { repeat constructor; cbn; intros H; repeat destruct H as [H|H];
      try discriminate; assumption. }
  split; [split; [exact H | split; [now left | reflexivity]]|].
  apply (mark_as_sent_moves_one
           (Database.mkRow 1 "2025-01-01T10:00:00" "Older" "s1" "u1" "n1" 0) two_unsent);
    [exact H | now left | reflexivity].
Defined.

Lemma adapter_items_bounded_witness :
  Scraper.techcrunch_body (lib := plain)
    (site techcrunch_url [card "A" "/a"; card "B" "/b"]) = Returns [item_a; item_b] /\
  len [item_a; item_b] <= 20 /\
  forall item, In item [item_a; item_b] ->
               Scraper.source item = "TechCrunch" /\ Scraper.summary_ok item.
Proof.
  split; [reflexivity|].
  apply (proj1 (adapter_items_bounded (lib := plain)
                  (site techcrunch_url [card "A" "/a"; card "B" "/b"])
                  [item_a; item_b])).
  reflexivity.
Defined.

Lemma scrape_result_is_consistent_witness :
  exists result,
    Scraper.scrape_all_sources (lib := plain) lists_a_b = Returns result /\
    exists tc tv vb,
      Scraper.sources result
      = [("TechCrunch", tc); ("The Verge", tv); ("VentureBeat", vb)] /\
      len (Scraper.items result) = Scraper.count tc + Scraper.count tv + Scraper.count vb /\
      len (Scraper.items result) <= 60 /\
      (0 <= Scraper.count tc <= 20 /\
       (Scraper.status tc = Scraper.offline -> Scraper.count tc = 0)) /\
      (0 <= Scraper.count tv <= 20 /\
       (Scraper.status tv = Scraper.offline -> Scraper.count tv = 0)) /\
      (0 <= Scraper.count vb <= 20 /\
       (Scraper.status vb = Scraper.offline -> Scraper.count vb = 0)).
Proof.
  eexists. split; [reflexivity|].
  apply (scrape_result_is_consistent (lib := plain) lists_a_b). reflexivity.
Defined.

Lemma failures_outside_try_abort_witness :
  (Scraper.launch no_browser = Raises /\
   exists browser, Scraper.launch no_context = Returns browser /\
                   Scraper.context_fails browser 0) /\
  Scraper.scrape_all_sources (lib := plain) no_browser = Raises /\
  Scraper.scrape_all_sources (lib := plain) no_context = Raises.
Proof.
  split; [split; [reflexivity|]|].
  - eexists. split; [reflexivity|]. now left.
  - split.
    + apply (proj1 (failures_outside_try_abort (lib := plain) no_browser)). reflexivity.
    + apply (proj2 (failures_outside_try_abort (lib := plain) no_context)
               (Scraper.mkBrowser (fun _ => Raises) (Returns tt)) eq_refl).
      left. now left.
Defined.

Lemma scrape_failure_is_contained_witness :
  let w := Main.boot (backlog 1) in
  let s := services no_context 200 in
  (Main.quiet w /\ Database.get_pending_count (Main.db w) < 10 /\
   Scraper.scrape_all_sources (lib := plain) (Main.playwright s) = Raises) /\
  (exists w',
      Main.auto_send_iteration (lib := plain) s w = ((1, None), w') /\
      Main.log w' = [Main.GetPendingCount; Main.CheckLibreTranslate;
                     Main.ScrapeAllSources; Main.Sleep 30] /\
      Main.db w' = backlog 1) /\
  (exists w',
      Main.api_parse_news (lib := plain) s w = (Main.Unhandled, w') /\
      Main.db w' = backlog 1).
Proof.
  cbv zeta. split; [repeat split|].
  destruct (scrape_failure_is_contained (lib := plain) (services no_context 200)
              (Main.boot (backlog 1))) as [[w1 [H1 [H2 [H3 _]]]] [w2 [H4 [_ [H5 _]]]]];
    try reflexivity.
  split; [exists w1 | exists w2]; repeat split; assumption.
Defined.

Lemma parse_request_early_exits_witness :
  let full := Main.boot (backlog 10) in
  let short := Main.boot (backlog 1) in
  let s := services lists_nothing 200 in
  (Main.quiet full /\ 10 <= Database.get_pending_count (Main.db full) /\
   Main.quiet short /\ Database.get_pending_count (Main.db short) < 10 /\
   exists result,
     Scraper.scrape_all_sources (lib := plain) (Main.playwright s) = Returns result /\
     Scraper.items result = []) /\
  fst (Main.api_parse_news (lib := plain) s full)
  = Main.Parsed "В базе уже 10 ожидающих новостей" 0 (Some 0) None /\
  fst (Main.api_parse_news (lib := plain) s short)
  = Main.Parsed "Новости не найдены" 0 None None.
Proof.
  cbv zeta. split.
  - repeat split; try discriminate. eexists. split; reflexivity.
  - split.
    + destruct (proj1 (parse_request_early_exits (lib := plain)
                         (services lists_nothing 200) (Main.boot (backlog 10)) eq_refl))
        as [w' [H _]]; [discriminate|].
      now rewrite H.
    + destruct (proj2 (parse_request_early_exits (lib := plain)
                         (services lists_nothing 200) (Main.boot (backlog 1)) eq_refl)
                  _ eq_refl eq_refl eq_refl) as [w' [H _]].
      now rewrite H.
Defined.

Lemma pending_queue_stays_bounded_witness :
  let w := Main.boot (backlog 9) in
  let s := services lists_a_b 200 in
  Main.quiet w /\
  (9 <= Database.get_pending_count (Main.db (snd (Main.api_parse_news (lib := plain) s w)))
   <= Z.max 10 9) /\
  (9 <= Database.get_pending_count
          (Main.db (snd (Main.auto_send_iteration (lib := plain) s w)))
   <= Z.max 10 9).
Proof.
  cbv zeta. split; [reflexivity|].
  apply (pending_queue_stays_bounded (lib := plain) (services lists_a_b 200)
           (Main.boot (backlog 9))).
  reflexivity.
Defined.

Lemma stored_candidates_are_only_counted_witness :
  let w := Main.boot holds_a in
  (Main.quiet w /\
   forall item, In item [item_a; item_a] ->
                Database.check_if_exists (Scraper.title item) (Main.db w) = true) /\
  exists w',
    Main.admit_loop (services lists_a 200) 3 [item_a; item_a] (Main.mkTally 0 0 0) w
    = (Main.mkTally 0 (0 + len [item_a; item_a]) 0, w') /\
    Main.db w' = holds_a /\
    Main.log w' = [Main.CheckIfExists "A"; Main.CheckIfExists "A"].
Proof.
  cbv zeta.
  assert (H : forall item, In item [item_a; item_a] ->
                Database.check_if_exists (Scraper.title item) (Main.db (Main.boot holds_a))
                = true).
  { intros item [<-|[<-|[]]]; reflexivity. }
  split; [split; [reflexivity | exact H]|].
  apply (stored_candidates_are_only_counted (services lists_a 200) 3 [item_a; item_a]
           (Main.mkTally 0 0 0) (Main.boot holds_a) eq_refl H).
Defined.



Lemma publish_without_pending_witness :
  let w := Main.boot Database.empty in
  Database.get_pending_count (Main.seen w) = 0 /\
  exists w',
    Main.api_send_telegram (services lists_a 200) w
    = (Main.JSONResponse 404 "Нет новостей для отправки", w') /\
    Main.log w' = [Main.GetUnsentNews] /\
    Main.db w' = Database.empty.
Proof.
  cbv zeta. split; [reflexivity|].
  apply (publish_without_pending (services lists_a 200) (Main.boot Database.empty)).
  reflexivity.
Defined.

Lemma marks_only_on_telegram_200_witness :
  let w := Main.boot two_unsent in
  let x := Database.mkRow 2 "2025-01-02T10:00:00" "Newer" "s2" "u2" "n2" 0 in
  (Main.quiet w /\ Database.get_unsent_news (Main.db w) = Some x) /\
  (fst (Main.api_send_telegram (services lists_a 200) w)
   = Main.Sent "Сообщение отправлено" "Newer" /\
   Main.db (snd (Main.api_send_telegram (services lists_a 200) w))
   = Database.mark_as_sent 2 two_unsent) /\
  ((exists message,
       fst (Main.api_send_telegram (services lists_a 403) w)
       = Main.JSONResponse 500 message) /\
   Main.db (snd (Main.api_send_telegram (services lists_a 403) w)) = two_unsent).
Proof.
  cbv zeta. split; [split; reflexivity|]. split.
  - apply (proj1 (marks_only_on_telegram_200 (services lists_a 200) (Main.boot two_unsent)
                    (Database.mkRow 2 "2025-01-02T10:00:00" "Newer" "s2" "u2" "n2" 0)
                    eq_refl eq_refl) (inr None)).
    reflexivity.
  - apply (proj1 (proj2 (marks_only_on_telegram_200 (services lists_a 403)
                           (Main.boot two_unsent)
                           (Database.mkRow 2 "2025-01-02T10:00:00" "Newer" "s2" "u2" "n2" 0)
                           eq_refl eq_refl)) 403 (inr None)).
    + reflexivity.
    + discriminate.
Defined.

Lemma loop_on_full_queue_only_polls_witness :
  let w := started 10 in
  let s := services lists_a_b 200 in
  (Main.quiet w /\ Main.auto_send_running w = true /\
   10 <= Database.get_pending_count (Main.db w) /\
   Main.auto_send_running (Main.boot (backlog 10)) = false) /\
  (exists w',
      Main.auto_send_loop (lib := plain) s 3 w = (tt, w') /\
      Main.log w' = (Main.log w ++ [Main.GetPendingCount; Main.Sleep 30;
                                    Main.GetPendingCount; Main.Sleep 30;
                                    Main.GetPendingCount; Main.Sleep 30])%list /\
      Main.db w' = backlog 10) /\
  Main.auto_send_loop (lib := plain) s 3 (Main.boot (backlog 10))
  = (tt, Main.boot (backlog 10)).
Proof.
  cbv zeta. split; [repeat split; discriminate|].
  destruct (loop_on_full_queue_only_polls (lib := plain) (services lists_a_b 200) 3
              (started 10)) as [H _].
  destruct (loop_on_full_queue_only_polls (lib := plain) (services lists_a_b 200) 3
              (Main.boot (backlog 10))) as [_ H'].
  split; [|apply H'; reflexivity].
  destruct (H eq_refl eq_refl) as [w' [H1 [H2 [H3 _]]]]; [vm_compute; discriminate|].
  exists w'. split; [exact H1|]. split; [exact H2 | exact H3].
Defined.

Lemma clear_then_start_or_publish_witness :
  let w := Main.boot two_unsent in
  let r := Main.api_clear_database w in
  (Main.quiet w /\ Main.auto_send_running w = false) /\
  Main.cleared_deleted (fst r) = 2 /\
  Database.rows (Main.db (snd r)) = [] /\
  fst (Main.api_start_auto_send (snd r))
  = Main.JSONResponse 400 "Нет новостей в базе. Сначала выполните парсинг." /\
  fst (Main.api_send_telegram (services lists_a 200) (snd r))
  = Main.JSONResponse 404 "Нет новостей для отправки".
Proof.
  cbv zeta. split; [split; reflexivity|].
  destruct (clear_then_start_or_publish (services lists_a 200) (Main.boot two_unsent)
              eq_refl eq_refl) as [H1 [H2 [H3 [_ [_ H4]]]]].
  split; [exact H1|]. split; [exact H2|]. split; [exact H3 | exact H4].
Defined.

Lemma status_counts_add_up_witness :
  let w := Main.boot one_sent in
  let r := Main.api_status (services lists_a 200) w in
  (Main.quiet w /\ Database.flags_binary (Main.db w)) /\
  Main.status_news_count (fst r)
  = Main.status_pending_count (fst r) + Main.status_sent_count (fst r) /\
  Main.status_news_count (fst r) = 2 /\
  Main.status_pending_count (fst r) = 1 /\
  Main.db (snd r) = one_sent.
Proof.
  cbv zeta.
  assert (H : Database.flags_binary (Main.db (Main.boot one_sent))).
  { intros r [<-|[<-|[]]]; [now right | now left]. }
  split; [split; [reflexivity | exact H]|].
  destruct (status_counts_add_up (services lists_a 200) (Main.boot one_sent) eq_refl H)
    as [H1 [H2 [H3 [_ [_ H4]]]]].
  split; [exact H1|]. split; [exact H2|]. split; [exact H3 | exact H4].
Defined.

Lemma pages_list_every_row_witness :
  let w := Main.boot one_sent in
  (Main.quiet w /\ Database.flags_binary (Main.db w)) /\
  (Permutation (Main.list_news (fst (Main.api_get_news w))) (Database.rows one_sent) /\
   Main.list_count (fst (Main.api_get_news w)) = 2) /\
  Permutation (Main.page_pending_news (fst (Main.index w))
               ++ Main.page_sent_news (fst (Main.index w)))
              (Main.page_news (fst (Main.index w))).
Proof.
  cbv zeta.
  assert (H : Database.flags_binary (Main.db (Main.boot one_sent))).
  { intros r [<-|[<-|[]]]; [now right | now left]. }
  split; [split; [reflexivity | exact H]|].
  destruct (pages_list_every_row (Main.boot one_sent) eq_refl) as [[H1 [_ H2]] H3].
  split; [split; [exact H1 | exact H2]|].
  apply (H3 H).
Defined.


End FurtherRuns.
